(** * fftools/ffmpeg_hw.c: hardware device registry, device specification
      parser, codec capability matching, pipeline binding and audio remix.

    A shallow embedding of [src/fftools/ffmpeg_hw.c].  The two globals
    [hw_devices] / [nb_hw_devices] become a field of an explicit [World];
    every call into libavutil / libavcodec / libavformat / libavfilter is a
    field of an environment record [Env] whose answer may depend on the
    history of calls made so far, and is recorded in the world's trace. *)

From Stdlib Require Import ZArith List String Ascii Bool Lia Arith.
From Stdlib Require Import DecimalString.
Import ListNotations.

Local Open Scope string_scope.
Local Open Scope Z_scope.



(* ===================================================================== *)
(** ** Error codes (libavutil/error.h over <errno.h>) *)
(* ===================================================================== *)

Module Errno.
(** The values of <errno.h>; the development only relies on their being
    positive and pairwise distinct. *)
Definition EAGAIN : Z := 11.
Definition ENOMEM : Z := 12.
Definition EINVAL : Z := 22.
Definition ENOSYS : Z := 38.
End Errno.
Import Errno.

(** [#define AVERROR(e) (-(e))] *)
Definition AVERROR (e : Z) : Z := - e.

(** [#define AVERROR_EOF FFERRTAG('E','O','F',' ')], i.e.
    [-MKTAG('E','O','F',' ')]. *)
Definition MKTAG (a b c d : Z) : Z :=
  Z.lor a (Z.lor (Z.shiftl b 8) (Z.lor (Z.shiftl c 16) (Z.shiftl d 24))).
Definition AVERROR_EOF : Z := - MKTAG 69 79 70 32.

(* ===================================================================== *)
(** ** C strings *)
(* ===================================================================== *)

Module CStr.

(** [*p]: the character a pointer into a string points at; the
    terminating NUL is [None]. *)
Definition deref (p : string) : option ascii :=
  match p with
  | EmptyString => None
  | String c _ => Some c
  end.

(** [p + k] for [k <= strlen(p)]. *)
Fixpoint advance (k : nat) (p : string) : string :=
  match k, p with
  | O, _ => p
  | S k', String _ p' => advance k' p'
  | S _, EmptyString => EmptyString
  end.

Fixpoint mem (c : ascii) (set : string) : bool :=
  match set with
  | EmptyString => false
  | String d set' => Ascii.eqb c d || mem c set'
  end.

(** [strcspn(s, reject)]: length of the longest prefix of [s] that has no
    character of [reject]. *)
Fixpoint strcspn (s reject : string) : nat :=
  match s with
  | EmptyString => O
  | String c s' => if mem c reject then O else S (strcspn s' reject)
  end.

(** [av_strndup(s, k)]: the first [k] characters of [s] (fewer when [s]
    is shorter). *)
Fixpoint strndup (s : string) (k : nat) : string :=
  match k, s with
  | O, _ => EmptyString
  | S k', String c s' => String c (strndup s' k')
  | S _, EmptyString => EmptyString
  end.

(** [strchr(p, c)] for [c <> 0]: [Some k] when the first [c] is at
    [p + k], [None] for a NULL result. *)
Fixpoint strchr (p : string) (c : ascii) : option nat :=
  match p with
  | EmptyString => None
  | String d p' =>
      if Ascii.eqb d c then Some O
      else match strchr p' c with
           | Some k => Some (S k)
           | None => None
           end
  end.

(** [snprintf(buf, size, "%s%d", s, n)] for [n >= 0]: at most [size - 1]
    characters of the formatted text are stored. *)
Definition decimal (n : nat) : string :=
  NilZero.string_of_uint (Nat.to_uint n).

Definition snprintf_s_d (size : nat) (s : string) (n : nat) : string :=
  strndup (s ++ decimal n) (size - 1).

(** no character of [s] belongs to [reject] *)
Fixpoint avoids (s reject : string) : bool :=
  match s with
  | EmptyString => true
  | String c s' => negb (mem c reject) && avoids s' reject
  end.

End CStr.

(* ===================================================================== *)
(** ** Data model (ffmpeg.h, libavutil, libavcodec) *)
(* ===================================================================== *)

(** [enum AVHWDeviceType]; [AV_HWDEVICE_TYPE_NONE] is its zero. *)
Definition AVHWDeviceType := Z.
Definition AV_HWDEVICE_TYPE_NONE : AVHWDeviceType := 0.

(** An [AVBufferRef *] is [option AVBufferRef]: [None] is NULL, [Some r]
    a reference to the buffer identified by [r]. *)
Definition AVBufferRef := Z.

(** [AVDictionary]: the key/value pairs, in insertion order. *)
Definition AVDictionary := list (string * string).

(** [typedef struct HWDevice { const char *name; enum AVHWDeviceType type;
    AVBufferRef *device_ref; } HWDevice;] *)
Record HWDevice := mkHWDevice {
  name : option string;
  type : AVHWDeviceType;
  device_ref : option AVBufferRef
}.

(** What [av_mallocz(sizeof(HWDevice))] returns. *)
Definition HWDevice_zero : HWDevice :=
  mkHWDevice None AV_HWDEVICE_TYPE_NONE None.

(** [AVCodecHWConfig]: one entry of a codec's hardware-config table. *)
Record AVCodecHWConfig := mkHWConfig {
  pix_fmt : Z;
  methods : Z;
  device_type : AVHWDeviceType
}.

Definition AV_CODEC_HW_CONFIG_METHOD_HW_DEVICE_CTX : Z := 1.
Definition AV_CODEC_HW_CONFIG_METHOD_HW_FRAMES_CTX : Z := 2.

(** [AVCodec]: only its NULL-terminated [hw_configs] table is read here. *)
Record AVCodec := mkCodec {
  codec_id : Z;
  hw_configs : list AVCodecHWConfig
}.

(** [avcodec_get_hw_config(codec, i)] for [i >= 0]: entry [i] of the table,
    NULL from the terminator on. *)
Definition avcodec_get_hw_config (codec : AVCodec) (i : nat)
  : option AVCodecHWConfig :=
  nth_error (hw_configs codec) i.

(** [AVCodecContext]: of a codec context this file reads [codec] and
    nothing else.  It hands the context to libavcodec; what the library
    keeps in it is not visible here and shows only in the library's later
    answers, which depend on the calls made so far. *)
Record AVCodecContext := mkCodecCtx {
  codec : AVCodec
}.

(** [AVFrame], audio side: the channel planes [data[0..]] (a plane is its
    bytes; the pointers beyond the last plane are NULL), [linesize[0]],
    the fields [remix_audio] copies by hand, and the properties
    [av_frame_copy_props] carries over (time stamps). *)
Record FrameProps := mkProps {
  pts : Z;
  pkt_dts : Z
}.

Record AVFrame := mkFrame {
  data : list (list Z);
  linesize0 : nat;
  channel_layout : Z;
  sample_rate : Z;
  format : Z;
  nb_samples : Z;
  props : FrameProps
}.

(* ===================================================================== *)
(** ** The world: registry globals and the trace of library calls *)
(* ===================================================================== *)

Inductive allocator :=
| A_strndup | A_malloc | A_reallocp_array | A_mallocz
| A_frame_alloc | A_buffer_ref.

Inductive log_msg :=
| LogInvalidSpec (arg errmsg : string)
    (* "Invalid device specification \"%s\": %s\n" *)
| LogCreationFailed (err : Z)
    (* "Device creation failed: %d.\n" *)
| LogError (msg : string).

Inductive event :=
| EvAlloc (a : allocator) (ok : bool)
| EvLog (m : log_msg)
| EvDictParse (str : string) (ret : Z)
| EvCtxCreate (ty : AVHWDeviceType) (device : option string)
              (opts : AVDictionary) (ret : Z)
| EvCtxCreateDerived (ty : AVHWDeviceType) (src : option AVBufferRef)
                     (ret : Z)
| EvBufferUnref (ref : option AVBufferRef)
| EvSetHWDeviceCtx (ref : option AVBufferRef) (ret : Z)
| EvGetHWFramesParameters (dev : option AVBufferRef) (fmt : Z) (ret : Z)
| EvSetHWFramesCtx (ref : option AVBufferRef) (ret : Z)
| EvOptSet (node : nat) (key val : option string) (ret : Z)
| EvReadFrame (ret : Z) (stream_index : Z)
| EvSendPacket (ret : Z)
| EvReceiveFrame (frame : option AVFrame) (ret : Z)
| EvFrameGetBuffer (ret : Z)
| EvPacketUnref
| EvFrameFree (frame : option AVFrame).

(** [hw_devices] holds the [nb_hw_devices] registered entries of the
    global array, so that [nb_hw_devices] is its length.  [trace] lists
    the library calls made so far, newest first. *)
Record World := mkWorld {
  hw_devices : list HWDevice;
  trace : list event
}.

Definition nb_hw_devices (w : World) : nat := List.length (hw_devices w).

Definition emit (e : event) (w : World) : World :=
  mkWorld (hw_devices w) (e :: trace w).

Definition set_hw_devices (l : list HWDevice) (w : World) : World :=
  mkWorld l (trace w).

(** The libraries the file is linked against.  Every answer may depend on
    the calls made before it. *)
Record Env := mkEnv {
  (* does the next request to this allocator succeed? *)
  alloc_ok : list event -> allocator -> bool;
  (* libavutil/hwcontext.h *)
  av_hwdevice_find_type_by_name : string -> AVHWDeviceType;
  (* NULL for a type that is not valid *)
  av_hwdevice_get_type_name : AVHWDeviceType -> option string;
  av_hwdevice_ctx_create :
    list event -> AVHWDeviceType -> option string -> AVDictionary ->
    Z * option AVBufferRef;
  av_hwdevice_ctx_create_derived :
    list event -> AVHWDeviceType -> option AVBufferRef ->
    Z * option AVBufferRef;
  (* libavutil/dict.h, with "=" and "," as separators *)
  av_dict_parse_string : list event -> string -> Z * AVDictionary;
  (* libavcodec *)
  avcodec_find_decoder : Z -> option AVCodec;
  avcodec_set_hw_device_ctx :
    list event -> AVCodecContext -> option AVBufferRef -> Z;
  avcodec_get_hw_frames_parameters :
    list event -> AVCodecContext -> option AVBufferRef -> Z ->
    option AVBufferRef -> Z * option AVBufferRef;
  avcodec_set_hw_frames_ctx :
    list event -> AVCodecContext -> option AVBufferRef -> Z;
  avcodec_send_packet : list event -> AVCodecContext -> Z;
  avcodec_receive_frame :
    list event -> AVCodecContext -> option AVFrame -> Z * AVFrame;
  (* libavformat *)
  av_read_frame : list event -> Z * Z;
  (* libavfilter / libavutil/opt.h *)
  av_opt_set : list event -> nat -> option string -> option string -> Z;
  (* libavutil/frame.h *)
  av_frame_get_buffer : list event -> AVFrame -> Z * (list (list Z) * nat)
}.

(** What a call comes to: it returns a value, or it reads through a NULL
    pointer and has no defined result. *)
Inductive call (A : Type) : Type :=
| Returns (a : A)
| Crashes.

Arguments Returns {A} a.
Arguments Crashes {A}.

(** One allocation request: ask the environment, record the answer. *)
Definition alloc (E : Env) (a : allocator) (w : World) : bool * World :=
  let ok := alloc_ok E (trace w) a in
  (ok, emit (EvAlloc a ok) w).

(* ===================================================================== *)
(** ** Device registry *)
(* ===================================================================== *)

(** The loop of [hw_device_get_by_type] from entry [i] on, [found] being
    the local of that name. *)
Fixpoint hw_device_get_by_type_from (devs : list HWDevice)
    (ty : AVHWDeviceType) (found : option HWDevice) : option HWDevice :=
  match devs with
  | [] => found
  | d :: rest =>
      if type d =? ty then
        match found with
        | Some _ => None
        | None => hw_device_get_by_type_from rest ty (Some d)
        end
      else hw_device_get_by_type_from rest ty found
  end.

Definition hw_device_get_by_type (w : World) (ty : AVHWDeviceType)
  : option HWDevice :=
  hw_device_get_by_type_from (hw_devices w) ty None.

(** [!strcmp(hw_devices[i]->name, name)].  A registered device always has
    a name (it is assigned right after [hw_device_add]); a NULL one is
    taken not to compare equal. *)
Definition name_is (d : HWDevice) (n : string) : bool :=
  match name d with
  | Some s => String.eqb s n
  | None => false
  end.

Fixpoint hw_device_get_by_name_from (devs : list HWDevice) (n : string)
  : option HWDevice :=
  match devs with
  | [] => None
  | d :: rest => if name_is d n then Some d
                 else hw_device_get_by_name_from rest n
  end.

Definition hw_device_get_by_name (w : World) (n : string)
  : option HWDevice :=
  hw_device_get_by_name_from (hw_devices w) n.

(** [hw_device_add]: the result is the slot of the new zeroed device, a
    pointer into the registry, or [None] for NULL. *)
Definition hw_device_add (E : Env) (w : World) : option nat * World :=
  let '(ok, w1) := alloc E A_reallocp_array w in
  if negb ok then (None, set_hw_devices [] w1)
  else
    let '(ok', w2) := alloc E A_mallocz w1 in
    if negb ok' then (None, w2)
    else (Some (nb_hw_devices w2),
          set_hw_devices (hw_devices w2 ++ [HWDevice_zero])%list w2).

(** Assignment through a device pointer: [dev->... = ...]. *)
Fixpoint store_at {A : Type} (i : nat) (f : A -> A) (l : list A) : list A :=
  match l, i with
  | [], _ => []
  | x :: rest, O => f x :: rest
  | x :: rest, S j => x :: store_at j f rest
  end.

Definition dev_store (dev : nat) (f : HWDevice -> HWDevice) (w : World)
  : World :=
  set_hw_devices (store_at dev f (hw_devices w)) w.

Definition index_limit : nat := 1000.

(** The [for] loop of [hw_device_default_name], [steps] iterations before
    [index] reaches [index_limit]. *)
Fixpoint hw_device_default_name_from (w : World) (type_name : string)
    (index_pos : nat) (index steps : nat) : option string :=
  match steps with
  | O => None
  | S steps' =>
      let n := CStr.snprintf_s_d (index_pos + 4) type_name index in
      match hw_device_get_by_name w n with
      | None => Some n
      | Some _ =>
          hw_device_default_name_from w type_name index_pos (S index) steps'
      end
  end.

(** [static char *hw_device_default_name(enum AVHWDeviceType type)].
    [strlen(type_name)] comes first and is not guarded: with a NULL
    [type_name] the call has no defined result. *)
Definition hw_device_default_name (E : Env) (ty : AVHWDeviceType)
    (w : World) : call (option string) * World :=
  match av_hwdevice_get_type_name E ty with
  | None => (Crashes, w)
  | Some type_name =>
      let index_pos := String.length type_name in
      let '(ok, w1) := alloc E A_malloc w in
      if negb ok then (Returns None, w1)
      else (Returns (hw_device_default_name_from w1 type_name index_pos
                       0 index_limit), w1)
  end.

(* ===================================================================== *)
(** ** Device specification parser *)
(* ===================================================================== *)

(** How the straight-line code of [hw_device_init_from_string] is left
    early: through one of its two error labels, [goto fail] carrying the
    values of the locals [err] and [device_ref] that the label uses, or
    because a callee read through a NULL pointer. *)
Inductive exit :=
| goto_invalid (errmsg : string)
| goto_fail (err : Z) (device_ref : option AVBufferRef)
| null_read.

(** Straight-line code between the labels: it changes the world and either
    yields a value or jumps. *)
Definition M (A : Type) : Type := World -> (exit + A) * World.

Definition ret {A : Type} (a : A) : M A := fun w => (inr a, w).

Definition jump {A : Type} (x : exit) : M A := fun w => (inl x, w).

Definition bind {A B : Type} (m : M A) (k : A -> M B) : M B :=
  fun w =>
    match m w with
    | (inl x, w') => (inl x, w')
    | (inr a, w') => k a w'
    end.

Notation "x <- m ;; k" := (bind m (fun x => k))
  (at level 61, m at next level, right associativity).

Definition at_char (p : string) (c : ascii) : bool :=
  match CStr.deref p with
  | Some d => Ascii.eqb d c
  | None => false
  end.

Definition at_end (p : string) : bool :=
  match CStr.deref p with
  | Some _ => false
  | None => true
  end.

Section Parser.
Variable E : Env.

(** [x = av_strndup(s, k); if (!x) { err = AVERROR(ENOMEM); goto fail; }]
    while [device_ref] is still NULL. *)
Definition av_strndup (s : string) (k : nat) : M string :=
  fun w =>
    let '(ok, w1) := alloc E A_strndup w in
    if negb ok then (inl (goto_fail (AVERROR ENOMEM) None), w1)
    else (inr (CStr.strndup s k), w1).

(** [err = av_dict_parse_string(&options, str, "=", ",", 0);
     if (err < 0) { errmsg = "failed to parse options"; goto invalid; }] *)
Definition parse_options (str : string) : M AVDictionary :=
  fun w =>
    let '(err, options) := av_dict_parse_string E (trace w) str in
    let w1 := emit (EvDictParse str err) w in
    if err <? 0 then (inl (goto_invalid "failed to parse options"), w1)
    else (inr options, w1).

(** [err = av_hwdevice_ctx_create(&device_ref, type, device, options, 0);
     if (err < 0) goto fail;] *)
Definition ctx_create (ty : AVHWDeviceType) (device : option string)
    (options : AVDictionary) : M (option AVBufferRef) :=
  fun w =>
    let '(err, ref) :=
      av_hwdevice_ctx_create E (trace w) ty device options in
    let w1 := emit (EvCtxCreate ty device options err) w in
    if err <? 0 then (inl (goto_fail err ref), w1) else (inr ref, w1).

(** [err = av_hwdevice_ctx_create_derived(&device_ref, type,
                                          src->device_ref, 0);
     if (err < 0) goto fail;] *)
Definition ctx_create_derived (ty : AVHWDeviceType)
    (src : option AVBufferRef) : M (option AVBufferRef) :=
  fun w =>
    let '(err, ref) :=
      av_hwdevice_ctx_create_derived E (trace w) ty src in
    let w1 := emit (EvCtxCreateDerived ty src err) w in
    if err <? 0 then (inl (goto_fail err ref), w1) else (inr ref, w1).

(** Lines 118-138: the name and the position after it. *)
Definition parse_name (ty : AVHWDeviceType) (p : string)
  : M (string * string) :=
  if at_char p "=" then
    let k := CStr.strcspn (CStr.advance 1 p) ":@," in
    n <- av_strndup (CStr.advance 1 p) k ;;
    fun w =>
      match hw_device_get_by_name w n with
      | Some _ => (inl (goto_invalid "named device already exists"), w)
      | None => (inr (n, CStr.advance (1 + k) p), w)
      end
  else
    fun w =>
      match hw_device_default_name E ty w with
      | (Crashes, w1) => (inl null_read, w1)
      | (Returns None, w1) => (inl (goto_fail (AVERROR ENOMEM) None), w1)
      | (Returns (Some n), w1) => (inr (n, p), w1)
      end.

(** Lines 140-196: create the device context the rest of the
    specification asks for. *)
Definition parse_body (ty : AVHWDeviceType) (p : string)
  : M (option AVBufferRef) :=
  if at_end p then
    ctx_create ty None []
  else if at_char p ":" then
    let p := CStr.advance 1 p in
    match CStr.strchr p "," with
    | Some q_p =>
        device <- (if (0 <? q_p)%nat
                   then d <- av_strndup p q_p ;; ret (Some d)
                   else ret None) ;;
        options <- parse_options (CStr.advance (S q_p) p) ;;
        ctx_create ty device options
    | None =>
        ctx_create ty (if at_end p then None else Some p) []
    end
  else if at_char p "@" then
    fun w =>
      match hw_device_get_by_name w (CStr.advance 1 p) with
      | None => (inl (goto_invalid "invalid source device name"), w)
      | Some src => ctx_create_derived ty (device_ref src) w
      end
  else if at_char p "," then
    options <- parse_options (CStr.advance 1 p) ;;
    ctx_create ty None options
  else
    jump (goto_invalid "parse error").

(** Lines 198-206. *)
Definition register (n : string) (ty : AVHWDeviceType)
    (ref : option AVBufferRef) : M nat :=
  fun w =>
    match hw_device_add E w with
    | (None, w1) => (inl (goto_fail (AVERROR ENOMEM) ref), w1)
    | (Some dev, w1) =>
        (inr dev, dev_store dev (fun _ => mkHWDevice (Some n) ty ref) w1)
    end.

Definition init_from_string_body (arg : string) : M nat :=
  let k := CStr.strcspn arg ":=@" in
  let p := CStr.advance k arg in
  type_name <- av_strndup arg k ;;
  let ty := av_hwdevice_find_type_by_name E type_name in
  if ty =? AV_HWDEVICE_TYPE_NONE then
    jump (goto_invalid "unknown device type")
  else
    np <- parse_name ty p ;;
    ref <- parse_body ty (snd np) ;;
    register (fst np) ty ref.

(** [int hw_device_init_from_string(const char *arg, HWDevice **dev_out)]:
    the return value, what a non-NULL [dev_out] receives, and the world
    afterwards; [Crashes] with the world reached when
    [hw_device_default_name] read through NULL.  The [av_freep] /
    [av_dict_free] of the locals under [done:] do not show in the
    world. *)
Definition hw_device_init_from_string (arg : string) (w : World)
  : call (Z * option nat) * World :=
  match init_from_string_body arg w with
  | (inr dev, w1) => (Returns (0, Some dev), w1)
  | (inl (goto_invalid errmsg), w1) =>
      (Returns (AVERROR EINVAL, None),
       emit (EvLog (LogInvalidSpec arg errmsg)) w1)
  | (inl (goto_fail err ref), w1) =>
      (Returns (err, None),
       emit (EvBufferUnref ref) (emit (EvLog (LogCreationFailed err)) w1))
  | (inl null_read, w1) => (Crashes, w1)
  end.

(** [static int hw_device_init_from_type(enum AVHWDeviceType type,
    const char *device, HWDevice **dev_out)] *)
Definition hw_device_init_from_type (ty : AVHWDeviceType)
    (device : option string) (w : World)
  : call (Z * option nat) * World :=
  match hw_device_default_name E ty w with
  | (Crashes, w1) => (Crashes, w1)
  | (Returns None, w1) =>
      (Returns (AVERROR ENOMEM, None), emit (EvBufferUnref None) w1)
  | (Returns (Some n), w1) =>
      let '(err, ref) := av_hwdevice_ctx_create E (trace w1) ty device [] in
      let w2 := emit (EvCtxCreate ty device [] err) w1 in
      if err <? 0 then
        (Returns (err, None),
         emit (EvBufferUnref ref) (emit (EvLog (LogCreationFailed err)) w2))
      else
        match hw_device_add E w2 with
        | (None, w3) =>
            (Returns (AVERROR ENOMEM, None), emit (EvBufferUnref ref) w3)
        | (Some dev, w3) =>
            (Returns (0, Some dev),
             dev_store dev (fun _ => mkHWDevice (Some n) ty ref) w3)
        end
  end.

End Parser.

(** [void hw_device_free_all(void)] *)
Definition hw_device_free_all (w : World) : World :=
  mkWorld []
    (rev (map (fun d => EvBufferUnref (device_ref d)) (hw_devices w))
       ++ trace w)%list.

(* ===================================================================== *)
(** ** Codec capability matcher and pipeline binder *)
(* ===================================================================== *)

Definition HWACCEL_NONE : Z := 0.

(** [InputStream] (ffmpeg.h): the fields this file reads or writes;
    [st_index] is [ist->st->index]. *)
Record InputStream := mkInputStream {
  hwaccel_id : Z;
  hwaccel_device_type : AVHWDeviceType;
  dec_ctx : AVCodecContext;
  hwaccel_device_ref : option AVBufferRef;
  st_index : Z
}.

Record OutputStream := mkOutputStream {
  enc_ctx : AVCodecContext;
  hw_frames_ctx : option AVBufferRef
}.

(** A filter node: [filter_name] is [filter->filter->name], [inputs] the
    [type] of each of its [nb_inputs] input links. *)
Record AVFilterContext := mkFilterCtx {
  filter_name : string;
  inputs : list Z
}.

Definition nb_inputs (f : AVFilterContext) : nat := List.length (inputs f).

Record AVFilterGraph := mkGraph {
  sink : AVFilterContext;
  filters : list AVFilterContext
}.

Definition nb_filters (g : AVFilterGraph) : nat := List.length (filters g).

Record FilterGraph := mkFilterGraph {
  graph : AVFilterGraph
}.

(** [m & flag] as a C condition. *)
Definition has_method (config : AVCodecHWConfig) (flag : Z) : bool :=
  negb (Z.land (methods config) flag =? 0).

(** The loop of [hw_device_match_by_codec] over the entries [i, i+1, ...]
    of the table. *)
Fixpoint hw_device_match_by_codec_from (w : World)
    (configs : list AVCodecHWConfig) : option HWDevice :=
  match configs with
  | [] => None
  | config :: rest =>
      if negb (has_method config AV_CODEC_HW_CONFIG_METHOD_HW_DEVICE_CTX)
      then hw_device_match_by_codec_from w rest
      else
        match hw_device_get_by_type w (device_type config) with
        | Some dev => Some dev
        | None => hw_device_match_by_codec_from w rest
        end
  end.

Definition hw_device_match_by_codec (w : World) (c : AVCodec)
  : option HWDevice :=
  hw_device_match_by_codec_from w (hw_configs c).

(** The [for (i = 0;; i++)] loop of [hw_device_setup_for_decode]: [None]
    when it returns from inside (table exhausted), [Some dev] when it is
    left by [break], [dev] being the local of that name. *)
Fixpoint setup_for_decode_scan (w : World) (requested : AVHWDeviceType)
    (configs : list AVCodecHWConfig) : option (option HWDevice) :=
  match configs with
  | [] => None
  | config :: rest =>
      if negb (has_method config AV_CODEC_HW_CONFIG_METHOD_HW_DEVICE_CTX)
      then setup_for_decode_scan w requested rest
      else if device_type config =? requested then
        match hw_device_get_by_type w (device_type config) with
        | Some dev => Some (Some dev)
        | None => setup_for_decode_scan w requested rest
        end
      else setup_for_decode_scan w requested rest
  end.

Section Binder.
Variable E : Env.

(** [av_buffer_ref(ref)]: a new reference to the same buffer, NULL when
    it cannot be allocated. *)
Definition av_buffer_ref (ref : option AVBufferRef) (w : World)
  : option AVBufferRef * World :=
  let '(ok, w1) := alloc E A_buffer_ref w in
  (if ok then ref else None, w1).

(** [int hw_device_setup_for_decode(InputStream *ist)] *)
Definition hw_device_setup_for_decode (ist : InputStream) (w : World)
  : Z * InputStream * World :=
  if hwaccel_id ist =? HWACCEL_NONE then (0, ist, w)
  else
    match setup_for_decode_scan w (hwaccel_device_type ist)
            (hw_configs (codec (dec_ctx ist))) with
    | None =>
        (AVERROR ENOSYS, ist,
         emit (EvLog (LogError "Decoder does not support any device type"))
              w)
    | Some None =>
        (AVERROR EINVAL, ist,
         emit (EvLog (LogError "No suitable hwaccel device found")) w)
    | Some (Some dev) =>
        let err :=
          avcodec_set_hw_device_ctx E (trace w) (dec_ctx ist)
            (device_ref dev) in
        let w1 := emit (EvSetHWDeviceCtx (device_ref dev) err) w in
        if err <? 0 then (err, ist, w1)
        else
          let '(ref, w2) := av_buffer_ref (device_ref dev) w1 in
          let ist' := mkInputStream (hwaccel_id ist)
                        (hwaccel_device_type ist) (dec_ctx ist) ref
                        (st_index ist) in
          match ref with
          | None => (AVERROR ENOMEM, ist', w2)
          | Some _ => (0, ist', w2)
          end
    end.

(** The loop of [set_hwframe_ctx]. *)
Fixpoint set_hwframe_ctx_from (ost : OutputStream)
    (ctx : AVCodecContext) (dev : HWDevice)
    (configs : list AVCodecHWConfig) (w : World) : OutputStream * World :=
  match configs with
  | [] => (ost, w)
  | config :: rest =>
      if negb (has_method config AV_CODEC_HW_CONFIG_METHOD_HW_FRAMES_CTX)
      then set_hwframe_ctx_from ost ctx dev rest w
      else if negb (device_type config =? type dev)
      then set_hwframe_ctx_from ost ctx dev rest w
      else
        let '(err, out) :=
          avcodec_get_hw_frames_parameters E (trace w) ctx (device_ref dev)
            (pix_fmt config) (hw_frames_ctx ost) in
        (mkOutputStream (enc_ctx ost) out,
         emit (EvGetHWFramesParameters (device_ref dev) (pix_fmt config)
                 err) w)
  end.

(** [static void set_hwframe_ctx(OutputStream *ost, const AVCodec *codec,
    const AVCodecContext *enc_ctx, HWDevice *dev)] *)
Definition set_hwframe_ctx (ost : OutputStream) (c : AVCodec)
    (ctx : AVCodecContext) (dev : HWDevice) (w : World)
  : OutputStream * World :=
  set_hwframe_ctx_from ost ctx dev (hw_configs c) w.

(** [av_buffer_unref(&ost->hw_frames_ctx)] *)
Definition unref_hw_frames_ctx (ost : OutputStream) (w : World)
  : OutputStream * World :=
  (mkOutputStream (enc_ctx ost) None,
   emit (EvBufferUnref (hw_frames_ctx ost)) w).

(** [static int hw_device_setup_for_encode(OutputStream *ost)] *)
Definition hw_device_setup_for_encode (ost : OutputStream) (w : World)
  : Z * OutputStream * World :=
  match hw_device_match_by_codec w (codec (enc_ctx ost)) with
  | None => (0, ost, w)
  | Some dev =>
      let '(ost1, w1) :=
        set_hwframe_ctx ost (codec (enc_ctx ost)) (enc_ctx ost) dev w in
      match hw_frames_ctx ost1 with
      | None => (0, ost1, w1)
      | Some pool =>
          let err :=
            avcodec_set_hw_frames_ctx E (trace w1) (enc_ctx ost1)
              (Some pool) in
          let w2 := emit (EvSetHWFramesCtx (Some pool) err) w1 in
          if err <? 0 then
            let '(ost2, w3) := unref_hw_frames_ctx ost1 w2 in
            (err, ost2, w3)
          else (0, ost1, w2)
      end
  end.

(** The [for] loop of [hw_device_setup_for_filter] from node [i] on:
    [Some err] when it returns from inside. *)
Fixpoint setup_for_filter_from (dev : HWDevice) (i : nat)
    (nodes : list AVFilterContext) (w : World) : option Z * World :=
  match nodes with
  | [] => (None, w)
  | filter :: rest =>
      if String.eqb (filter_name filter) "hwupload" then
        let err :=
          av_opt_set E (trace w) i (Some "device") (name dev) in
        let w1 := emit (EvOptSet i (Some "device") (name dev) err) w in
        if err <? 0 then (Some err, w1)
        else setup_for_filter_from dev (S i) rest w1
      else setup_for_filter_from dev (S i) rest w
  end.

(** [int hw_device_setup_for_filter(FilterGraph *fg)] *)
Definition hw_device_setup_for_filter (fg : FilterGraph) (w : World)
  : Z * World :=
  match inputs (sink (graph fg)) with
  | [] => (0, w)
  | input0 :: _ =>
      match avcodec_find_decoder E input0 with
      | None => (0, w)
      | Some c =>
          match hw_device_match_by_codec w c with
          | None => (0, w)
          | Some dev =>
              match setup_for_filter_from dev 0 (filters (graph fg)) w with
              | (Some err, w1) => (err, w1)
              | (None, w1) => (0, w1)
              end
          end
      end
  end.

End Binder.

(* ===================================================================== *)
(** ** Audio remix *)
(* ===================================================================== *)

(** How a run of code that may loop or step outside C's defined behaviour
    ends.  The world reached is kept in every case. *)
Inductive run (A : Type) : Type :=
| Done (a : A) (w : World)
| Undefined (w : World)      (* undefined behaviour: NULL or out of range *)
| OutOfFuel (w : World).     (* the loop budget of the model ran out *)

Arguments Done {A} a w.
Arguments Undefined {A} w.
Arguments OutOfFuel {A} w.

Definition world_of {A : Type} (r : run A) : World :=
  match r with
  | Done _ w => w
  | Undefined w => w
  | OutOfFuel w => w
  end.

Definition AV_NOPTS_VALUE : Z := - 2 ^ 63.

(** What [av_frame_alloc()] returns: no buffers, fields at their
    defaults. *)
Definition frame_defaults : AVFrame :=
  mkFrame [] 0 0 0 (-1) 0 (mkProps AV_NOPTS_VALUE AV_NOPTS_VALUE).

(** [memcpy(dst, src, n)] on two planes; [None] when either is shorter
    than [n]. *)
Definition memcpy (dst src : list Z) (n : nat) : option (list Z) :=
  if ((n <=? List.length src) && (n <=? List.length dst))%nat
  then Some (firstn n src ++ skipn n dst)%list
  else None.

(** The body of the copy loop for one [i]:
    [memcpy(remix_frame->data[i], frame->data[remix_map[i]],
            remix_frame->linesize[0])].
    [None] when [remix_map[i]] lies outside the map or names no plane of
    [frame], or [remix_frame] has no plane [i]. *)
Definition remix_copy_plane (src : list (list Z)) (remix_map : list Z)
    (linesize : nat) (i : nat) (dst : list (list Z))
  : option (list (list Z)) :=
  match nth_error remix_map i with
  | None => None
  | Some m =>
      if m <? 0 then None
      else
        match nth_error src (Z.to_nat m), nth_error dst i with
        | Some s, Some d =>
            match memcpy d s linesize with
            | Some d' => Some (store_at i (fun _ => d') dst)
            | None => None
            end
        | _, _ => None
        end
  end.

(** [for (int i = 0; i < remix_size; ++i)], [steps] iterations left. *)
Fixpoint remix_copy (src : list (list Z)) (remix_map : list Z)
    (linesize : nat) (i steps : nat) (dst : list (list Z))
  : option (list (list Z)) :=
  match steps with
  | O => Some dst
  | S steps' =>
      match remix_copy_plane src remix_map linesize i dst with
      | None => None
      | Some dst' => remix_copy src remix_map linesize (S i) steps' dst'
      end
  end.

Section Remix.
Variable E : Env.

(** [static int remix_audio(AVFrame *frame, const int *remix_map,
    int remix_size)].  [frame] is [None] for a NULL pointer, otherwise
    what it points to; the result holds what it points to afterwards.
    [av_frame_copy_props] carries [props] over, [av_frame_unref] and
    [av_frame_move_ref] make [frame] hold what [remix_frame] held.  When
    [av_frame_get_buffer] fails, [remix_frame] is freed as the four
    assignments left it. *)
Definition remix_audio (frame : option AVFrame) (remix_map : list Z)
    (remix_size : Z) (w : World) : run (Z * option AVFrame) :=
  let '(ok, w1) := alloc E A_frame_alloc w in
  if negb ok then
    Done (AVERROR ENOMEM, frame)
         (emit (EvLog (LogError "Could not allocate remix frame.")) w1)
  else
    match frame with
    | None => Undefined w1
    | Some f =>
        let remix_frame :=
          mkFrame (data frame_defaults) (linesize0 frame_defaults)
                  (channel_layout f) (sample_rate f) (format f)
                  (nb_samples f) (props frame_defaults) in
        let '(r, (planes, linesize)) :=
          av_frame_get_buffer E (trace w1) remix_frame in
        let w2 := emit (EvFrameGetBuffer r) w1 in
        if r <? 0 then
          Done (AVERROR ENOMEM, frame)
               (emit (EvFrameFree (Some remix_frame))
                     (emit (EvLog (LogError
                                     "Could not allocate remix frame buffer."))
                           w2))
        else
          match remix_copy (data f) remix_map linesize 0
                           (Z.to_nat remix_size) planes with
          | None => Undefined w2
          | Some planes' =>
              Done (0, Some (mkFrame planes' linesize (channel_layout f)
                               (sample_rate f) (format f) (nb_samples f)
                               (props f)))
                   w2
          end
    end.

Variable ist : InputStream.
Variable remix_map : list Z.
Variable remix_size : Z.

(** [while ((ret = avcodec_receive_frame(ist->dec_ctx, frame)) >= 0)]:
    the value of [ret] and of [frame] when the loop is left. *)
Fixpoint receive_loop (fuel : nat) (frame : option AVFrame) (w : World)
  : run (Z * option AVFrame) :=
  match fuel with
  | O => OutOfFuel w
  | S fuel' =>
      let '(ret, decoded) :=
        avcodec_receive_frame E (trace w) (dec_ctx ist) frame in
      let w1 := emit (EvReceiveFrame frame ret) w in
      let frame1 := option_map (fun _ => decoded) frame in
      if ret <? 0 then Done (ret, frame1) w1
      else
        match remix_audio frame1 remix_map remix_size w1 with
        | Done (r, frame2) w2 =>
            if r <? 0 then
              Done (r, frame2)
                   (emit (EvLog (LogError "Error remixing audio.")) w2)
            else receive_loop fuel' frame2 w2
        | Undefined w2 => Undefined w2
        | OutOfFuel w2 => OutOfFuel w2
        end
  end.

(** [while ((ret = av_read_frame(ist->avf_ctx, ist->pkt)) >= 0)] *)
Fixpoint read_loop (fuel : nat) (frame : option AVFrame) (w : World)
  : run (Z * option AVFrame) :=
  match fuel with
  | O => OutOfFuel w
  | S fuel' =>
      let '(ret, stream_index) := av_read_frame E (trace w) in
      let w1 := emit (EvReadFrame ret stream_index) w in
      if ret <? 0 then Done (ret, frame) w1
      else if stream_index =? st_index ist then
        let ret := avcodec_send_packet E (trace w1) (dec_ctx ist) in
        let w2 := emit (EvSendPacket ret) w1 in
        if ret <? 0 then
          Done (ret, frame)
               (emit (EvLog (LogError "Error sending packet for decoding."))
                     w2)
        else
          match receive_loop fuel' frame w2 with
          | Done (ret, frame') w3 =>
              if (ret =? AVERROR EAGAIN) || (ret =? AVERROR_EOF) then
                read_loop fuel' frame' w3
              else if ret <? 0 then Done (ret, frame') w3
              else read_loop fuel' frame' (emit EvPacketUnref w3)
          | Undefined w3 => Undefined w3
          | OutOfFuel w3 => OutOfFuel w3
          end
      else read_loop fuel' frame (emit EvPacketUnref w1)
  end.

(** [int apply_audio_remix(InputStream *ist, const int *remix_map,
    int remix_size)] *)
Definition apply_audio_remix (fuel : nat) (w : World) : run Z :=
  let frame : option AVFrame := None in
  match read_loop fuel frame w with
  | Done (ret, frame') w1 => Done ret (emit (EvFrameFree frame') w1)
  | Undefined w1 => Undefined w1
  | OutOfFuel w1 => OutOfFuel w1
  end.

End Remix.

(* ===================================================================== *)
(** ** Sample environments and inputs *)
(* ===================================================================== *)

Module Sample.

Definition CUDA : AVHWDeviceType := 2.
Definition VAAPI : AVHWDeviceType := 3.

Definition type_by_name (s : string) : AVHWDeviceType :=
  if String.eqb s "cuda" then CUDA
  else if String.eqb s "vaapi" then VAAPI
  else AV_HWDEVICE_TYPE_NONE.

Definition type_name (ty : AVHWDeviceType) : option string :=
  if ty =? CUDA then Some "cuda"
  else if ty =? VAAPI then Some "vaapi"
  else None.

(** A [key=value,key=value] reader for the sample runtime. *)
Fixpoint dict_scan (s : string) (key : string) (val : option string)
    (acc : AVDictionary) : option AVDictionary :=
  match s with
  | EmptyString =>
      match val, key with
      | Some v, String _ _ => Some (acc ++ [(key, v)])%list
      | _, _ => None
      end
  | String c s' =>
      match val with
      | None =>
          if Ascii.eqb c "=" then
            match key with
            | EmptyString => None
            | _ => dict_scan s' key (Some "") acc
            end
          else if Ascii.eqb c "," then None
          else dict_scan s' (key ++ String c "") None acc
      | Some v =>
          if Ascii.eqb c "," then dict_scan s' "" None (acc ++ [(key, v)])%list
          else dict_scan s' key (Some (v ++ String c "")) acc
      end
  end.

Definition dict_parse (s : string) : Z * AVDictionary :=
  match dict_scan s "" None [] with
  | Some d => (0, d)
  | None => (AVERROR EINVAL, [])
  end.

(** Every created context gets a fresh identity: the number of calls
    made before it. *)
Definition fresh_ref (h : list event) : option AVBufferRef :=
  Some (Z.of_nat (List.length h)).

(** Buffers for planar float audio: one plane per channel of the layout,
    four bytes a sample, the sample count rounded up to a multiple of 32
    as [av_samples_get_buffer_size] does for [align = 0]. *)
Definition channels (layout : Z) : nat :=
  List.length (filter (fun i => Z.testbit layout (Z.of_nat i)) (seq 0 64)).

Definition FFALIGN (x a : Z) : Z := Z.land (x + a - 1) (Z.lnot (a - 1)).

Definition get_buffer (f : AVFrame) : Z * (list (list Z) * nat) :=
  let linesize := Z.to_nat (4 * FFALIGN (nb_samples f) 32) in
  (0, (repeat (repeat 0 linesize) (channels (channel_layout f)), linesize)).

Definition count (p : event -> bool) (h : list event) : nat :=
  List.length (filter p h).

Definition is_read (e : event) : bool :=
  match e with EvReadFrame _ _ => true | _ => false end.
Definition is_receive (e : event) : bool :=
  match e with EvReceiveFrame _ _ => true | _ => false end.

(** A demuxer that delivers the packets of [packets] (their stream
    indices), then reports the end of the file; a decoder that answers
    the successive receive calls with [receives], then EAGAIN. *)
Definition runtime (allocs : list event -> allocator -> bool)
    (packets : list Z) (receives : list Z) : Env :=
  mkEnv allocs type_by_name type_name
    (fun h _ _ _ => (0, fresh_ref h))
    (fun h _ _ => (0, fresh_ref h))
    (fun _ s => dict_parse s)
    (fun _ => None)
    (fun _ _ _ => 0)
    (fun h _ _ _ old => (0, fresh_ref h))
    (fun _ _ _ => 0)
    (fun _ _ => 0)
    (fun h _ _ => (nth (count is_receive h) receives (AVERROR EAGAIN),
                   frame_defaults))
    (fun h => match nth_error packets (count is_read h) with
              | Some idx => (0, idx)
              | None => (AVERROR_EOF, 0)
              end)
    (fun _ _ _ _ => 0)
    (fun _ f => get_buffer f).

Definition all_ok : list event -> allocator -> bool := fun _ _ => true.

Definition no_realloc : list event -> allocator -> bool :=
  fun _ a => match a with A_reallocp_array => false | _ => true end.

Definition quiet : Env := runtime all_ok [] [].

Definition empty : World := mkWorld [] [].

Definition one_cuda : World :=
  mkWorld [mkHWDevice (Some "cuda0") CUDA (Some 7)] [].

(** Two registrations of the same type without a name. *)
Definition after_cuda : World :=
  snd (hw_device_init_from_string quiet "cuda" empty).

Definition after_two : World :=
  snd (hw_device_init_from_string quiet "cuda:1" after_cuda).

(** A registry in which every generated name of the type is taken. *)
Definition cuda_names : list string :=
  map (fun i => "cuda" ++ CStr.decimal i) (seq 0 1000).

Definition full : World :=
  mkWorld (map (fun s => mkHWDevice (Some s) CUDA None) cuda_names) [].

(** A decoder whose table offers CUDA through a device context, asked
    for CUDA ([HWACCEL_GENERIC] is 2 in ffmpeg.h). *)
Definition cuda_decoder : AVCodec :=
  mkCodec 27 [mkHWConfig 117 AV_CODEC_HW_CONFIG_METHOD_HW_DEVICE_CTX CUDA].

Definition cuda_stream : InputStream :=
  mkInputStream 2 CUDA (mkCodecCtx cuda_decoder) None 0.

(** An encoder that takes CUDA frames, and streams that use the two. *)
Definition cuda_encoder : AVCodec :=
  mkCodec 27
    [mkHWConfig 117 (Z.lor AV_CODEC_HW_CONFIG_METHOD_HW_DEVICE_CTX
                           AV_CODEC_HW_CONFIG_METHOD_HW_FRAMES_CTX) CUDA].

Definition plain_ost : OutputStream :=
  mkOutputStream (mkCodecCtx cuda_decoder) None.

Definition cuda_ost : OutputStream :=
  mkOutputStream (mkCodecCtx cuda_encoder) None.

(** The same libraries, except that binding a frame pool is refused. *)
Definition refusing_frames (E : Env) : Env :=
  mkEnv (alloc_ok E) (av_hwdevice_find_type_by_name E)
    (av_hwdevice_get_type_name E) (av_hwdevice_ctx_create E)
    (av_hwdevice_ctx_create_derived E) (av_dict_parse_string E)
    (avcodec_find_decoder E) (avcodec_set_hw_device_ctx E)
    (avcodec_get_hw_frames_parameters E)
    (fun _ _ _ => AVERROR EINVAL)
    (avcodec_send_packet E) (avcodec_receive_frame E) (av_read_frame E)
    (av_opt_set E) (av_frame_get_buffer E).

(** The same libraries, with a decoder for every media type and an
    [av_opt_set] that fails on node [bad]. *)
Definition filtering (bad : nat) (E : Env) : Env :=
  mkEnv (alloc_ok E) (av_hwdevice_find_type_by_name E)
    (av_hwdevice_get_type_name E) (av_hwdevice_ctx_create E)
    (av_hwdevice_ctx_create_derived E) (av_dict_parse_string E)
    (fun _ => Some cuda_decoder) (avcodec_set_hw_device_ctx E)
    (avcodec_get_hw_frames_parameters E) (avcodec_set_hw_frames_ctx E)
    (avcodec_send_packet E) (avcodec_receive_frame E) (av_read_frame E)
    (fun _ i _ _ => if (i =? bad)%nat then AVERROR EINVAL else 0)
    (av_frame_get_buffer E).

Definition upload_graph : FilterGraph :=
  mkFilterGraph
    (mkGraph (mkFilterCtx "buffersink" [0])
       [mkFilterCtx "buffer" []; mkFilterCtx "hwupload" [0];
        mkFilterCtx "scale" [0]; mkFilterCtx "hwupload" [0];
        mkFilterCtx "hwupload" [0]; mkFilterCtx "buffersink" [0]]).

(** A planar three-channel frame of 32 float samples per channel
    ([AV_SAMPLE_FMT_FLTP] is 8, layout 7 is FL|FR|FC). *)
Definition plane_A : list Z := repeat 1 128.
Definition plane_B : list Z := repeat 2 128.
Definition plane_C : list Z := repeat 3 128.
Definition silence : list Z := repeat 0 128.

Definition abc : AVFrame :=
  mkFrame [plane_A; plane_B; plane_C] 128 7 48000 8 32 (mkProps 1000 990).

(** Two packets of the tracked stream (index 0), then the end of the
    file; the decoder asks for more input each time. *)
Definition two_packets : Env := runtime all_ok [0; 0] [].

(** No memory for a new frame. *)
Definition no_frame : list event -> allocator -> bool :=
  fun _ a => match a with A_frame_alloc => false | _ => true end.

(** The same libraries, except that no frame buffers can be had. *)
Definition no_buffers (E : Env) : Env :=
  mkEnv (alloc_ok E) (av_hwdevice_find_type_by_name E)
    (av_hwdevice_get_type_name E) (av_hwdevice_ctx_create E)
    (av_hwdevice_ctx_create_derived E) (av_dict_parse_string E)
    (avcodec_find_decoder E) (avcodec_set_hw_device_ctx E)
    (avcodec_get_hw_frames_parameters E) (avcodec_set_hw_frames_ctx E)
    (avcodec_send_packet E) (avcodec_receive_frame E) (av_read_frame E)
    (av_opt_set E)
    (fun _ _ => (AVERROR EINVAL, ([], 0%nat))).

End Sample.

(* ===================================================================== *)
(** ** Vocabulary of the statements *)
(* ===================================================================== *)

(** [d] is of type [ty]. *)
Definition of_type (ty : AVHWDeviceType) (d : HWDevice) : bool :=
  type d =? ty.

(** The two parts [hw_device_init_from_string] first splits [arg] into:
    the type name and the position after it. *)
Definition spec_type_name (arg : string) : string :=
  CStr.strndup arg (CStr.strcspn arg ":=@").

Definition spec_rest (arg : string) : string :=
  CStr.advance (CStr.strcspn arg ":=@") arg.

(** A piece of the parser that leaves the registry as it found it. *)
Definition keeps {A : Type} (m : M A) : Prop :=
  forall w r w', m w = (r, w') -> hw_devices w' = hw_devices w.

(** [goto fail] is only taken with a negative [err]. *)
Definition fails_negative {A : Type} (m : M A) : Prop :=
  forall w err ref w', m w = (inl (goto_fail err ref), w') -> err < 0.



(** The nodes named "hwupload" among [nodes], numbered from [i], in graph
    order. *)
Fixpoint hwupload_nodes (i : nat) (nodes : list AVFilterContext)
  : list nat :=
  match nodes with
  | [] => []
  | filter :: rest =>
      if String.eqb (filter_name filter) "hwupload"
      then i :: hwupload_nodes (S i) rest
      else hwupload_nodes (S i) rest
  end.

(** [av_opt_set(filter, "device", dev->name, 0)] on each of [nodes], with
    the values it returned. *)
Definition opt_set_calls (dev : HWDevice) (nodes : list nat)
    (rets : list Z) : list event :=
  map (fun c => EvOptSet (fst c) (Some "device") (name dev) (snd c))
      (combine nodes rets).

(** From [w] to [w'] the device option was set on a prefix of [targets],
    in order, and on nothing else: on all of them, each call succeeding,
    when [ret] is 0; up to the first failing call, whose value is [ret],
    otherwise. *)
Definition sets_device_in_order (dev : HWDevice) (targets : list nat)
    (w : World) (ret : Z) (w' : World) : Prop :=
  exists rets,
    (List.length rets <= List.length targets)%nat /\
    trace w'
    = (rev (opt_set_calls dev (firstn (List.length rets) targets) rets)
         ++ trace w)%list /\
    hw_devices w' = hw_devices w /\
    ((ret = 0 /\ List.length rets = List.length targets /\
      Forall (Z.le 0) rets) \/
     (ret < 0 /\
      exists pre, rets = (pre ++ [ret])%list /\ Forall (Z.le 0) pre)).

(** From [w] to [w'] only events that satisfy [P] were added. *)
Definition extends (P : event -> Prop) (w w' : World) : Prop :=
  exists new, trace w' = (new ++ trace w)%list /\ Forall P new.

(** The event is not a failed reallocation of the device array. *)
Definition not_failed_realloc (e : event) : Prop :=
  e <> EvAlloc A_reallocp_array false.

(** Among the calls made from [w] to [w'] is a reallocation of the device
    array that failed. *)
Definition realloc_failed (w w' : World) : Prop :=
  exists new,
    trace w' = (new ++ trace w)%list /\
    In (EvAlloc A_reallocp_array false) new.

(** A piece of the parser in which no reallocation of the device array
    fails. *)
Definition spares_array {A : Type} (m : M A) : Prop :=
  forall w r w', m w = (r, w') -> extends not_failed_realloc w w'.

(** The frame pointer an event was given is NULL. *)
Definition frame_arg_null (e : event) : Prop :=
  match e with
  | EvReceiveFrame f _ => f = None
  | EvFrameFree f => f = None
  | _ => True
  end.

(** The event is not an [av_packet_unref]. *)
Definition not_packet_unref (e : event) : Prop := e <> EvPacketUnref.

(** Every registered device has a name, and no two share one. *)
Definition names_unique (w : World) : Prop :=
  NoDup (map name (hw_devices w)) /\
  Forall (fun d => name d <> None) (hw_devices w).

(** A table entry [hw_device_match_by_codec] stops at: it binds through a
    device context and [hw_device_get_by_type] finds a device of its
    type. *)
Definition usable (w : World) (config : AVCodecHWConfig) : bool :=
  has_method config AV_CODEC_HW_CONFIG_METHOD_HW_DEVICE_CTX &&
  match hw_device_get_by_type w (device_type config) with
  | Some _ => true
  | None => false
  end.

(** A table entry [set_hwframe_ctx] stops at: it binds through a frames
    context and is of the device's type. *)
Definition frames_entry (dev : HWDevice) (config : AVCodecHWConfig) : bool :=
  has_method config AV_CODEC_HW_CONFIG_METHOD_HW_FRAMES_CTX &&
  (device_type config =? type dev).

(** [p] is at one of the characters the dispatch of lines 140-192
    handles: the end of the string, [:], [@] or [,]. *)
Definition delimited (p : string) : bool :=
  at_end p || at_char p ":" || at_char p "@" || at_char p ",".

(** The reasons [hw_device_init_from_string] gives for an invalid
    specification. *)
Definition invalid_reasons : list string :=
  ["unknown device type"; "named device already exists";
   "failed to parse options"; "invalid source device name"].

(** The newest event of [tr] is a device creation that returned [err]. *)
Definition created_with (err : Z) (tr : list event) : Prop :=
  exists ty h,
    (exists device opts, tr = EvCtxCreate ty device opts err :: h) \/
    (exists src, tr = EvCtxCreateDerived ty src err :: h).

(** [goto invalid] is only taken with one of [invalid_reasons]. *)
Definition invalid_origin {A : Type} (m : M A) : Prop :=
  forall w msg w',
    m w = (inl (goto_invalid msg), w') -> In msg invalid_reasons.

(** [goto fail] is taken out of memory or right after a failed creation. *)
Definition fail_origin {A : Type} (m : M A) : Prop :=
  forall w err ref w',
    m w = (inl (goto_fail err ref), w') ->
    err = AVERROR ENOMEM \/ created_with err (trace w').

(** A piece of the parser in which nothing is read through a NULL
    pointer. *)
Definition null_safe {A : Type} (m : M A) : Prop :=
  forall w w', m w <> (inl null_read, w').

(** [remix_map[j]] cannot be used for output plane [j]: it lies beyond
    the map, is negative or names no plane of the source, or no plane [j]
    was allocated. *)
Definition bad_index (src : list (list Z)) (remix_map : list Z)
    (allocated : nat) (j : nat) : Prop :=
  (allocated <= j)%nat \/
  match nth_error remix_map j with
  | None => True
  | Some m => m < 0 \/ (List.length src <= Z.to_nat m)%nat
  end.

(** All planes are [linesize] bytes long. *)
Definition planes_of (linesize : nat) (planes : list (list Z)) : Prop :=
  Forall (fun p => List.length p = linesize) planes.

(** The event is not an [av_frame_get_buffer] call. *)
Definition not_get_buffer (e : event) : Prop :=
  match e with
  | EvFrameGetBuffer _ => False
  | _ => True
  end.

(** If the event is an [avcodec_receive_frame] call, it delivered no
    frame. *)
Definition receive_failed (e : event) : Prop :=
  match e with
  | EvReceiveFrame _ r => r < 0
  | _ => True
  end.

(** What the loop does with a packet it read successfully and that is not
    of the tracked stream: the read, then the release. *)
Definition read_and_release (packet : Z * Z) : list event :=
  [EvReadFrame (fst packet) (snd packet); EvPacketUnref].

(* ===================================================================== *)
(** ** Runs on the sample inputs *)
(* ===================================================================== *)

Example init_named_with_path_and_options :
  hw_device_init_from_string Sample.quiet "cuda=gpu:0,opt=val" Sample.empty
  = (Returns (0, Some 0%nat),
     mkWorld [mkHWDevice (Some "gpu") Sample.CUDA (Some 4)]
       [EvAlloc A_mallocz true; EvAlloc A_reallocp_array true;
        EvCtxCreate Sample.CUDA (Some "0") [("opt", "val")] 0;
        EvDictParse "opt=val" 0; EvAlloc A_strndup true;
        EvAlloc A_strndup true; EvAlloc A_strndup true]).
Proof. reflexivity. Qed.

Example init_derived_from_registered :
  hw_device_init_from_string Sample.quiet "vaapi=x@cuda0" Sample.one_cuda
  = (Returns (0, Some 1%nat),
     mkWorld [mkHWDevice (Some "cuda0") Sample.CUDA (Some 7);
              mkHWDevice (Some "x") Sample.VAAPI (Some 2)]
       [EvAlloc A_mallocz true; EvAlloc A_reallocp_array true;
        EvCtxCreateDerived Sample.VAAPI (Some 7) 0;
        EvAlloc A_strndup true; EvAlloc A_strndup true]).
Proof. reflexivity. Qed.

Example init_unknown_type :
  hw_device_init_from_string Sample.quiet "vaapi;" Sample.one_cuda
  = (Returns (AVERROR EINVAL, None),
     mkWorld (hw_devices Sample.one_cuda)
       [EvLog (LogInvalidSpec "vaapi;" "unknown device type");
        EvAlloc A_strndup true]).
Proof. reflexivity. Qed.

(** A type the runtime has no name for: the NULL name is read. *)
Example init_from_type_without_name :
  hw_device_init_from_type Sample.quiet AV_HWDEVICE_TYPE_NONE None
    Sample.one_cuda
  = (Crashes, Sample.one_cuda).
Proof. reflexivity. Qed.

Example decode_binds_registered_device :
  hw_device_setup_for_decode Sample.quiet Sample.cuda_stream Sample.one_cuda
  = (0, mkInputStream 2 Sample.CUDA (mkCodecCtx Sample.cuda_decoder)
          (Some 7) 0,
     mkWorld (hw_devices Sample.one_cuda)
       [EvAlloc A_buffer_ref true; EvSetHWDeviceCtx (Some 7) 0]).
Proof. reflexivity. Qed.

(** A packet of another stream is released before the next read. *)
Example remix_loop_releases_foreign_packet :
  apply_audio_remix (Sample.runtime Sample.all_ok [1] []) Sample.cuda_stream
    [2; 0] 2 10 Sample.empty
  = Done AVERROR_EOF
      (mkWorld []
         [EvFrameFree None; EvReadFrame AVERROR_EOF 0; EvPacketUnref;
          EvReadFrame 0 1]).
Proof. reflexivity. Qed.

(* ===================================================================== *)
(** ** Registry lookups *)
(* ===================================================================== *)

Lemma hw_device_get_by_type_from_spec devs ty found :
  hw_device_get_by_type_from devs ty found =
  match found, filter (of_type ty) devs with
  | None, [d] => Some d
  | Some f, [] => Some f
  | _, _ => None
  end.
Proof.
  revert found.
  induction devs as [|d rest IH]; intros found; simpl.
  - destruct found; reflexivity.
  - unfold of_type. destruct (type d =? ty).
    + destruct found as [f|]; [reflexivity|].
      rewrite IH. fold (of_type ty).
      destruct (filter (of_type ty) rest); reflexivity.
    + rewrite IH. reflexivity.
Qed.

(** C6. [hw_device_get_by_type] answers by the number of registered
    devices of the type: none registered, not found; exactly one, that
    device; two or more, not found. *)
Theorem hw_device_get_by_type_unique_or_absent (w : World)
    (ty : AVHWDeviceType) :
  hw_device_get_by_type w ty =
  match filter (of_type ty) (hw_devices w) with
  | [] => None
  | [d] => Some d
  | _ :: _ :: _ => None
  end.
Proof.
  unfold hw_device_get_by_type.
  rewrite hw_device_get_by_type_from_spec.
  destruct (filter (of_type ty) (hw_devices w)) as [|d [|d' l]]; reflexivity.
Qed.

Lemma hw_device_get_by_name_from_app devs devs' n :
  hw_device_get_by_name_from (devs ++ devs') n =
  match hw_device_get_by_name_from devs n with
  | Some d => Some d
  | None => hw_device_get_by_name_from devs' n
  end.
Proof.
  induction devs as [|d rest IH]; simpl; [reflexivity|].
  destruct (name_is d n); [reflexivity | exact IH].
Qed.

Lemma store_at_last {A : Type} (l : list A) (x y : A) :
  store_at (List.length l) (fun _ => y) (l ++ [x]) = (l ++ [y])%list.
Proof.
  induction l as [|a l IH]; simpl; [reflexivity | now rewrite IH].
Qed.

(* ===================================================================== *)
(** ** Traces *)
(* ===================================================================== *)

Lemma extends_refl P w : extends P w w.
Proof. exists []. split; [reflexivity | constructor]. Qed.

Lemma extends_emit P w w' e :
  P e -> extends P w w' -> extends P w (emit e w').
Proof.
  intros He (new & Ht & Hn). exists (e :: new). simpl.
  split; [now rewrite Ht | now constructor].
Qed.

Lemma extends_trans P w1 w2 w3 :
  extends P w1 w2 -> extends P w2 w3 -> extends P w1 w3.
Proof.
  intros (n1 & H1 & F1) (n2 & H2 & F2). exists (n2 ++ n1)%list.
  split; [rewrite H2, H1; apply app_assoc | apply Forall_app; now split].
Qed.

Lemma extends_step P w e : P e -> extends P w (emit e w).
Proof. intros He. apply extends_emit; [exact He | apply extends_refl]. Qed.

Lemma extends_not_realloc_failed w w' :
  extends not_failed_realloc w w' -> ~ realloc_failed w w'.
Proof.
  intros (new & Ht & Hn) (new' & Ht' & Hin).
  rewrite Ht in Ht'. apply app_inv_tail in Ht'. subst new'.
  rewrite Forall_forall in Hn. exact (Hn _ Hin eq_refl).
Qed.

(* ===================================================================== *)
(** ** The parser and the registry *)
(* ===================================================================== *)

Section ParserFacts.
Variable E : Env.

Lemma bind_inv {A B : Type} (m : M A) (k : A -> M B) w r w' :
  bind m k w = (r, w') ->
  (exists x, m w = (inl x, w') /\ r = inl x) \/
  (exists a w1, m w = (inr a, w1) /\ k a w1 = (r, w')).
Proof.
  unfold bind. destruct (m w) as [[x|a] w1]; intros H.
  - left. exists x. inversion H; subst. split; reflexivity.
  - right. exists a, w1. split; [reflexivity | exact H].
Qed.

Lemma keeps_ret {A : Type} (a : A) : keeps (ret a).
Proof. intros w r w' [= <- <-]. reflexivity. Qed.

Lemma keeps_jump {A : Type} (x : exit) : keeps (@jump A x).
Proof. intros w r w' [= <- <-]. reflexivity. Qed.

Lemma keeps_bind {A B : Type} (m : M A) (k : A -> M B) :
  keeps m -> (forall a, keeps (k a)) -> keeps (bind m k).
Proof.
  intros Hm Hk w r w' H.
  destruct (bind_inv _ _ _ _ _ H) as [(x & H1 & _) | (a & w1 & H1 & H2)].
  - exact (Hm _ _ _ H1).
  - rewrite (Hk _ _ _ _ H2). exact (Hm _ _ _ H1).
Qed.

Ltac split_run H :=
  repeat match type of H with
         | context [let '(_, _) := ?x in _] => destruct x eqn:?
         | context [if ?b then _ else _] => destruct b eqn:?
         | context [match ?x with _ => _ end] => destruct x eqn:?
         end.

Lemma keeps_av_strndup s k : keeps (av_strndup E s k).
Proof.
  intros w r w' H. unfold av_strndup, alloc in H.
  split_run H; inversion H; subst; reflexivity.
Qed.

Lemma keeps_parse_options str : keeps (parse_options E str).
Proof.
  intros w r w' H. unfold parse_options in H.
  split_run H; inversion H; subst; reflexivity.
Qed.

Lemma keeps_ctx_create ty device options :
  keeps (ctx_create E ty device options).
Proof.
  intros w r w' H. unfold ctx_create in H.
  split_run H; inversion H; subst; reflexivity.
Qed.

Lemma keeps_ctx_create_derived ty src :
  keeps (ctx_create_derived E ty src).
Proof.
  intros w r w' H. unfold ctx_create_derived in H.
  split_run H; inversion H; subst; reflexivity.
Qed.

Lemma hw_device_default_name_world ty w :
  snd (hw_device_default_name E ty w)
  = match av_hwdevice_get_type_name E ty with
    | Some _ => emit (EvAlloc A_malloc (alloc_ok E (trace w) A_malloc)) w
    | None => w
    end.
Proof.
  unfold hw_device_default_name, alloc.
  destruct (av_hwdevice_get_type_name E ty); [|reflexivity].
  destruct (alloc_ok E (trace w) A_malloc); reflexivity.
Qed.

Lemma hw_device_default_name_keeps ty w o w' :
  hw_device_default_name E ty w = (o, w') ->
  hw_devices w' = hw_devices w.
Proof.
  intros H.
  replace w' with (snd (hw_device_default_name E ty w))
    by (rewrite H; reflexivity).
  rewrite hw_device_default_name_world.
  destruct (av_hwdevice_get_type_name E ty); reflexivity.
Qed.

Lemma keeps_parse_name ty p : keeps (parse_name E ty p).
Proof.
  unfold parse_name. destruct (at_char p "=").
  - apply keeps_bind; [apply keeps_av_strndup|].
    intros n w r w' H.
    destruct (hw_device_get_by_name w n); inversion H; subst; reflexivity.
  - intros w r w' H.
    destruct (hw_device_default_name E ty w) as [[[n|]|] w1] eqn:Hn;
      inversion H; subst; exact (hw_device_default_name_keeps _ _ _ _ Hn).
Qed.

Lemma keeps_parse_body ty p : keeps (parse_body E ty p).
Proof.
  unfold parse_body.
  destruct (at_end p); [apply keeps_ctx_create|].
  destruct (at_char p ":").
  { destruct (CStr.strchr (CStr.advance 1 p) ","); [|apply keeps_ctx_create].
    apply keeps_bind.
    - destruct (0 <? n)%nat; [|apply keeps_ret].
      apply keeps_bind; [apply keeps_av_strndup | intros; apply keeps_ret].
    - intros device. apply keeps_bind; [apply keeps_parse_options|].
      intros options. apply keeps_ctx_create. }
  destruct (at_char p "@").
  { intros w r w' H.
    destruct (hw_device_get_by_name w (CStr.advance 1 p)).
    - exact (keeps_ctx_create_derived _ _ _ _ _ H).
    - inversion H; subst; reflexivity. }
  destruct (at_char p ",").
  { apply keeps_bind; [apply keeps_parse_options|].
    intros options. apply keeps_ctx_create. }
  apply keeps_jump.
Qed.

(** What [hw_device_add] followed by the three assignments does. *)
Lemma register_spec n ty ref w r w' :
  register E n ty ref w = (r, w') ->
  (r = inr (nb_hw_devices w) /\
   hw_devices w' = (hw_devices w ++ [mkHWDevice (Some n) ty ref])%list) \/
  (r = inl (goto_fail (AVERROR ENOMEM) ref) /\
   (hw_devices w' = hw_devices w \/
    hw_devices w' = [] /\
    trace w' = EvAlloc A_reallocp_array false :: trace w)).
Proof.
  unfold register, hw_device_add, alloc. intros H.
  destruct (alloc_ok E (trace w) A_reallocp_array) eqn:H1; simpl in H.
  - destruct (alloc_ok E (EvAlloc A_reallocp_array true :: trace w)
                A_mallocz) eqn:H2; simpl in H.
    + left. inversion H; subst; clear H. split; [reflexivity|].
      unfold dev_store, nb_hw_devices; simpl. apply store_at_last.
    + right. inversion H; subst. split; [reflexivity|]. left. reflexivity.
  - right. inversion H; subst. split; [reflexivity|]. right.
    split; reflexivity.
Qed.

(** The body of [hw_device_init_from_string] up to the labels. *)
Lemma init_from_string_body_spec arg w r w' :
  init_from_string_body E arg w = (r, w') ->
  (exists x, r = inl x /\ hw_devices w' = hw_devices w) \/
  (exists ref h, r = inl (goto_fail (AVERROR ENOMEM) ref) /\
                 hw_devices w' = [] /\
                 trace w' = EvAlloc A_reallocp_array false :: h) \/
  (exists n ty ref, r = inr (nb_hw_devices w) /\
                    hw_devices w' =
                      (hw_devices w ++ [mkHWDevice (Some n) ty ref])%list).
Proof.
  unfold init_from_string_body. intros H.
  apply bind_inv in H.
  destruct H as [(x & H1 & ->) | (tn & w1 & H1 & H)].
  { left. exists x. split; [reflexivity|].
    exact (keeps_av_strndup _ _ _ _ _ H1). }
  pose proof (keeps_av_strndup _ _ _ _ _ H1) as K1.
  destruct (av_hwdevice_find_type_by_name E tn =? AV_HWDEVICE_TYPE_NONE).
  { inversion H; subst. left. eexists. split; [reflexivity | exact K1]. }
  apply bind_inv in H.
  destruct H as [(x & H2 & ->) | (np & w2 & H2 & H)].
  { left. exists x. split; [reflexivity|].
    rewrite (keeps_parse_name _ _ _ _ _ H2). exact K1. }
  pose proof (keeps_parse_name _ _ _ _ _ H2) as K2.
  apply bind_inv in H.
  destruct H as [(x & H3 & ->) | (ref & w3 & H3 & H)].
  { left. exists x. split; [reflexivity|].
    rewrite (keeps_parse_body _ _ _ _ _ H3). congruence. }
  pose proof (keeps_parse_body _ _ _ _ _ H3) as K3.
  assert (K : hw_devices w3 = hw_devices w) by congruence.
  apply register_spec in H.
  destruct H as [[-> Hd] | [-> [Hd | [Hd Ht]]]].
  - right. right. exists (fst np), (av_hwdevice_find_type_by_name E tn), ref.
    unfold nb_hw_devices. rewrite Hd, K. split; reflexivity.
  - left. eexists. split; [reflexivity | congruence].
  - right. left. exists ref, (trace w3). repeat split; assumption.
Qed.

Lemma spares_array_bind {A B : Type} (m : M A) (k : A -> M B) :
  spares_array m -> (forall a, spares_array (k a)) ->
  spares_array (bind m k).
Proof.
  intros Hm Hk w r w' H.
  destruct (bind_inv _ _ _ _ _ H) as [(x & H1 & _) | (a & w1 & H1 & H2)].
  - exact (Hm _ _ _ H1).
  - exact (extends_trans _ _ _ _ (Hm _ _ _ H1) (Hk _ _ _ _ H2)).
Qed.

Lemma spares_array_ret {A : Type} (a : A) : spares_array (ret a).
Proof. intros w r w' [= <- <-]. apply extends_refl. Qed.

Lemma spares_array_jump {A : Type} (x : exit) : spares_array (@jump A x).
Proof. intros w r w' [= <- <-]. apply extends_refl. Qed.

Ltac spared H :=
  split_run H; inversion H; subst;
  first [apply extends_refl | apply extends_step; discriminate].

Lemma spares_array_av_strndup s k : spares_array (av_strndup E s k).
Proof. intros w r w' H. unfold av_strndup, alloc in H. spared H. Qed.

Lemma spares_array_parse_options str : spares_array (parse_options E str).
Proof. intros w r w' H. unfold parse_options in H. spared H. Qed.

Lemma spares_array_ctx_create ty device options :
  spares_array (ctx_create E ty device options).
Proof. intros w r w' H. unfold ctx_create in H. spared H. Qed.

Lemma spares_array_ctx_create_derived ty src :
  spares_array (ctx_create_derived E ty src).
Proof. intros w r w' H. unfold ctx_create_derived in H. spared H. Qed.

Lemma spares_array_parse_name ty p : spares_array (parse_name E ty p).
Proof.
  unfold parse_name. destruct (at_char p "=").
  - apply spares_array_bind; [apply spares_array_av_strndup|].
    intros n w r w' H.
    destruct (hw_device_get_by_name w n); inversion H; subst;
      apply extends_refl.
  - intros w r w' H.
    assert (X : extends not_failed_realloc w
                  (snd (hw_device_default_name E ty w))).
    { rewrite hw_device_default_name_world.
      destruct (av_hwdevice_get_type_name E ty);
        [apply extends_step; discriminate | apply extends_refl]. }
    destruct (hw_device_default_name E ty w) as [[[n|]|] w1];
      inversion H; subst; exact X.
Qed.

Lemma spares_array_parse_body ty p : spares_array (parse_body E ty p).
Proof.
  unfold parse_body.
  destruct (at_end p); [apply spares_array_ctx_create|].
  destruct (at_char p ":").
  { destruct (CStr.strchr (CStr.advance 1 p) ",");
      [|apply spares_array_ctx_create].
    apply spares_array_bind.
    - destruct (0 <? n)%nat; [|apply spares_array_ret].
      apply spares_array_bind;
        [apply spares_array_av_strndup | intros; apply spares_array_ret].
    - intros device.
      apply spares_array_bind; [apply spares_array_parse_options|].
      intros options. apply spares_array_ctx_create. }
  destruct (at_char p "@").
  { intros w r w' H.
    destruct (hw_device_get_by_name w (CStr.advance 1 p)).
    - exact (spares_array_ctx_create_derived _ _ _ _ _ H).
    - inversion H; subst; apply extends_refl. }
  destruct (at_char p ",").
  { apply spares_array_bind; [apply spares_array_parse_options|].
    intros options. apply spares_array_ctx_create. }
  apply spares_array_jump.
Qed.

(** [hw_device_add] followed by the three assignments, with the calls it
    makes: only the failed reallocation empties the registry. *)
Lemma register_trace n ty ref w r w' :
  register E n ty ref w = (r, w') ->
  (exists dev, r = inr dev) \/
  (r = inl (goto_fail (AVERROR ENOMEM) ref) /\
   hw_devices w' = hw_devices w /\ extends not_failed_realloc w w') \/
  (r = inl (goto_fail (AVERROR ENOMEM) ref) /\
   hw_devices w' = [] /\
   trace w' = EvAlloc A_reallocp_array false :: trace w).
Proof.
  unfold register, hw_device_add, alloc. intros H.
  destruct (alloc_ok E (trace w) A_reallocp_array) eqn:H1; simpl in H.
  - destruct (alloc_ok E (EvAlloc A_reallocp_array true :: trace w)
                A_mallocz) eqn:H2; simpl in H.
    + left. inversion H; subst. eauto.
    + right. left. inversion H; subst. split; [reflexivity|].
      split; [reflexivity|].
      apply extends_emit; [discriminate|].
      apply extends_step. discriminate.
  - right. right. inversion H; subst. repeat split.
Qed.

(** How the body of [hw_device_init_from_string] is left early: with the
    registry as it was and no failed reallocation, or right after the
    failed reallocation with the registry emptied. *)
Lemma init_from_string_body_exit arg w x w' :
  init_from_string_body E arg w = (inl x, w') ->
  (hw_devices w' = hw_devices w /\ extends not_failed_realloc w w') \/
  (exists ref new,
      x = goto_fail (AVERROR ENOMEM) ref /\
      hw_devices w' = [] /\
      trace w'
      = (EvAlloc A_reallocp_array false :: new ++ trace w)%list).
Proof.
  unfold init_from_string_body. intros H.
  apply bind_inv in H.
  destruct H as [(y & H1 & _) | (tn & w1 & H1 & H)].
  { left. split; [exact (keeps_av_strndup _ _ _ _ _ H1)|].
    exact (spares_array_av_strndup _ _ _ _ _ H1). }
  pose proof (keeps_av_strndup _ _ _ _ _ H1) as K1.
  pose proof (spares_array_av_strndup _ _ _ _ _ H1) as X1.
  destruct (av_hwdevice_find_type_by_name E tn =? AV_HWDEVICE_TYPE_NONE).
  { inversion H; subst. left. split; assumption. }
  apply bind_inv in H.
  destruct H as [(y & H2 & _) | (np & w2 & H2 & H)].
  { left. split.
    - rewrite (keeps_parse_name _ _ _ _ _ H2). exact K1.
    - exact (extends_trans _ _ _ _ X1
               (spares_array_parse_name _ _ _ _ _ H2)). }
  pose proof (keeps_parse_name _ _ _ _ _ H2) as K2.
  pose proof (extends_trans _ _ _ _ X1
                (spares_array_parse_name _ _ _ _ _ H2)) as X2.
  apply bind_inv in H.
  destruct H as [(y & H3 & _) | (ref & w3 & H3 & H)].
  { left. split.
    - rewrite (keeps_parse_body _ _ _ _ _ H3). congruence.
    - exact (extends_trans _ _ _ _ X2
               (spares_array_parse_body _ _ _ _ _ H3)). }
  pose proof (keeps_parse_body _ _ _ _ _ H3) as K3.
  pose proof (extends_trans _ _ _ _ X2
                (spares_array_parse_body _ _ _ _ _ H3)) as X3.
  apply register_trace in H.
  destruct H as [(dev & Hd) | [(Hx & K & X) | (Hx & K & T)]].
  - discriminate.
  - left. split; [congruence | exact (extends_trans _ _ _ _ X3 X)].
  - right. destruct X3 as (new & Ht & _).
    exists ref, new. inversion Hx; subst x.
    split; [reflexivity|]. split; [exact K|].
    rewrite T, Ht. reflexivity.
Qed.

End ParserFacts.

(* ===================================================================== *)
(** ** C string facts *)
(* ===================================================================== *)

Module CStrFacts.
Import CStr.

Lemma strcspn_app s r reject :
  avoids s reject = true ->
  strcspn (s ++ r) reject = (String.length s + strcspn r reject)%nat.
Proof.
  induction s as [|c s IH]; simpl; [reflexivity|].
  intros H. apply andb_prop in H. destruct H as [Hc Hs].
  apply negb_true_iff in Hc. rewrite Hc, (IH Hs). reflexivity.
Qed.

Lemma strcspn_stop s r reject :
  avoids s reject = true -> strcspn r reject = O ->
  strcspn (s ++ r) reject = String.length s.
Proof.
  intros Hs Hr. rewrite strcspn_app by assumption. rewrite Hr. apply Nat.add_0_r.
Qed.

Lemma advance_app s r : advance (String.length s) (s ++ r) = r.
Proof. induction s as [|c s IH]; simpl; [now destruct r | exact IH]. Qed.

Lemma strndup_app s r : strndup (s ++ r) (String.length s) = s.
Proof.
  induction s as [|c s IH]; simpl; [now destruct r | now rewrite IH].
Qed.

Lemma strndup_all s k : (String.length s <= k)%nat -> strndup s k = s.
Proof.
  revert k. induction s as [|c s IH]; intros k H.
  - now destruct k.
  - destruct k as [|k]; simpl in *; [lia|]. rewrite IH; [reflexivity | lia].
Qed.


Lemma length_app s r :
  String.length (s ++ r) = (String.length s + String.length r)%nat.
Proof. induction s as [|c s IH]; simpl; [reflexivity | now rewrite IH]. Qed.

Lemma app_inv_head s a b : s ++ a = s ++ b -> a = b.
Proof.
  induction s as [|c s IH]; simpl; [trivial|].
  intros [= H]. exact (IH H).
Qed.

Lemma decimal_short i :
  (i < 1000)%nat -> (String.length (decimal i) <= 3)%nat.
Proof.
  intros H.
  assert (A : forallb (fun j => (String.length (decimal j) <=? 3)%nat)
                      (seq 0 1000) = true) by (vm_compute; reflexivity).
  rewrite forallb_forall in A.
  apply Nat.leb_le. apply A. apply in_seq. lia.
Qed.

(** For an index below the limit the buffer of [index_pos + 4] bytes holds
    the whole name. *)
Lemma snprintf_s_d_fits s i :
  (i < 1000)%nat ->
  snprintf_s_d (String.length s + 4) s i = s ++ decimal i.
Proof.
  intros H. unfold snprintf_s_d. apply strndup_all.
  rewrite length_app. pose proof (decimal_short i H). lia.
Qed.

End CStrFacts.

(* ===================================================================== *)
(** ** C1: the registry on the error paths *)
(* ===================================================================== *)

(** C1 (as amended). When [hw_device_init_from_string] returns an error,
    either no reallocation of the device array failed during the call and
    the registry is exactly as before it, or the reallocation in
    [hw_device_add] failed, and then the error is [AVERROR(ENOMEM)] and
    the registry has been reset to empty, whatever it held. *)
Theorem hw_device_init_from_string_error_registry
    (E : Env) (arg : string) (w : World)
    (err : Z) (out : option nat) (w' : World) :
  hw_device_init_from_string E arg w = (Returns (err, out), w') ->
  err <> 0 ->
  (hw_devices w' = hw_devices w /\ ~ realloc_failed w w') \/
  (err = AVERROR ENOMEM /\ hw_devices w' = [] /\
   realloc_failed w w' /\
   exists ref h,
     trace w' = EvBufferUnref ref :: EvLog (LogCreationFailed err)
                  :: EvAlloc A_reallocp_array false :: h).
Proof.
  unfold hw_device_init_from_string. intros H Herr.
  destruct (init_from_string_body E arg w) as [[x | dev] w1] eqn:Hb.
  - apply init_from_string_body_exit in Hb.
    destruct Hb as [(K & X) | (ref & new & -> & K & T)].
    + left. destruct x as [msg | e ref |]; inversion H; subst.
      * split; [exact K|]. apply extends_not_realloc_failed.
        apply extends_emit; [discriminate | exact X].
      * split; [exact K|]. apply extends_not_realloc_failed.
        apply extends_emit; [discriminate|].
        apply extends_emit; [discriminate | exact X].
    + right. inversion H; subst; clear H.
      split; [reflexivity|]. split; [exact K|]. split.
      * exists (EvBufferUnref ref :: EvLog (LogCreationFailed (AVERROR ENOMEM))
                  :: EvAlloc A_reallocp_array false :: new).
        simpl. rewrite T. split; [reflexivity|]. right. right. now left.
      * exists ref, (new ++ trace w)%list. simpl. rewrite T. reflexivity.
  - inversion H; subst. contradiction.
Qed.

Lemma hw_device_init_from_string_error_registry_witness :
  let E := Sample.runtime Sample.no_realloc [] [] in
  let w' := snd (hw_device_init_from_string E "vaapi" Sample.one_cuda) in
  (hw_devices w' = hw_devices Sample.one_cuda /\
   ~ realloc_failed Sample.one_cuda w') \/
  (AVERROR ENOMEM = AVERROR ENOMEM /\ hw_devices w' = [] /\
   realloc_failed Sample.one_cuda w' /\
   exists ref h,
     trace w' = EvBufferUnref ref
                  :: EvLog (LogCreationFailed (AVERROR ENOMEM))
                  :: EvAlloc A_reallocp_array false :: h).
Proof.
  apply (hw_device_init_from_string_error_registry
           (Sample.runtime Sample.no_realloc [] []) "vaapi" Sample.one_cuda
           (AVERROR ENOMEM) None).
  - reflexivity.
  - vm_compute. discriminate.
Defined.

(** C1 as stated fails: with one device registered and the reallocation
    in [hw_device_add] failing, the call returns an error and the registry
    is empty afterwards. *)
Lemma hw_device_init_from_string_realloc_failure :
  exists w',
    hw_device_init_from_string (Sample.runtime Sample.no_realloc [] [])
      "vaapi" Sample.one_cuda
    = (Returns (AVERROR ENOMEM, None), w') /\
    AVERROR ENOMEM <> 0 /\
    nb_hw_devices Sample.one_cuda = 1%nat /\ nb_hw_devices w' = 0%nat /\
    hw_devices w' <> hw_devices Sample.one_cuda.
Proof.
  eexists. split; [vm_compute; reflexivity|].
  vm_compute. repeat split; discriminate.
Qed.

(* ===================================================================== *)
(** ** Running the parser *)
(* ===================================================================== *)

Section ParserRuns.
Variable E : Env.

Lemma hw_device_get_by_name_ext w1 w2 n :
  hw_devices w1 = hw_devices w2 ->
  hw_device_get_by_name w1 n = hw_device_get_by_name w2 n.
Proof. unfold hw_device_get_by_name. now intros ->. Qed.

Lemma av_strndup_run s k w :
  alloc_ok E (trace w) A_strndup = true ->
  av_strndup E s k w
  = (inr (CStr.strndup s k), emit (EvAlloc A_strndup true) w).
Proof. unfold av_strndup, alloc. now intros ->. Qed.



Lemma register_run n ty ref w :
  (forall h a, alloc_ok E h a = true) ->
  exists w1,
    register E n ty ref w = (inr (nb_hw_devices w), w1) /\
    hw_devices w1 = (hw_devices w ++ [mkHWDevice (Some n) ty ref])%list.
Proof.
  intros Hall.
  destruct (register E n ty ref w) as [r w1] eqn:H.
  pose proof H as H'. apply register_spec in H'.
  destruct H' as [[-> K] | [-> _]]; [eauto|].
  exfalso. unfold register, hw_device_add, alloc in H.
  rewrite !Hall in H. simpl in H. discriminate.
Qed.

Lemma init_from_string_body_head arg w :
  alloc_ok E (trace w) A_strndup = true ->
  init_from_string_body E arg w =
  (let ty := av_hwdevice_find_type_by_name E (spec_type_name arg) in
   if ty =? AV_HWDEVICE_TYPE_NONE then
     jump (goto_invalid "unknown device type")
   else
     np <- parse_name E ty (spec_rest arg) ;;
     ref <- parse_body E ty (snd np) ;;
     register E (fst np) ty ref)
    (emit (EvAlloc A_strndup true) w).
Proof.
  intros H. unfold init_from_string_body.
  unfold bind at 1. rewrite (av_strndup_run _ _ _ H). reflexivity.
Qed.

(** An explicit name [=n] that is free. *)
Lemma parse_name_explicit ty n rest w :
  CStr.avoids n ":@," = true -> CStr.strcspn rest ":@," = O ->
  alloc_ok E (trace w) A_strndup = true ->
  hw_device_get_by_name w n = None ->
  exists w1,
    parse_name E ty (String "=" (n ++ rest)) w = (inr (n, rest), w1) /\
    hw_devices w1 = hw_devices w.
Proof.
  intros Hn Hrest Hal Hfree.
  unfold parse_name. change (at_char (String "=" (n ++ rest)) "=") with true.
  cbv iota. change (CStr.advance 1 (String "=" (n ++ rest))) with (n ++ rest).
  rewrite (CStrFacts.strcspn_stop _ _ _ Hn Hrest).
  unfold bind. rewrite (av_strndup_run _ _ _ Hal), CStrFacts.strndup_app.
  rewrite (hw_device_get_by_name_ext _ w n) by reflexivity.
  rewrite Hfree.
  change (CStr.advance (1 + String.length n) (String "=" (n ++ rest)))
    with (CStr.advance (String.length n) (n ++ rest)).
  rewrite CStrFacts.advance_app.
  eexists. split; reflexivity.
Qed.




End ParserRuns.

(* ===================================================================== *)
(** ** C5: explicit names *)
(* ===================================================================== *)

Lemma spec_split tn r :
  CStr.avoids tn ":=@" = true -> CStr.strcspn r ":=@" = O ->
  spec_type_name (tn ++ r) = tn /\ spec_rest (tn ++ r) = r.
Proof.
  intros Htn Hr. unfold spec_type_name, spec_rest.
  rewrite (CStrFacts.strcspn_stop _ _ _ Htn Hr).
  split; [apply CStrFacts.strndup_app | apply CStrFacts.advance_app].
Qed.




(* ===================================================================== *)
(** ** C9: generated names *)
(* ===================================================================== *)

Section AutoNames.
Variable E : Env.

Lemma fails_negative_bind {A B : Type} (m : M A) (k : A -> M B) :
  fails_negative m -> (forall a, fails_negative (k a)) ->
  fails_negative (bind m k).
Proof.
  intros Hm Hk w err ref w' H.
  destruct (bind_inv _ _ _ _ _ H) as [(x & H1 & Hx) | (a & w1 & _ & H2)].
  - inversion Hx; subst. exact (Hm _ _ _ _ H1).
  - exact (Hk _ _ _ _ _ H2).
Qed.

Ltac split_run H :=
  repeat match type of H with
         | context [let '(_, _) := ?x in _] => destruct x eqn:?
         | context [if ?b then _ else _] => destruct b eqn:?
         | context [match ?x with _ => _ end] => destruct x eqn:?
         end.

Ltac negative :=
  try discriminate;
  match goal with
  | H : _ = (inl (goto_fail _ _), _) |- _ =>
      inversion H; subst; clear H
  end;
  first [ reflexivity | now apply Z.ltb_lt ].

Lemma fails_negative_av_strndup s k : fails_negative (av_strndup E s k).
Proof.
  intros w err ref w' H. unfold av_strndup, alloc in H.
  split_run H; negative.
Qed.

Lemma fails_negative_parse_options str : fails_negative (parse_options E str).
Proof.
  intros w err ref w' H. unfold parse_options in H. split_run H; negative.
Qed.

Lemma fails_negative_ctx_create ty device options :
  fails_negative (ctx_create E ty device options).
Proof.
  intros w err ref w' H. unfold ctx_create in H. split_run H; negative.
Qed.

Lemma fails_negative_ctx_create_derived ty src :
  fails_negative (ctx_create_derived E ty src).
Proof.
  intros w err ref w' H. unfold ctx_create_derived in H.
  split_run H; negative.
Qed.

Lemma fails_negative_parse_name ty p : fails_negative (parse_name E ty p).
Proof.
  unfold parse_name. destruct (at_char p "=").
  - apply fails_negative_bind; [apply fails_negative_av_strndup|].
    intros n w err ref w' H. split_run H; negative.
  - intros w err ref w' H. split_run H; negative.
Qed.

Lemma fails_negative_parse_body ty p : fails_negative (parse_body E ty p).
Proof.
  unfold parse_body.
  destruct (at_end p); [apply fails_negative_ctx_create|].
  destruct (at_char p ":").
  { destruct (CStr.strchr (CStr.advance 1 p) ",");
      [|apply fails_negative_ctx_create].
    apply fails_negative_bind.
    - destruct (0 <? n)%nat; [|intros w err ref w' H; discriminate].
      apply fails_negative_bind; [apply fails_negative_av_strndup|].
      intros d w err ref w' H; discriminate.
    - intros device. apply fails_negative_bind;
        [apply fails_negative_parse_options|].
      intros options. apply fails_negative_ctx_create. }
  destruct (at_char p "@").
  { intros w err ref w' H.
    destruct (hw_device_get_by_name w (CStr.advance 1 p)).
    - exact (fails_negative_ctx_create_derived _ _ _ _ _ _ H).
    - discriminate. }
  destruct (at_char p ",").
  { apply fails_negative_bind; [apply fails_negative_parse_options|].
    intros options. apply fails_negative_ctx_create. }
  intros w err ref w' H; discriminate.
Qed.

Lemma fails_negative_register n ty ref : fails_negative (register E n ty ref).
Proof.
  intros w err ref' w' H. apply register_spec in H.
  destruct H as [[H _] | [H _]]; inversion H; subst; reflexivity.
Qed.

Lemma fails_negative_body arg : fails_negative (init_from_string_body E arg).
Proof.
  unfold init_from_string_body.
  apply fails_negative_bind; [apply fails_negative_av_strndup|].
  intros tn.
  destruct (av_hwdevice_find_type_by_name E tn =? AV_HWDEVICE_TYPE_NONE).
  { intros w err ref w' H; discriminate. }
  apply fails_negative_bind; [apply fails_negative_parse_name|].
  intros np. apply fails_negative_bind; [apply fails_negative_parse_body|].
  intros ref. apply fails_negative_register.
Qed.

(** A zero return value is the success path. *)
Lemma init_from_string_zero arg w out w' :
  hw_device_init_from_string E arg w = (Returns (0, out), w') ->
  exists dev, init_from_string_body E arg w = (inr dev, w').
Proof.
  unfold hw_device_init_from_string.
  destruct (init_from_string_body E arg w)
    as [[[msg | err ref |] | dev] w1] eqn:Hb; intros H.
  - discriminate.
  - pose proof (fails_negative_body _ _ _ _ _ Hb).
    inversion H; subst. lia.
  - discriminate.
  - inversion H; subst. eauto.
Qed.

Lemma hw_device_default_name_from_ext w1 w2 tn pos index steps :
  hw_devices w1 = hw_devices w2 ->
  hw_device_default_name_from w1 tn pos index steps
  = hw_device_default_name_from w2 tn pos index steps.
Proof.
  intros K. revert index.
  induction steps as [|steps IH]; intros index; simpl; [reflexivity|].
  rewrite (hw_device_get_by_name_ext w1 w2 _ K), IH. reflexivity.
Qed.

(** A device registered without an explicit name carries the name that the
    loop of [hw_device_default_name] finds in the registry as it is when
    the call begins. *)
Lemma init_from_string_auto_inv arg w out w' tn :
  at_char (spec_rest arg) "=" = false ->
  hw_device_init_from_string E arg w = (Returns (0, out), w') ->
  let ty := av_hwdevice_find_type_by_name E (spec_type_name arg) in
  av_hwdevice_get_type_name E ty = Some tn ->
  exists n ref,
    hw_device_default_name_from w tn (String.length tn) 0 index_limit
    = Some n /\
    hw_devices w' = (hw_devices w ++ [mkHWDevice (Some n) ty ref])%list.
Proof.
  intros Hauto H ty Htn.
  apply init_from_string_zero in H. destruct H as [dev H].
  unfold init_from_string_body in H.
  apply bind_inv in H.
  destruct H as [(x & _ & Hx) | (tn' & w1 & H1 & H)]; [discriminate|].
  pose proof (keeps_av_strndup _ _ _ _ _ _ H1) as K1.
  assert (tn' = spec_type_name arg) as ->.
  { unfold av_strndup, alloc in H1.
    destruct (alloc_ok E (trace w) A_strndup); simpl in H1;
      inversion H1; reflexivity. }
  fold (spec_rest arg) in H. fold ty in H.
  destruct (ty =? AV_HWDEVICE_TYPE_NONE); [discriminate|].
  apply bind_inv in H.
  destruct H as [(x & _ & Hx) | (np & w2 & H2 & H)]; [discriminate|].
  pose proof (keeps_parse_name _ _ _ _ _ _ H2) as K2.
  unfold parse_name in H2. rewrite Hauto in H2.
  unfold hw_device_default_name, alloc in H2. rewrite Htn in H2.
  destruct (alloc_ok E (trace w1) A_malloc);
    cbv beta iota zeta delta [negb] in H2; [|discriminate].
  destruct (hw_device_default_name_from
              (emit (EvAlloc A_malloc true) w1) tn (String.length tn) 0
              index_limit) as [n|] eqn:Hn; [|discriminate].
  inversion H2; subst np w2; clear H2. cbn [fst snd] in H.
  rewrite (hw_device_default_name_from_ext _ w) in Hn by exact K1.
  apply bind_inv in H.
  destruct H as [(x & _ & Hx) | (ref & w3 & H3 & H)]; [discriminate|].
  pose proof (keeps_parse_body _ _ _ _ _ _ H3) as K3.
  apply register_spec in H.
  destruct H as [[_ K] | [Hx _]]; [|discriminate].
  exists n, ref. split; [exact Hn|].
  rewrite K, K3. simpl. rewrite K1. reflexivity.
Qed.

End AutoNames.

Lemma hw_device_default_name_from_first_free w tn steps :
  forall index j,
    (index + steps <= 1000)%nat -> (j < steps)%nat ->
    (forall i, (index <= i < index + j)%nat ->
               hw_device_get_by_name w (tn ++ CStr.decimal i) <> None) ->
    hw_device_get_by_name w (tn ++ CStr.decimal (index + j)) = None ->
    hw_device_default_name_from w tn (String.length tn) index steps
    = Some (tn ++ CStr.decimal (index + j)).
Proof.
  induction steps as [|steps IH]; intros index j Hb Hj Htaken Hfree; [lia|].
  cbn [hw_device_default_name_from].
  rewrite CStrFacts.snprintf_s_d_fits by lia.
  destruct j as [|j].
  - rewrite Nat.add_0_r in Hfree. rewrite Hfree. now rewrite Nat.add_0_r.
  - destruct (hw_device_get_by_name w (tn ++ CStr.decimal index)) eqn:Hi.
    + replace (index + S j)%nat with (S index + j)%nat in * by lia.
      apply IH; [lia | lia | | exact Hfree].
      intros i Hi'. apply Htaken. lia.
    + exfalso. apply (Htaken index); [lia | exact Hi].
Qed.

Lemma hw_device_default_name_from_exhausted w tn steps :
  forall index,
    (index + steps <= 1000)%nat ->
    (forall i, (index <= i < index + steps)%nat ->
               hw_device_get_by_name w (tn ++ CStr.decimal i) <> None) ->
    hw_device_default_name_from w tn (String.length tn) index steps = None.
Proof.
  induction steps as [|steps IH]; intros index Hb Htaken; [reflexivity|].
  cbn [hw_device_default_name_from].
  rewrite CStrFacts.snprintf_s_d_fits by lia.
  destruct (hw_device_get_by_name w (tn ++ CStr.decimal index)) eqn:Hi.
  - apply IH; [lia|]. intros i Hi'. apply Htaken. lia.
  - exfalso. apply (Htaken index); [lia | exact Hi].
Qed.

Lemma hw_device_get_by_name_last w w' n ty ref m :
  hw_devices w' = (hw_devices w ++ [mkHWDevice (Some n) ty ref])%list ->
  hw_device_get_by_name w m = None ->
  hw_device_get_by_name w' m
  = if String.eqb n m then Some (mkHWDevice (Some n) ty ref) else None.
Proof.
  unfold hw_device_get_by_name. intros -> Hm.
  rewrite hw_device_get_by_name_from_app, Hm. reflexivity.
Qed.

(** C9. Two devices of one type registered without explicit names, in a
    registry where the first two generated names are free, are named
    [<type-name>0] and [<type-name>1]; the generated name is the one of
    the least free index below 1000; and when all 1000 names are taken,
    [hw_device_default_name] returns NULL and the registration fails with
    [AVERROR(ENOMEM)]. *)
Theorem hw_device_default_name_sequence :
  (forall E w arg1 arg2 ty tn out1 w1 out2 w2,
      av_hwdevice_get_type_name E ty = Some tn ->
      at_char (spec_rest arg1) "=" = false ->
      at_char (spec_rest arg2) "=" = false ->
      av_hwdevice_find_type_by_name E (spec_type_name arg1) = ty ->
      av_hwdevice_find_type_by_name E (spec_type_name arg2) = ty ->
      hw_device_get_by_name w (tn ++ "0") = None ->
      hw_device_get_by_name w (tn ++ "1") = None ->
      hw_device_init_from_string E arg1 w = (Returns (0, out1), w1) ->
      hw_device_init_from_string E arg2 w1 = (Returns (0, out2), w2) ->
      exists ref1 ref2,
        hw_devices w2
        = (hw_devices w ++ [mkHWDevice (Some (tn ++ "0")%string) ty ref1;
                            mkHWDevice (Some (tn ++ "1")%string) ty ref2])%list)
  /\
  (forall E w ty tn j,
      av_hwdevice_get_type_name E ty = Some tn ->
      alloc_ok E (trace w) A_malloc = true ->
      (j < index_limit)%nat ->
      (forall i, (i < j)%nat ->
                 hw_device_get_by_name w (tn ++ CStr.decimal i) <> None) ->
      hw_device_get_by_name w (tn ++ CStr.decimal j) = None ->
      fst (hw_device_default_name E ty w)
      = Returns (Some (tn ++ CStr.decimal j)))
  /\
  (forall E w arg ty tn,
      av_hwdevice_get_type_name E ty = Some tn ->
      at_char (spec_rest arg) "=" = false ->
      av_hwdevice_find_type_by_name E (spec_type_name arg) = ty ->
      ty <> AV_HWDEVICE_TYPE_NONE ->
      alloc_ok E (trace w) A_strndup = true ->
      (forall i, (i < index_limit)%nat ->
                 hw_device_get_by_name w (tn ++ CStr.decimal i) <> None) ->
      fst (hw_device_default_name E ty w) = Returns None /\
      exists w',
        hw_device_init_from_string E arg w
        = (Returns (AVERROR ENOMEM, None), w') /\
        hw_devices w' = hw_devices w).
Proof.
  split; [|split].
  - intros E w arg1 arg2 ty tn out1 w1 out2 w2 Htn A1 A2 T1 T2 F0 F1 R1 R2.
    pose proof Htn as Htn1. rewrite <- T1 in Htn1.
    pose proof Htn as Htn2. rewrite <- T2 in Htn2.
    destruct (init_from_string_auto_inv E arg1 w out1 w1 tn A1 R1 Htn1)
      as (n1 & ref1 & N1 & K1).
    destruct (init_from_string_auto_inv E arg2 w1 out2 w2 tn A2 R2 Htn2)
      as (n2 & ref2 & N2 & K2).
    rewrite T1 in K1. rewrite T2 in K2.
    rewrite (hw_device_default_name_from_first_free w tn index_limit 0 0)
      in N1;
      [ | unfold index_limit; lia | unfold index_limit; lia
        | intros i Hi; lia | exact F0 ].
    inversion N1; subst n1; clear N1.
    change (CStr.decimal (0 + 0)) with "0" in K1.
    change (CStr.decimal 0) with "0" in K1.
    rewrite (hw_device_default_name_from_first_free w1 tn index_limit 0 1)
      in N2;
      [ | unfold index_limit; lia | unfold index_limit; lia | | ].
    + inversion N2; subst n2; clear N2.
      change (CStr.decimal (0 + 1)) with "1" in K2.
      exists ref1, ref2. rewrite K2, K1, <- app_assoc. reflexivity.
    + intros i Hi. assert (i = 0)%nat as -> by lia.
      change (CStr.decimal 0) with "0".
      rewrite (hw_device_get_by_name_last w w1 _ _ _ _ K1 F0).
      rewrite String.eqb_refl. discriminate.
    + change (CStr.decimal (0 + 1)) with "1".
      rewrite (hw_device_get_by_name_last w w1 _ _ _ _ K1 F1).
      destruct (String.eqb (tn ++ "0") (tn ++ "1")) eqn:Heq; [|reflexivity].
      apply String.eqb_eq, CStrFacts.app_inv_head in Heq. discriminate.
  - intros E w ty tn j Htn Hal Hj Htaken Hfree.
    unfold hw_device_default_name, alloc. rewrite Htn, Hal.
    cbv beta iota zeta delta [negb fst].
    rewrite (hw_device_default_name_from_first_free _ tn index_limit 0 j).
    + reflexivity.
    + unfold index_limit; lia.
    + exact Hj.
    + intros i Hi. apply Htaken. lia.
    + exact Hfree.
  - intros E w arg ty tn Htn Hauto Hty Hknown Hal Htaken.
    assert (Hloop : forall w0, hw_devices w0 = hw_devices w ->
              hw_device_default_name_from w0 tn (String.length tn) 0
                index_limit = None).
    { intros w0 K0. rewrite (hw_device_default_name_from_ext w0 w _ _ _ _ K0).
      apply hw_device_default_name_from_exhausted;
        [unfold index_limit; lia|].
      intros i Hi. apply Htaken. unfold index_limit in *. lia. }
    assert (Hname : forall w0, hw_devices w0 = hw_devices w ->
              fst (hw_device_default_name E ty w0) = Returns None).
    { intros w0 K0. unfold hw_device_default_name, alloc. rewrite Htn.
      destruct (alloc_ok E (trace w0) A_malloc);
        cbv beta iota zeta delta [negb fst]; [|reflexivity].
      rewrite (Hloop (emit (EvAlloc A_malloc true) w0) K0). reflexivity. }
    split; [apply Hname; reflexivity|].
    unfold hw_device_init_from_string.
    rewrite (init_from_string_body_head E arg w Hal).
    cbv zeta. rewrite Hty.
    apply Z.eqb_neq in Hknown. rewrite Hknown.
    unfold bind at 1. unfold parse_name. rewrite Hauto.
    set (w0 := emit (EvAlloc A_strndup true) w).
    pose proof (Hname w0 eq_refl) as Hn0.
    destruct (hw_device_default_name E ty w0) as [o w1] eqn:Hd.
    simpl in Hn0. subst o.
    eexists. split; [reflexivity|].
    simpl. exact (hw_device_default_name_keeps E ty w0 _ _ Hd).
Qed.

Lemma hw_device_get_by_name_from_listed names ty n :
  In n names ->
  hw_device_get_by_name_from
    (map (fun s => mkHWDevice (Some s) ty None) names) n <> None.
Proof.
  induction names as [|s names IH]; simpl; [tauto|].
  intros [-> | H].
  - unfold name_is. simpl. rewrite String.eqb_refl. discriminate.
  - destruct (name_is _ n); [discriminate | exact (IH H)].
Qed.

Lemma hw_device_default_name_sequence_witness :
  (exists ref1 ref2,
      hw_devices Sample.after_two
      = [mkHWDevice (Some "cuda0") Sample.CUDA ref1;
         mkHWDevice (Some "cuda1") Sample.CUDA ref2])
  /\
  fst (hw_device_default_name Sample.quiet Sample.CUDA Sample.one_cuda)
  = Returns (Some "cuda1")
  /\
  (fst (hw_device_default_name Sample.quiet Sample.CUDA Sample.full)
   = Returns None /\
   exists w',
     hw_device_init_from_string Sample.quiet "cuda" Sample.full
     = (Returns (AVERROR ENOMEM, None), w') /\
     hw_devices w' = hw_devices Sample.full).
Proof.
  destruct hw_device_default_name_sequence as (Ha & Hb & Hc).
  split; [|split].
  - apply (Ha Sample.quiet Sample.empty "cuda" "cuda:1" Sample.CUDA "cuda"
              (Some 0%nat) Sample.after_cuda (Some 1%nat) Sample.after_two);
      reflexivity.
  - apply (Hb Sample.quiet Sample.one_cuda Sample.CUDA "cuda" 1%nat).
    + reflexivity.
    + reflexivity.
    + unfold index_limit. lia.
    + intros i Hi. assert (i = 0)%nat as -> by lia.
      vm_compute. discriminate.
    + reflexivity.
  - apply (Hc Sample.quiet Sample.full "cuda" Sample.CUDA "cuda").
    + reflexivity.
    + reflexivity.
    + reflexivity.
    + vm_compute. discriminate.
    + reflexivity.
    + intros i Hi.
      apply (hw_device_get_by_name_from_listed Sample.cuda_names Sample.CUDA).
      unfold Sample.cuda_names.
      apply (in_map (fun i => "cuda" ++ CStr.decimal i)).
      apply in_seq. unfold index_limit in Hi. lia.
Defined.

(* ===================================================================== *)
(** ** C2: decode binding *)
(* ===================================================================== *)

Lemma setup_for_decode_scan_unregistered w requested configs :
  hw_device_get_by_type w requested = None ->
  setup_for_decode_scan w requested configs = None.
Proof.
  intros Hnone.
  induction configs as [|config rest IH]; simpl; [reflexivity|].
  destruct (negb (has_method config AV_CODEC_HW_CONFIG_METHOD_HW_DEVICE_CTX));
    [exact IH|].
  destruct (device_type config =? requested) eqn:Heq; [|exact IH].
  apply Z.eqb_eq in Heq. rewrite Heq, Hnone. exact IH.
Qed.

(** The loop is only left by [break] with a device in hand: the branch
    "No suitable hwaccel device found" behind it cannot be reached. *)
Lemma setup_for_decode_scan_break w requested configs o :
  setup_for_decode_scan w requested configs = Some o -> o <> None.
Proof.
  induction configs as [|config rest IH]; simpl; [discriminate|].
  destruct (negb (has_method config AV_CODEC_HW_CONFIG_METHOD_HW_DEVICE_CTX));
    [exact IH|].
  destruct (device_type config =? requested); [|exact IH].
  destruct (hw_device_get_by_type w (device_type config)); [|exact IH].
  intros [= <-]. discriminate.
Qed.

(** In no case does [hw_device_setup_for_decode] report "No suitable
    hwaccel device found". *)
Lemma hw_device_setup_for_decode_never_no_suitable E ist w :
  let msg := EvLog (LogError "No suitable hwaccel device found") in
  In msg (trace (snd (hw_device_setup_for_decode E ist w))) ->
  In msg (trace w).
Proof.
  intros msg. unfold hw_device_setup_for_decode.
  destruct (hwaccel_id ist =? HWACCEL_NONE); [trivial|].
  destruct (setup_for_decode_scan w (hwaccel_device_type ist)
              (hw_configs (codec (dec_ctx ist)))) as [[dev|]|] eqn:Hscan.
  - destruct (avcodec_set_hw_device_ctx E (trace w) (dec_ctx ist)
                (device_ref dev) <? 0).
    + simpl. intros [H | H]; [discriminate | exact H].
    + unfold av_buffer_ref, alloc.
      destruct (alloc_ok E _ A_buffer_ref); destruct (device_ref dev);
        simpl; intros [H | [H | H]]; try discriminate; exact H.
  - exfalso. exact (setup_for_decode_scan_break _ _ _ _ Hscan eq_refl).
  - simpl. intros [H | H]; [discriminate | exact H].
Qed.

(** C2 (what the code does). With a hardware-accel request and no device
    of the requested type that [hw_device_get_by_type] finds, whatever the
    decoder's table holds, also an entry of that very type,
    [hw_device_setup_for_decode] returns [AVERROR(ENOSYS)] with "Decoder
    does not support any device type". *)
Theorem hw_device_setup_for_decode_unregistered
    (E : Env) (ist : InputStream) (w : World) :
  hwaccel_id ist <> HWACCEL_NONE ->
  hw_device_get_by_type w (hwaccel_device_type ist) = None ->
  hw_device_setup_for_decode E ist w
  = (AVERROR ENOSYS, ist,
     emit (EvLog (LogError "Decoder does not support any device type")) w).
Proof.
  intros Hreq Hnone. unfold hw_device_setup_for_decode.
  apply Z.eqb_neq in Hreq. rewrite Hreq.
  rewrite (setup_for_decode_scan_unregistered w _ _ Hnone). reflexivity.
Qed.

Lemma hw_device_setup_for_decode_unregistered_witness :
  In (mkHWConfig 117 AV_CODEC_HW_CONFIG_METHOD_HW_DEVICE_CTX Sample.CUDA)
     (hw_configs (codec (dec_ctx Sample.cuda_stream))) /\
  hwaccel_device_type Sample.cuda_stream = Sample.CUDA /\
  hw_device_setup_for_decode Sample.quiet Sample.cuda_stream Sample.empty
  = (AVERROR ENOSYS, Sample.cuda_stream,
     emit (EvLog (LogError "Decoder does not support any device type"))
          Sample.empty).
Proof.
  split; [left; reflexivity|]. split; [reflexivity|].
  apply (hw_device_setup_for_decode_unregistered
           Sample.quiet Sample.cuda_stream Sample.empty).
  - vm_compute. discriminate.
  - reflexivity.
Defined.

(* ===================================================================== *)
(** ** C7: encode binding *)
(* ===================================================================== *)

(** C7. [hw_device_setup_for_encode] returns 0 and does nothing when
    [hw_device_match_by_codec] finds no device; returns 0 without binding
    anything when [ost->hw_frames_ctx] is NULL after [set_hwframe_ctx];
    and when a pool is there but [avcodec_set_hw_frames_ctx] fails, it
    unreferences the pool, leaves [ost->hw_frames_ctx] NULL and returns
    that error. *)
Theorem hw_device_setup_for_encode_cases
    (E : Env) (ost : OutputStream) (w : World) :
  (hw_device_match_by_codec w (codec (enc_ctx ost)) = None ->
   hw_device_setup_for_encode E ost w = (0, ost, w))
  /\
  (forall dev ost1 w1,
      hw_device_match_by_codec w (codec (enc_ctx ost)) = Some dev ->
      set_hwframe_ctx E ost (codec (enc_ctx ost)) (enc_ctx ost) dev w
      = (ost1, w1) ->
      hw_frames_ctx ost1 = None ->
      hw_device_setup_for_encode E ost w = (0, ost1, w1))
  /\
  (forall dev ost1 w1 pool err,
      hw_device_match_by_codec w (codec (enc_ctx ost)) = Some dev ->
      set_hwframe_ctx E ost (codec (enc_ctx ost)) (enc_ctx ost) dev w
      = (ost1, w1) ->
      hw_frames_ctx ost1 = Some pool ->
      avcodec_set_hw_frames_ctx E (trace w1) (enc_ctx ost1) (Some pool)
      = err ->
      err < 0 ->
      hw_device_setup_for_encode E ost w
      = (err, mkOutputStream (enc_ctx ost1) None,
         emit (EvBufferUnref (Some pool))
              (emit (EvSetHWFramesCtx (Some pool) err) w1))).
Proof.
  unfold hw_device_setup_for_encode. split; [|split].
  - intros ->. reflexivity.
  - intros dev ost1 w1 -> -> ->. reflexivity.
  - intros dev ost1 w1 pool err -> -> Hpool <- Herr.
    rewrite Hpool. apply Z.ltb_lt in Herr. rewrite Herr.
    unfold unref_hw_frames_ctx. rewrite Hpool. reflexivity.
Qed.

Lemma hw_device_setup_for_encode_cases_witness :
  hw_device_setup_for_encode Sample.quiet Sample.cuda_ost Sample.empty
  = (0, Sample.cuda_ost, Sample.empty)
  /\
  hw_device_setup_for_encode Sample.quiet Sample.plain_ost Sample.one_cuda
  = (0, Sample.plain_ost, Sample.one_cuda)
  /\
  hw_device_setup_for_encode (Sample.refusing_frames Sample.quiet)
    Sample.cuda_ost Sample.one_cuda
  = (AVERROR EINVAL, mkOutputStream (enc_ctx Sample.cuda_ost) None,
     mkWorld (hw_devices Sample.one_cuda)
       [EvBufferUnref (Some 0);
        EvSetHWFramesCtx (Some 0) (AVERROR EINVAL);
        EvGetHWFramesParameters (Some 7) 117 0]).
Proof.
  split; [|split].
  - apply (proj1 (hw_device_setup_for_encode_cases
                    Sample.quiet Sample.cuda_ost Sample.empty)).
    reflexivity.
  - apply (proj1 (proj2 (hw_device_setup_for_encode_cases
                           Sample.quiet Sample.plain_ost Sample.one_cuda))
             (mkHWDevice (Some "cuda0") Sample.CUDA (Some 7))).
    + reflexivity.
    + reflexivity.
    + reflexivity.
  - apply (proj2 (proj2 (hw_device_setup_for_encode_cases
                           (Sample.refusing_frames Sample.quiet)
                           Sample.cuda_ost Sample.one_cuda))
             (mkHWDevice (Some "cuda0") Sample.CUDA (Some 7))
             (mkOutputStream (enc_ctx Sample.cuda_ost) (Some 0))
             (mkWorld (hw_devices Sample.one_cuda)
                [EvGetHWFramesParameters (Some 7) 117 0])
             0 (AVERROR EINVAL)).
    + reflexivity.
    + reflexivity.
    + reflexivity.
    + reflexivity.
    + vm_compute. reflexivity.
Defined.

(* ===================================================================== *)
(** ** C8: filter binding *)
(* ===================================================================== *)

Lemma setup_for_filter_from_spec E dev nodes :
  forall i w r w',
    setup_for_filter_from E dev i nodes w = (r, w') ->
    sets_device_in_order dev (hwupload_nodes i nodes) w
      (match r with Some err => err | None => 0 end) w' /\
    (forall err, r = Some err -> err < 0).
Proof.
  induction nodes as [|filter rest IH]; intros i w r w' H; simpl in H.
  - inversion H; subst. split; [|discriminate].
    exists []. split; [simpl; lia|]. split; [reflexivity|].
    split; [reflexivity|]. left.
    split; [reflexivity|]. split; [reflexivity | constructor].
  - simpl. destruct (String.eqb (filter_name filter) "hwupload").
    + set (err := av_opt_set E (trace w) i (Some "device") (name dev)) in *.
      destruct (err <? 0) eqn:Herr.
      * inversion H; subst. apply Z.ltb_lt in Herr.
        split; [|intros e [= <-]; exact Herr].
        exists [err]. split; [simpl; lia|]. split; [reflexivity|].
        split; [reflexivity|].
        right. split; [exact Herr|]. exists []. split; [reflexivity|].
        constructor.
      * apply Z.ltb_ge in Herr. apply IH in H.
        destruct H as [(rets & Hlen & Htr & Hdev & Hcase) Hneg].
        split; [|exact Hneg].
        exists (err :: rets). simpl. split; [lia|]. split.
        { rewrite Htr. unfold opt_set_calls. simpl.
          rewrite <- app_assoc. reflexivity. }
        split; [exact Hdev|].
        destruct Hcase as [(Hz & Hall & Hok) | (Hn & pre & Hpre & Hok)].
        { left. split; [exact Hz|]. split; [simpl; lia | now constructor]. }
        { right. split; [exact Hn|]. exists (err :: pre).
          split; [now rewrite Hpre | now constructor]. }
    + apply IH in H. exact H.
Qed.

(** C8. Once a device is selected, [hw_device_setup_for_filter] calls
    [av_opt_set(filter, "device", dev->name, 0)] on the nodes named
    "hwupload", in graph order, returning the first negative result at
    once and leaving the later nodes alone; with no sink input, no
    decoder or no matching device it returns 0 and makes no call. *)
Theorem hw_device_setup_for_filter_spec
    (E : Env) (fg : FilterGraph) (w : World) :
  (forall input0 rest c dev,
      inputs (sink (graph fg)) = input0 :: rest ->
      avcodec_find_decoder E input0 = Some c ->
      hw_device_match_by_codec w c = Some dev ->
      sets_device_in_order dev (hwupload_nodes 0 (filters (graph fg))) w
        (fst (hw_device_setup_for_filter E fg w))
        (snd (hw_device_setup_for_filter E fg w)))
  /\
  (inputs (sink (graph fg)) = [] \/
   (exists input0 rest,
       inputs (sink (graph fg)) = input0 :: rest /\
       (avcodec_find_decoder E input0 = None \/
        exists c, avcodec_find_decoder E input0 = Some c /\
                  hw_device_match_by_codec w c = None)) ->
   hw_device_setup_for_filter E fg w = (0, w)).
Proof.
  unfold hw_device_setup_for_filter. split.
  - intros input0 rest c dev -> -> ->.
    destruct (setup_for_filter_from E dev 0 (filters (graph fg)) w)
      as [r w'] eqn:H.
    apply setup_for_filter_from_spec in H. destruct H as [H _].
    destruct r; exact H.
  - intros [-> | (input0 & rest & -> & [-> | (c & -> & ->)])]; reflexivity.
Qed.

Lemma hw_device_setup_for_filter_spec_witness :
  sets_device_in_order (mkHWDevice (Some "cuda0") Sample.CUDA (Some 7))
    [1%nat; 3%nat; 4%nat] Sample.one_cuda
    (AVERROR EINVAL)
    (mkWorld (hw_devices Sample.one_cuda)
       [EvOptSet 3 (Some "device") (Some "cuda0") (AVERROR EINVAL);
        EvOptSet 1 (Some "device") (Some "cuda0") 0])
  /\
  hw_device_setup_for_filter Sample.quiet Sample.upload_graph Sample.one_cuda
  = (0, Sample.one_cuda).
Proof.
  split.
  - apply (proj1 (hw_device_setup_for_filter_spec
                    (Sample.filtering 3 Sample.quiet) Sample.upload_graph
                    Sample.one_cuda)
             0 [] Sample.cuda_decoder
             (mkHWDevice (Some "cuda0") Sample.CUDA (Some 7)));
      reflexivity.
  - apply (proj2 (hw_device_setup_for_filter_spec
                    Sample.quiet Sample.upload_graph Sample.one_cuda)).
    right. exists 0, []. split; [reflexivity|]. left. reflexivity.
Defined.

(* ===================================================================== *)
(** ** C3: remix_audio *)
(* ===================================================================== *)

Lemma memcpy_whole dst src :
  List.length dst = List.length src ->
  memcpy dst src (List.length src) = Some src.
Proof.
  intros H. unfold memcpy. rewrite H, Nat.leb_refl. simpl.
  rewrite firstn_all, <- H, skipn_all, app_nil_r. reflexivity.
Qed.

Lemma remix_copy_plane_whole src remix_map linesize i dst m s d :
  nth_error remix_map i = Some m -> 0 <= m ->
  nth_error src (Z.to_nat m) = Some s -> nth_error dst i = Some d ->
  List.length s = linesize -> List.length d = linesize ->
  remix_copy_plane src remix_map linesize i dst
  = Some (store_at i (fun _ => s) dst).
Proof.
  intros Hm Hpos Hs Hd Ls Ld. unfold remix_copy_plane.
  rewrite Hm. apply Z.ltb_ge in Hpos. rewrite Hpos, Hs, Hd.
  rewrite <- Ls, memcpy_whole by congruence. reflexivity.
Qed.

(** C3 (as amended). For a frame with planes [A,B,C], remix_map [2,0] and
    remix_size 2, both allocations succeeding and [av_frame_get_buffer]
    providing planes of the line size of the input's: [remix_audio]
    returns 0 and the frame then holds every plane that was allocated for
    the input's channel layout, format and sample count (not [remix_size]
    of them), plane 0 a copy of C, plane 1 a copy of A, the others as
    allocated, with the input's sample rate, format, sample count, layout
    and properties.  For remix_size 0 it returns 0 with no plane copied:
    the frame holds all the newly allocated planes. *)
Theorem remix_audio_selects_planes
    (E : Env) (f : AVFrame) (w : World) (A B C P0 P1 : list Z)
    (more : list (list Z)) (r : Z) (linesize : nat) (any_map : list Z) :
  let request :=
    mkFrame [] 0 (channel_layout f) (sample_rate f) (format f)
            (nb_samples f) (props frame_defaults) in
  let w1 := emit (EvAlloc A_frame_alloc true) w in
  let w2 := emit (EvFrameGetBuffer r) w1 in
  data f = [A; B; C] ->
  alloc_ok E (trace w) A_frame_alloc = true ->
  av_frame_get_buffer E (trace w1) request = (r, (P0 :: P1 :: more, linesize)) ->
  0 <= r ->
  List.length A = linesize -> List.length C = linesize ->
  List.length P0 = linesize -> List.length P1 = linesize ->
  remix_audio E (Some f) [2; 0] 2 w
  = Done (0, Some (mkFrame (C :: A :: more) linesize (channel_layout f)
                     (sample_rate f) (format f) (nb_samples f) (props f)))
         w2
  /\
  remix_audio E (Some f) any_map 0 w
  = Done (0, Some (mkFrame (P0 :: P1 :: more) linesize (channel_layout f)
                     (sample_rate f) (format f) (nb_samples f) (props f)))
         w2.
Proof.
  intros request w1 w2 Hdata Halloc Hbuf Hr HA HC HP0 HP1.
  apply Z.ltb_ge in Hr.
  unfold remix_audio, alloc. rewrite Halloc. cbn [negb].
  change (mkFrame (data frame_defaults) (linesize0 frame_defaults)
            (channel_layout f) (sample_rate f) (format f) (nb_samples f)
            (props frame_defaults)) with request.
  fold w1. rewrite Hbuf. fold w2. rewrite Hr, Hdata.
  split; [|reflexivity].
  change (Z.to_nat 2) with 2%nat.
  cbn [remix_copy].
  rewrite (remix_copy_plane_whole [A; B; C] [2; 0] linesize 0
             (P0 :: P1 :: more) 2 C P0)
    by (reflexivity || lia || assumption).
  cbn [store_at].
  rewrite (remix_copy_plane_whole [A; B; C] [2; 0] linesize 1
             (C :: P1 :: more) 0 A P1)
    by (reflexivity || lia || assumption).
  reflexivity.
Qed.

Lemma remix_audio_selects_planes_witness :
  remix_audio Sample.quiet (Some Sample.abc) [2; 0] 2 Sample.empty
  = Done (0, Some (mkFrame [Sample.plane_C; Sample.plane_A; Sample.silence]
                     128 7 48000 8 32 (mkProps 1000 990)))
         (mkWorld [] [EvFrameGetBuffer 0; EvAlloc A_frame_alloc true])
  /\
  remix_audio Sample.quiet (Some Sample.abc) [] 0 Sample.empty
  = Done (0, Some (mkFrame [Sample.silence; Sample.silence; Sample.silence]
                     128 7 48000 8 32 (mkProps 1000 990)))
         (mkWorld [] [EvFrameGetBuffer 0; EvAlloc A_frame_alloc true]).
Proof.
  apply (remix_audio_selects_planes Sample.quiet Sample.abc Sample.empty
           Sample.plane_A Sample.plane_B Sample.plane_C
           Sample.silence Sample.silence [Sample.silence] 0 128 []);
    first [reflexivity | vm_compute; discriminate].
Defined.

(** C3 as stated fails: the three-plane frame still has three planes
    after [remix_audio] with remix_size 2, and three, not none, with
    remix_size 0. *)
Lemma remix_audio_keeps_plane_count :
  (exists f' w',
      remix_audio Sample.quiet (Some Sample.abc) [2; 0] 2 Sample.empty
      = Done (0, Some f') w' /\
      List.length (data Sample.abc) = 3%nat /\
      List.length (data f') = 3%nat /\ List.length (data f') <> 2%nat)
  /\
  (exists f' w',
      remix_audio Sample.quiet (Some Sample.abc) [2; 0] 0 Sample.empty
      = Done (0, Some f') w' /\
      List.length (data f') = 3%nat /\ List.length (data f') <> 0%nat).
Proof.
  split; eexists; eexists; (split; [vm_compute; reflexivity|]);
    simpl; repeat split; discriminate.
Qed.

(* ===================================================================== *)
(** ** C10, C4: the driving loop *)
(* ===================================================================== *)

Section Loop.
Variable E : Env.
Variable ist : InputStream.
Variable remix_map : list Z.
Variable remix_size : Z.

(** [remix_audio] on a NULL frame: out of memory, or a NULL dereference. *)
Lemma remix_audio_NULL w :
  remix_audio E None remix_map remix_size w =
  if alloc_ok E (trace w) A_frame_alloc
  then Undefined (emit (EvAlloc A_frame_alloc true) w)
  else Done (AVERROR ENOMEM, None)
            (emit (EvLog (LogError "Could not allocate remix frame."))
                  (emit (EvAlloc A_frame_alloc false) w)).
Proof.
  unfold remix_audio, alloc.
  destruct (alloc_ok E (trace w) A_frame_alloc); reflexivity.
Qed.

(** The receive loop is only left with a negative [ret]. *)
Lemma receive_loop_negative fuel :
  forall frame w x frame' w',
    receive_loop E ist remix_map remix_size fuel frame w = Done (x, frame') w' ->
    x < 0.
Proof.
  induction fuel as [|fuel IH]; intros frame w x frame' w' H; simpl in H;
    [discriminate|].
  destruct (avcodec_receive_frame E (trace w) (dec_ctx ist) frame)
    as [ret decoded].
  destruct (ret <? 0) eqn:Hret.
  - inversion H; subst. now apply Z.ltb_lt.
  - destruct (remix_audio E (option_map (fun _ => decoded) frame) remix_map
                remix_size (emit (EvReceiveFrame frame ret) w))
      as [[r frame2] w2 | w2 | w2]; try discriminate.
    destruct (r <? 0) eqn:Hr.
    + inversion H; subst. now apply Z.ltb_lt.
    + exact (IH _ _ _ _ _ H).
Qed.

Section Traces.
Variable P : event -> Prop.
Hypothesis P_read : forall r i, P (EvReadFrame r i).
Hypothesis P_send : forall r, P (EvSendPacket r).
Hypothesis P_log : forall m, P (EvLog m).
Hypothesis P_alloc : forall a ok, P (EvAlloc a ok).
Hypothesis P_receive : forall r, P (EvReceiveFrame None r).
Hypothesis P_unref :
  P EvPacketUnref \/ forall h, snd (av_read_frame E h) = st_index ist.

Lemma receive_loop_NULL_trace fuel w :
  extends P w (world_of (receive_loop E ist remix_map remix_size fuel None w)) /\
  (forall x frame' w',
      receive_loop E ist remix_map remix_size fuel None w = Done (x, frame') w' ->
      frame' = None).
Proof.
  destruct fuel as [|fuel]; simpl.
  { split; [apply extends_refl | discriminate]. }
  destruct (avcodec_receive_frame E (trace w) (dec_ctx ist) None)
    as [ret decoded].
  destruct (ret <? 0).
  { simpl. split.
    - apply extends_emit; [apply P_receive | apply extends_refl].
    - intros x frame' w' [= _ <- _]. reflexivity. }
  rewrite remix_audio_NULL.
  destruct (alloc_ok E (trace (emit (EvReceiveFrame None ret) w))
              A_frame_alloc); simpl.
  - split; [|discriminate].
    apply extends_emit; [apply P_alloc|].
    apply extends_emit; [apply P_receive | apply extends_refl].
  - split.
    + repeat (apply extends_emit;
              [first [apply P_log | apply P_alloc | apply P_receive]|]).
      apply extends_refl.
    + intros x frame' w' [= _ <- _]. reflexivity.
Qed.

Lemma read_loop_NULL_trace fuel :
  forall w,
    extends P w (world_of (read_loop E ist remix_map remix_size fuel None w))
    /\
    (forall x frame' w',
        read_loop E ist remix_map remix_size fuel None w
        = Done (x, frame') w' ->
        frame' = None).
Proof.
  induction fuel as [|fuel IH]; intros w.
  { split; [apply extends_refl | discriminate]. }
  cbn [read_loop].
  destruct (av_read_frame E (trace w)) as [ret stream_index] eqn:Hread.
  cbv beta iota zeta.
  set (w1 := emit (EvReadFrame ret stream_index) w).
  assert (X1 : extends P w w1)
    by (apply extends_emit; [apply P_read | apply extends_refl]).
  destruct (ret <? 0).
  { simpl. split; [exact X1|]. intros x frame' w' [= _ <- _]. reflexivity. }
  destruct (stream_index =? st_index ist) eqn:Hidx.
  - set (w2 := emit (EvSendPacket
                       (avcodec_send_packet E (trace w1) (dec_ctx ist))) w1).
    assert (X2 : extends P w w2)
      by (apply extends_emit; [apply P_send | exact X1]).
    destruct (avcodec_send_packet E (trace w1) (dec_ctx ist) <? 0).
    { simpl. split.
      - apply extends_emit; [apply P_log | exact X2].
      - intros x frame' w' [= _ <- _]. reflexivity. }
    destruct (receive_loop_NULL_trace fuel w2) as [X3 N3].
    destruct (receive_loop E ist remix_map remix_size fuel None w2)
      as [[x frame'] w3 | w3 | w3] eqn:Hrecv; simpl in X3.
    + pose proof (N3 _ _ _ eq_refl) as ->.
      pose proof (receive_loop_negative fuel _ _ _ _ _ Hrecv) as Hneg.
      destruct ((x =? AVERROR EAGAIN) || (x =? AVERROR_EOF)).
      * destruct (IH w3) as [X4 N4]. split; [|exact N4].
        exact (extends_trans _ _ _ _ (extends_trans _ _ _ _ X2 X3) X4).
      * apply Z.ltb_lt in Hneg. rewrite Hneg. simpl.
        split; [exact (extends_trans _ _ _ _ X2 X3)|].
        intros x' frame' w' [= _ <- _]. reflexivity.
    + simpl. split; [exact (extends_trans _ _ _ _ X2 X3) | discriminate].
    + simpl. split; [exact (extends_trans _ _ _ _ X2 X3) | discriminate].
  - destruct P_unref as [Pu | Hall].
    + destruct (IH (emit EvPacketUnref w1)) as [X4 N4]. split; [|exact N4].
      refine (extends_trans _ _ _ _ _ X4). apply extends_emit; [exact Pu | exact X1].
    + exfalso. specialize (Hall (trace w)). rewrite Hread in Hall.
      simpl in Hall. subst stream_index. now rewrite Z.eqb_refl in Hidx.
Qed.

End Traces.
End Loop.

(** C10. In every run of [apply_audio_remix], from any world, with any
    libraries and for any number of iterations, [frame] is NULL at each
    [avcodec_receive_frame] call and still NULL at the final
    [av_frame_free]: it is set to NULL before the loop and nothing
    allocates or resets it afterwards. *)
Theorem apply_audio_remix_frame_stays_null
    (E : Env) (ist : InputStream) (remix_map : list Z) (remix_size : Z)
    (fuel : nat) (w : World) :
  extends frame_arg_null w
    (world_of (apply_audio_remix E ist remix_map remix_size fuel w)).
Proof.
  unfold apply_audio_remix.
  destruct (read_loop_NULL_trace E ist remix_map remix_size frame_arg_null)
    with (fuel := fuel) (w := w) as [X N]; simpl; auto.
  destruct (read_loop E ist remix_map remix_size fuel None w)
    as [[ret frame'] w1 | w1 | w1]; simpl in *; try exact X.
  apply extends_emit; [|exact X].
  simpl. exact (N _ _ _ eq_refl).
Qed.

(** C4 (what the code does). When every packet the demuxer delivers
    belongs to the tracked stream, no run of [apply_audio_remix] ever
    calls [av_packet_unref]: after the decode step the loop either
    [continue]s to the next read or [break]s, in both cases past the
    [av_packet_unref] at the end of its body. *)
Theorem apply_audio_remix_tracked_packets_kept
    (E : Env) (ist : InputStream) (remix_map : list Z) (remix_size : Z)
    (fuel : nat) (w : World) :
  (forall h, snd (av_read_frame E h) = st_index ist) ->
  extends not_packet_unref w
    (world_of (apply_audio_remix E ist remix_map remix_size fuel w)).
Proof.
  intros Htracked. unfold apply_audio_remix.
  destruct (read_loop_NULL_trace E ist remix_map remix_size not_packet_unref)
    with (fuel := fuel) (w := w) as [X N];
    try (intros; discriminate); [right; exact Htracked|].
  destruct (read_loop E ist remix_map remix_size fuel None w)
    as [[ret frame'] w1 | w1 | w1]; simpl in *; try exact X.
  apply extends_emit; [discriminate | exact X].
Qed.

Lemma apply_audio_remix_tracked_packets_kept_witness :
  apply_audio_remix Sample.two_packets Sample.cuda_stream [2; 0] 2 10
    Sample.empty
  = Done AVERROR_EOF
      (mkWorld []
         [EvFrameFree None;
          EvReadFrame AVERROR_EOF 0;
          EvReceiveFrame None (AVERROR EAGAIN); EvSendPacket 0;
          EvReadFrame 0 0;
          EvReceiveFrame None (AVERROR EAGAIN); EvSendPacket 0;
          EvReadFrame 0 0])
  /\
  extends not_packet_unref Sample.empty
    (world_of (apply_audio_remix Sample.two_packets Sample.cuda_stream
                 [2; 0] 2 10 Sample.empty)).
Proof.
  split; [reflexivity|].
  apply (apply_audio_remix_tracked_packets_kept
           Sample.two_packets Sample.cuda_stream [2; 0] 2 10 Sample.empty).
  intros h. simpl.
  destruct (Sample.count Sample.is_read h) as [|[|[|n]]]; reflexivity.
Defined.

(* ===================================================================== *)
(** ** Further properties: the registry *)
(* ===================================================================== *)

Lemma name_is_true d n : name_is d n = true <-> name d = Some n.
Proof.
  unfold name_is. destruct (name d) as [s|].
  - rewrite String.eqb_eq. split; [now intros -> | now intros [= ->]].
  - split; discriminate.
Qed.

Lemma hw_device_get_by_name_from_None devs n :
  hw_device_get_by_name_from devs n = None <->
  forall d, In d devs -> name d <> Some n.
Proof.
  induction devs as [|x rest IH]; simpl.
  - split; [intros _ d [] | reflexivity].
  - destruct (name_is x n) eqn:Hx.
    + split; [discriminate|]. intros H. exfalso.
      apply (H x); [now left | now apply name_is_true].
    + rewrite IH. split.
      * intros H d [<- | Hd]; [|exact (H d Hd)].
        intros Hn. apply name_is_true in Hn. congruence.
      * intros H d Hd. apply H. now right.
Qed.

(** X1. [hw_device_get_by_name] returns the first device, in registration
    order, whose name is the one asked for, and NULL exactly when no
    registered device has that name. *)
Theorem hw_device_get_by_name_first_match (w : World) (n : string) :
  match hw_device_get_by_name w n with
  | Some d =>
      exists pre post,
        hw_devices w = (pre ++ d :: post)%list /\ name d = Some n /\
        forall x, In x pre -> name x <> Some n
  | None => forall d, In d (hw_devices w) -> name d <> Some n
  end.
Proof.
  unfold hw_device_get_by_name.
  induction (hw_devices w) as [|x rest IH]; simpl.
  - intros d [].
  - destruct (name_is x n) eqn:Hx.
    + exists [], rest. split; [reflexivity|].
      split; [now apply name_is_true | intros y []].
    + assert (Hn : name x <> Some n).
      { intros H. apply name_is_true in H. congruence. }
      destruct (hw_device_get_by_name_from rest n) as [d|].
      * destruct IH as (pre & post & -> & Hd & Hpre).
        exists (x :: pre), post. split; [reflexivity|]. split; [exact Hd|].
        intros y [<- | Hy]; [exact Hn | exact (Hpre y Hy)].
      * intros d [<- | Hd]; [exact Hn | exact (IH d Hd)].
Qed.

Lemma hw_device_get_by_type_found w ty d :
  hw_device_get_by_type w ty = Some d ->
  In d (hw_devices w) /\ type d = ty.
Proof.
  unfold hw_device_get_by_type. rewrite hw_device_get_by_type_from_spec.
  destruct (filter (of_type ty) (hw_devices w)) as [|x [|y l]] eqn:Hf;
    try discriminate.
  intros [= <-].
  assert (Hin : In x (filter (of_type ty) (hw_devices w)))
    by (rewrite Hf; now left).
  apply filter_In in Hin. destruct Hin as [Hin Ht].
  split; [exact Hin | now apply Z.eqb_eq].
Qed.

(** X2. [hw_device_free_all] leaves an empty registry in which every
    lookup, by name, by type or by codec, finds nothing; it unreferences
    the context of each device once, in registration order; and a second
    call right after changes nothing at all. *)
Theorem hw_device_free_all_empties (w : World) :
  nb_hw_devices (hw_device_free_all w) = 0%nat /\
  (forall n, hw_device_get_by_name (hw_device_free_all w) n = None) /\
  (forall ty, hw_device_get_by_type (hw_device_free_all w) ty = None) /\
  (forall c, hw_device_match_by_codec (hw_device_free_all w) c = None) /\
  rev (trace (hw_device_free_all w))
  = (rev (trace w)
       ++ map (fun d => EvBufferUnref (device_ref d)) (hw_devices w))%list /\
  hw_device_free_all (hw_device_free_all w) = hw_device_free_all w.
Proof.
  split; [reflexivity|]. split; [reflexivity|]. split; [reflexivity|].
  split; [|split; [|reflexivity]].
  - intros c. unfold hw_device_match_by_codec.
    induction (hw_configs c) as [|config rest IH]; simpl; [reflexivity|].
    destruct (negb (has_method config
                      AV_CODEC_HW_CONFIG_METHOD_HW_DEVICE_CTX)); exact IH.
  - unfold hw_device_free_all. simpl.
    rewrite rev_app_distr, rev_involutive. reflexivity.
Qed.

(** X3. [hw_device_match_by_codec] returns the device of the first table
    entry, in table order, that binds through a device context and whose
    type has exactly one registered device: that device is registered and
    of the entry's type, and every earlier entry was not usable.  It
    returns NULL exactly when no entry of the table is usable. *)
Theorem hw_device_match_by_codec_first_usable (w : World) (c : AVCodec) :
  match hw_device_match_by_codec w c with
  | Some dev =>
      exists pre config post,
        hw_configs c = (pre ++ config :: post)%list /\
        Forall (fun x => usable w x = false) pre /\
        has_method config AV_CODEC_HW_CONFIG_METHOD_HW_DEVICE_CTX = true /\
        type dev = device_type config /\
        In dev (hw_devices w) /\
        filter (of_type (device_type config)) (hw_devices w) = [dev]
  | None => Forall (fun x => usable w x = false) (hw_configs c)
  end.
Proof.
  unfold hw_device_match_by_codec.
  induction (hw_configs c) as [|config rest IH]; simpl; [constructor|].
  destruct (has_method config AV_CODEC_HW_CONFIG_METHOD_HW_DEVICE_CTX)
    eqn:Hm; simpl.
  - destruct (hw_device_get_by_type w (device_type config)) as [dev|] eqn:Hd.
    + exists [], config, rest. split; [reflexivity|].
      split; [constructor|]. split; [exact Hm|].
      destruct (hw_device_get_by_type_found w _ dev Hd) as [Hin Ht].
      split; [exact Ht|]. split; [exact Hin|].
      unfold hw_device_get_by_type in Hd.
      rewrite hw_device_get_by_type_from_spec in Hd.
      destruct (filter (of_type (device_type config)) (hw_devices w))
        as [|x [|y l]]; try discriminate.
      now inversion Hd.
    + assert (Hu : usable w config = false)
        by (unfold usable; now rewrite Hm, Hd).
      destruct (hw_device_match_by_codec_from w rest) as [dev|].
      * destruct IH as (pre & cfg & post & -> & Hpre & H).
        exists (config :: pre), cfg, post. split; [reflexivity|].
        split; [now constructor | exact H].
      * now constructor.
  - assert (Hu : usable w config = false) by (unfold usable; now rewrite Hm).
    destruct (hw_device_match_by_codec_from w rest) as [dev|].
    + destruct IH as (pre & cfg & post & -> & Hpre & H).
      exists (config :: pre), cfg, post. split; [reflexivity|].
      split; [now constructor | exact H].
    + now constructor.
Qed.

(* ===================================================================== *)
(** ** Further properties: the specification parser *)
(* ===================================================================== *)

Lemma strcspn_advance s reject :
  CStr.strcspn (CStr.advance (CStr.strcspn s reject) s) reject = O.
Proof.
  induction s as [|c s IH]; simpl; [reflexivity|].
  destruct (CStr.mem c reject) eqn:Hc; simpl; [now rewrite Hc | exact IH].
Qed.

Lemma delimited_after_name p :
  CStr.strcspn p ":@," = O -> delimited p = true.
Proof.
  destruct p as [|c p]; [reflexivity|].
  unfold delimited, at_end, at_char. simpl.
  destruct (Ascii.eqb c ":"), (Ascii.eqb c "@"), (Ascii.eqb c ",");
    simpl; (reflexivity || discriminate).
Qed.

Lemma delimited_after_type p :
  CStr.strcspn p ":=@" = O -> at_char p "=" = false -> delimited p = true.
Proof.
  destruct p as [|c p]; [reflexivity|].
  unfold delimited, at_end, at_char. simpl.
  destruct (Ascii.eqb c ":"), (Ascii.eqb c "="), (Ascii.eqb c "@");
    simpl; (reflexivity || discriminate).
Qed.

Lemma hw_device_default_name_from_free w tn pos steps :
  forall index n,
    hw_device_default_name_from w tn pos index steps = Some n ->
    hw_device_get_by_name w n = None /\
    exists i, (index <= i < index + steps)%nat /\
              n = CStr.snprintf_s_d (pos + 4) tn i.
Proof.
  induction steps as [|steps IH]; intros index n H;
    cbn [hw_device_default_name_from] in H; [discriminate|].
  destruct (hw_device_get_by_name w (CStr.snprintf_s_d (pos + 4) tn index))
    eqn:Hi.
  - destruct (IH _ _ H) as (Hf & i & Hr & Hn). split; [exact Hf|].
    exists i. split; [lia | exact Hn].
  - inversion H; subst. split; [exact Hi|]. exists index. split; [lia|].
    reflexivity.
Qed.

Section ParserOutcome.
Variable E : Env.

Ltac split_run H :=
  repeat match type of H with
         | context [let '(_, _) := ?x in _] => destruct x eqn:?
         | context [if ?b then _ else _] => destruct b eqn:?
         | context [match ?x with _ => _ end] => destruct x eqn:?
         end.

Lemma invalid_origin_bind {A B : Type} (m : M A) (k : A -> M B) :
  invalid_origin m -> (forall a, invalid_origin (k a)) ->
  invalid_origin (bind m k).
Proof.
  intros Hm Hk w msg w' H.
  destruct (bind_inv _ _ _ _ _ H) as [(x & H1 & Hx) | (a & w1 & _ & H2)].
  - inversion Hx; subst. exact (Hm _ _ _ H1).
  - exact (Hk _ _ _ _ H2).
Qed.

Lemma fail_origin_bind {A B : Type} (m : M A) (k : A -> M B) :
  fail_origin m -> (forall a, fail_origin (k a)) -> fail_origin (bind m k).
Proof.
  intros Hm Hk w err ref w' H.
  destruct (bind_inv _ _ _ _ _ H) as [(x & H1 & Hx) | (a & w1 & _ & H2)].
  - inversion Hx; subst. exact (Hm _ _ _ _ H1).
  - exact (Hk _ _ _ _ _ H2).
Qed.

Ltac known :=
  unfold invalid_reasons; simpl; tauto.

Lemma invalid_origin_av_strndup s k : invalid_origin (av_strndup E s k).
Proof.
  intros w msg w' H. unfold av_strndup, alloc in H.
  split_run H; discriminate.
Qed.

Lemma invalid_origin_parse_options str : invalid_origin (parse_options E str).
Proof.
  intros w msg w' H. unfold parse_options in H.
  split_run H; inversion H; subst. known.
Qed.

Lemma invalid_origin_ctx_create ty device options :
  invalid_origin (ctx_create E ty device options).
Proof.
  intros w msg w' H. unfold ctx_create in H. split_run H; discriminate.
Qed.

Lemma invalid_origin_ctx_create_derived ty src :
  invalid_origin (ctx_create_derived E ty src).
Proof.
  intros w msg w' H. unfold ctx_create_derived in H.
  split_run H; discriminate.
Qed.

Lemma invalid_origin_parse_body ty p :
  delimited p = true -> invalid_origin (parse_body E ty p).
Proof.
  intros Hp. unfold parse_body. unfold delimited in Hp.
  destruct (at_end p); [apply invalid_origin_ctx_create|].
  destruct (at_char p ":").
  { destruct (CStr.strchr (CStr.advance 1 p) ",");
      [|apply invalid_origin_ctx_create].
    apply invalid_origin_bind.
    - destruct (0 <? n)%nat; [|intros w msg w' H; discriminate].
      apply invalid_origin_bind; [apply invalid_origin_av_strndup|].
      intros d w msg w' H; discriminate.
    - intros device. apply invalid_origin_bind;
        [apply invalid_origin_parse_options|].
      intros options. apply invalid_origin_ctx_create. }
  destruct (at_char p "@").
  { intros w msg w' H.
    destruct (hw_device_get_by_name w (CStr.advance 1 p)).
    - exact (invalid_origin_ctx_create_derived _ _ _ _ _ H).
    - inversion H; subst. known. }
  destruct (at_char p ","); [|discriminate].
  apply invalid_origin_bind; [apply invalid_origin_parse_options|].
  intros options. apply invalid_origin_ctx_create.
Qed.

Lemma fail_origin_av_strndup s k : fail_origin (av_strndup E s k).
Proof.
  intros w err ref w' H. unfold av_strndup, alloc in H.
  split_run H; inversion H; subst. now left.
Qed.

Lemma fail_origin_parse_options str : fail_origin (parse_options E str).
Proof.
  intros w err ref w' H. unfold parse_options in H.
  split_run H; discriminate.
Qed.

Lemma fail_origin_ctx_create ty device options :
  fail_origin (ctx_create E ty device options).
Proof.
  intros w err ref w' H. unfold ctx_create in H.
  split_run H; inversion H; subst. right.
  exists ty, (trace w). left. exists device, options. reflexivity.
Qed.

Lemma fail_origin_ctx_create_derived ty src :
  fail_origin (ctx_create_derived E ty src).
Proof.
  intros w err ref w' H. unfold ctx_create_derived in H.
  split_run H; inversion H; subst. right.
  exists ty, (trace w). right. exists src. reflexivity.
Qed.

Lemma fail_origin_parse_name ty p : fail_origin (parse_name E ty p).
Proof.
  unfold parse_name. destruct (at_char p "=").
  - apply fail_origin_bind; [apply fail_origin_av_strndup|].
    intros n w err ref w' H. split_run H; discriminate.
  - intros w err ref w' H.
    destruct (hw_device_default_name E ty w) as [[[n|]|] w1];
      inversion H; subst. now left.
Qed.

Lemma fail_origin_parse_body ty p : fail_origin (parse_body E ty p).
Proof.
  unfold parse_body.
  destruct (at_end p); [apply fail_origin_ctx_create|].
  destruct (at_char p ":").
  { destruct (CStr.strchr (CStr.advance 1 p) ",");
      [|apply fail_origin_ctx_create].
    apply fail_origin_bind.
    - destruct (0 <? n)%nat; [|intros w err ref w' H; discriminate].
      apply fail_origin_bind; [apply fail_origin_av_strndup|].
      intros d w err ref w' H; discriminate.
    - intros device. apply fail_origin_bind;
        [apply fail_origin_parse_options|].
      intros options. apply fail_origin_ctx_create. }
  destruct (at_char p "@").
  { intros w err ref w' H.
    destruct (hw_device_get_by_name w (CStr.advance 1 p)).
    - exact (fail_origin_ctx_create_derived _ _ _ _ _ _ H).
    - discriminate. }
  destruct (at_char p ",").
  { apply fail_origin_bind; [apply fail_origin_parse_options|].
    intros options. apply fail_origin_ctx_create. }
  intros w err ref w' H; discriminate.
Qed.

Lemma fail_origin_body arg : fail_origin (init_from_string_body E arg).
Proof.
  unfold init_from_string_body.
  apply fail_origin_bind; [apply fail_origin_av_strndup|].
  intros tn. cbv zeta.
  destruct (av_hwdevice_find_type_by_name E tn =? AV_HWDEVICE_TYPE_NONE).
  { intros w0 e r w' H; discriminate. }
  apply fail_origin_bind; [apply fail_origin_parse_name|].
  intros np. apply fail_origin_bind; [apply fail_origin_parse_body|].
  intros r w0 e r' w' H. apply register_spec in H.
  destruct H as [[H _] | [H _]]; inversion H; subst. now left.
Qed.

Lemma null_safe_bind {A B : Type} (m : M A) (k : A -> M B) :
  null_safe m -> (forall a, null_safe (k a)) -> null_safe (bind m k).
Proof.
  intros Hm Hk w w' H.
  destruct (bind_inv _ _ _ _ _ H) as [(x & H1 & Hx) | (a & w1 & _ & H2)].
  - inversion Hx; subst. exact (Hm _ _ H1).
  - exact (Hk _ _ _ H2).
Qed.

Lemma null_safe_av_strndup s k : null_safe (av_strndup E s k).
Proof.
  intros w w' H. unfold av_strndup, alloc in H. split_run H; discriminate.
Qed.

Lemma null_safe_parse_options str : null_safe (parse_options E str).
Proof.
  intros w w' H. unfold parse_options in H. split_run H; discriminate.
Qed.

Lemma null_safe_ctx_create ty device options :
  null_safe (ctx_create E ty device options).
Proof.
  intros w w' H. unfold ctx_create in H. split_run H; discriminate.
Qed.

Lemma null_safe_ctx_create_derived ty src :
  null_safe (ctx_create_derived E ty src).
Proof.
  intros w w' H. unfold ctx_create_derived in H. split_run H; discriminate.
Qed.

Lemma null_safe_parse_body ty p : null_safe (parse_body E ty p).
Proof.
  unfold parse_body.
  destruct (at_end p); [apply null_safe_ctx_create|].
  destruct (at_char p ":").
  { destruct (CStr.strchr (CStr.advance 1 p) ",");
      [|apply null_safe_ctx_create].
    apply null_safe_bind.
    - destruct (0 <? n)%nat; [|intros w w' H; discriminate].
      apply null_safe_bind; [apply null_safe_av_strndup|].
      intros d w w' H; discriminate.
    - intros device. apply null_safe_bind; [apply null_safe_parse_options|].
      intros options. apply null_safe_ctx_create. }
  destruct (at_char p "@").
  { intros w w' H.
    destruct (hw_device_get_by_name w (CStr.advance 1 p)).
    - exact (null_safe_ctx_create_derived _ _ _ _ H).
    - discriminate. }
  destruct (at_char p ",").
  { apply null_safe_bind; [apply null_safe_parse_options|].
    intros options. apply null_safe_ctx_create. }
  intros w w' H; discriminate.
Qed.

Lemma null_safe_register n ty ref : null_safe (register E n ty ref).
Proof.
  intros w w' H. apply register_spec in H.
  destruct H as [[H _] | [H _]]; discriminate.
Qed.

(** The one place where [hw_device_init_from_string] can read through
    NULL: no explicit name is given and the runtime has no name for the
    type it resolved the type name to. *)
Lemma init_from_string_body_null_read arg w w1 :
  init_from_string_body E arg w = (inl null_read, w1) ->
  let ty := av_hwdevice_find_type_by_name E (spec_type_name arg) in
  at_char (spec_rest arg) "=" = false /\
  ty <> AV_HWDEVICE_TYPE_NONE /\
  av_hwdevice_get_type_name E ty = None.
Proof.
  intros Hb ty.
  unfold init_from_string_body in Hb. apply bind_inv in Hb.
  destruct Hb as [(x & H1 & Hx) | (tn & w0 & H1 & H)].
  { inversion Hx; subst. destruct (null_safe_av_strndup _ _ _ _ H1). }
  assert (tn = spec_type_name arg) as ->.
  { unfold av_strndup, alloc in H1.
    destruct (alloc_ok E (trace w) A_strndup); simpl in H1;
      inversion H1; reflexivity. }
  fold ty in H. fold (spec_rest arg) in H.
  destruct (ty =? AV_HWDEVICE_TYPE_NONE) eqn:Hty; [discriminate|].
  apply Z.eqb_neq in Hty.
  apply bind_inv in H.
  destruct H as [(x & H2 & Hx) | (np & w2 & _ & H)].
  - inversion Hx; subst x. clear Hx. unfold parse_name in H2.
    destruct (at_char (spec_rest arg) "=") eqn:Heq.
    + exfalso. revert H2. apply null_safe_bind;
        [apply null_safe_av_strndup|].
      intros n w2 w3 H. destruct (hw_device_get_by_name w2 n); discriminate.
    + split; [reflexivity|]. split; [exact Hty|].
      unfold hw_device_default_name, alloc in H2.
      destruct (av_hwdevice_get_type_name E ty); [|reflexivity].
      destruct (alloc_ok E (trace w0) A_malloc);
        cbv beta iota zeta delta [negb] in H2; [|discriminate].
      destruct (hw_device_default_name_from _ _ _ _ _) in H2; discriminate.
  - exfalso. revert H. apply null_safe_bind; [apply null_safe_parse_body|].
    intros ref. apply null_safe_register.
Qed.

(** What a name that [parse_name] delivers is like. *)
Lemma parse_name_inv ty p w np w' :
  CStr.strcspn p ":=@" = O ->
  parse_name E ty p w = (inr np, w') ->
  hw_devices w' = hw_devices w /\
  hw_device_get_by_name w (fst np) = None /\
  delimited (snd np) = true.
Proof.
  intros Hp H. pose proof (keeps_parse_name E ty p _ _ _ H) as K.
  split; [exact K|].
  unfold parse_name in H. destruct (at_char p "=") eqn:Heq.
  - destruct p as [|c q]; [discriminate|].
    change (CStr.advance 1 (String c q)) with q in H.
    apply bind_inv in H.
    destruct H as [(x & _ & Hx) | (n & w1 & H1 & H)]; [discriminate|].
    pose proof (keeps_av_strndup E _ _ _ _ _ H1) as K1.
    destruct (hw_device_get_by_name w1 n) eqn:Hn; [discriminate|].
    inversion H; subst np w'; clear H. cbn [fst snd]. split.
    + rewrite <- Hn. apply hw_device_get_by_name_ext. now symmetry.
    + apply delimited_after_name.
      change (CStr.advance (1 + CStr.strcspn q ":@,") (String c q))
        with (CStr.advance (CStr.strcspn q ":@,") q).
      apply strcspn_advance.
  - unfold hw_device_default_name, alloc in H.
    destruct (av_hwdevice_get_type_name E ty) as [tn|]; [|discriminate].
    destruct (alloc_ok E (trace w) A_malloc);
      cbv beta iota zeta delta [negb] in H; [|discriminate].
    destruct (hw_device_default_name_from (emit (EvAlloc A_malloc true) w)
                tn (String.length tn) 0 index_limit) as [n|] eqn:Hn;
      [|discriminate].
    inversion H; subst np w'; clear H. cbn [fst snd]. split.
    + apply hw_device_default_name_from_free in Hn. destruct Hn as [Hn _].
      exact Hn.
    + now apply delimited_after_type.
Qed.

Lemma register_inv n ty ref w dev w' :
  register E n ty ref w = (inr dev, w') ->
  dev = nb_hw_devices w /\
  hw_devices w' = (hw_devices w ++ [mkHWDevice (Some n) ty ref])%list /\
  trace w'
  = EvAlloc A_mallocz true :: EvAlloc A_reallocp_array true :: trace w.
Proof.
  intros H. pose proof H as H'. apply register_spec in H'.
  destruct H' as [[Hd K] | [Hx _]]; [|discriminate].
  inversion Hd; subst dev. split; [reflexivity|]. split; [exact K|].
  unfold register, hw_device_add, alloc in H.
  destruct (alloc_ok E (trace w) A_reallocp_array); simpl in H;
    [|discriminate].
  destruct (alloc_ok E (EvAlloc A_reallocp_array true :: trace w) A_mallocz);
    simpl in H; [|discriminate].
  inversion H; reflexivity.
Qed.

(** The ways a call of [hw_device_init_from_string] can end. *)
Lemma init_from_string_cases (arg : string) (w : World) :
  let ty := av_hwdevice_find_type_by_name E (spec_type_name arg) in
  (exists n ref w',
      hw_device_init_from_string E arg w
      = (Returns (0, Some (nb_hw_devices w)), w') /\
      hw_devices w' = (hw_devices w ++ [mkHWDevice (Some n) ty ref])%list /\
      ty <> AV_HWDEVICE_TYPE_NONE /\
      hw_device_get_by_name w n = None /\
      exists h, trace w' = EvAlloc A_mallocz true :: h)
  \/
  (exists msg w1,
      hw_device_init_from_string E arg w
      = (Returns (AVERROR EINVAL, None),
         emit (EvLog (LogInvalidSpec arg msg)) w1) /\
      In msg invalid_reasons /\
      hw_devices w1 = hw_devices w)
  \/
  (exists err ref w1,
      hw_device_init_from_string E arg w
      = (Returns (err, None),
         emit (EvBufferUnref ref) (emit (EvLog (LogCreationFailed err)) w1))
      /\ err < 0 /\
      (err = AVERROR ENOMEM \/ created_with err (trace w1)) /\
      (hw_devices w1 = hw_devices w \/ hw_devices w1 = []))
  \/
  (exists w1,
      hw_device_init_from_string E arg w = (Crashes, w1) /\
      at_char (spec_rest arg) "=" = false /\
      av_hwdevice_get_type_name E ty = None /\
      ty <> AV_HWDEVICE_TYPE_NONE /\
      hw_devices w1 = hw_devices w).
Proof.
  intros ty. unfold hw_device_init_from_string.
  destruct (init_from_string_body E arg w) as [[[msg | err ref |] | dev] w1]
    eqn:Hb.
  - right. left. exists msg, w1. split; [reflexivity|].
    pose proof (init_from_string_body_spec E arg w _ _ Hb) as K.
    destruct K as [(x & _ & K) | [(r & h & Hx & _) | (n & t & r & Hx & _)]];
      try discriminate.
    split; [|exact K].
    unfold init_from_string_body in Hb. apply bind_inv in Hb.
    destruct Hb as [(x' & H1 & Hx) | (tn & w0 & H1 & H)].
    { inversion Hx; subst. exact (invalid_origin_av_strndup _ _ _ _ _ H1). }
    destruct (av_hwdevice_find_type_by_name E tn =? AV_HWDEVICE_TYPE_NONE).
    { inversion H; subst. unfold invalid_reasons. simpl. tauto. }
    apply bind_inv in H.
    destruct H as [(x' & H2 & Hx) | (np & w2 & H2 & H)].
    { inversion Hx; subst. revert H2. unfold parse_name.
      destruct (at_char _ "=").
      - intros H2. apply bind_inv in H2.
        destruct H2 as [(y & H3 & Hy) | (n & w3 & _ & H3)].
        + inversion Hy; subst.
          exact (invalid_origin_av_strndup _ _ _ _ _ H3).
        + destruct (hw_device_get_by_name w3 n); inversion H3; subst.
          unfold invalid_reasons. simpl. tauto.
      - destruct (hw_device_default_name E _ w0) as [[[n|]|] w3];
          discriminate. }
    apply (parse_name_inv _ _ _ _ _ (strcspn_advance arg ":=@")) in H2.
    destruct H2 as (_ & _ & Hdel).
    apply bind_inv in H.
    destruct H as [(x' & H3 & Hx) | (r & w3 & _ & H)].
    { inversion Hx; subst.
      exact (invalid_origin_parse_body _ _ Hdel _ _ _ H3). }
    apply register_spec in H. destruct H as [[H _] | [H _]]; discriminate.
  - right. right. left. exists err, ref, w1. split; [reflexivity|].
    split; [exact (fails_negative_body E arg _ _ _ _ Hb)|].
    split; [exact (fail_origin_body arg _ _ _ _ Hb)|].
    pose proof (init_from_string_body_spec E arg w _ _ Hb) as K.
    destruct K as [(x & _ & K) | [(r & h & _ & K & _) | (n & t & r & Hx & _)]];
      [now left | now right | discriminate].
  - right. right. right. exists w1. split; [reflexivity|].
    destruct (init_from_string_body_null_read arg w w1 Hb) as (A & B & C).
    split; [exact A|]. split; [exact C|]. split; [exact B|].
    pose proof (init_from_string_body_spec E arg w _ _ Hb) as K.
    destruct K as [(x & _ & K) | [(r & h & Hx & _) | (n & t & r & Hx & _)]];
      [exact K | discriminate | discriminate].
  - left. unfold init_from_string_body in Hb. apply bind_inv in Hb.
    destruct Hb as [(x & _ & Hx) | (tn & w0 & H1 & H)]; [discriminate|].
    pose proof (keeps_av_strndup E _ _ _ _ _ H1) as K1.
    assert (tn = spec_type_name arg) as ->.
    { unfold av_strndup, alloc in H1.
      destruct (alloc_ok E (trace w) A_strndup); simpl in H1;
        inversion H1; reflexivity. }
    fold ty in H.
    destruct (ty =? AV_HWDEVICE_TYPE_NONE) eqn:Hty; [discriminate|].
    apply Z.eqb_neq in Hty.
    apply bind_inv in H.
    destruct H as [(x & _ & Hx) | (np & w2 & H2 & H)]; [discriminate|].
    apply (parse_name_inv _ _ _ _ _ (strcspn_advance arg ":=@")) in H2.
    destruct H2 as (K2 & Hfree & _).
    apply bind_inv in H.
    destruct H as [(x & _ & Hx) | (ref & w3 & H3 & H)]; [discriminate|].
    pose proof (keeps_parse_body E _ _ _ _ _ H3) as K3.
    apply register_inv in H. destruct H as (-> & K & T).
    assert (Kall : hw_devices w3 = hw_devices w) by congruence.
    exists (fst np), ref, w1. unfold nb_hw_devices. rewrite Kall.
    split; [reflexivity|]. split; [now rewrite K, Kall|].
    split; [exact Hty|]. split.
    + rewrite <- Hfree. apply hw_device_get_by_name_ext. now symmetry.
    + eexists. exact T.
Qed.

(** X4. Every call of [hw_device_init_from_string] ends in one of four
    ways.  Success: 0 is returned, [*dev_out] is the new last slot, the
    registry is the old one followed by one device whose type is the one
    the type name resolves to (not NONE) and whose name was not registered
    before.  Invalid specification: [AVERROR(EINVAL)], nothing stored in
    [*dev_out], the registry as before, and the log line gives one of the
    four reasons "unknown device type", "named device already exists",
    "failed to parse options", "invalid source device name" (never "parse
    error").  Failure: a negative code, nothing stored, "Device creation
    failed" logged with that code and the context reference released; the
    code is [AVERROR(ENOMEM)] or the value the device creation just
    returned, and the registry is as before or has been emptied.  No
    return: no explicit name is given, the type name resolved to a type
    other than NONE for which the runtime has no name, and
    [hw_device_default_name] reads through that NULL name; the registry
    is as before. *)
Theorem hw_device_init_from_string_outcome (arg : string) (w : World) :
  let ty := av_hwdevice_find_type_by_name E (spec_type_name arg) in
  (exists n ref w',
      hw_device_init_from_string E arg w
      = (Returns (0, Some (nb_hw_devices w)), w') /\
      hw_devices w' = (hw_devices w ++ [mkHWDevice (Some n) ty ref])%list /\
      ty <> AV_HWDEVICE_TYPE_NONE /\
      hw_device_get_by_name w n = None /\
      exists h, trace w' = EvAlloc A_mallocz true :: h)
  \/
  (exists msg w1,
      hw_device_init_from_string E arg w
      = (Returns (AVERROR EINVAL, None),
         emit (EvLog (LogInvalidSpec arg msg)) w1) /\
      In msg invalid_reasons /\
      hw_devices w1 = hw_devices w)
  \/
  (exists err ref w1,
      hw_device_init_from_string E arg w
      = (Returns (err, None),
         emit (EvBufferUnref ref) (emit (EvLog (LogCreationFailed err)) w1))
      /\ err < 0 /\
      (err = AVERROR ENOMEM \/ created_with err (trace w1)) /\
      (hw_devices w1 = hw_devices w \/ hw_devices w1 = []))
  \/
  (exists w1,
      hw_device_init_from_string E arg w = (Crashes, w1) /\
      at_char (spec_rest arg) "=" = false /\
      av_hwdevice_get_type_name E ty = None /\
      ty <> AV_HWDEVICE_TYPE_NONE /\
      hw_devices w1 = hw_devices w).
Proof.
  intros ty.
  destruct (init_from_string_cases arg w) as [S | [I | [F | N]]].
  - left. exact S.
  - right. left. exact I.
  - right. right. left. exact F.
  - right. right. right. exact N.
Qed.

End ParserOutcome.

Lemma NoDup_snoc {A : Type} (l : list A) (x : A) :
  NoDup l -> ~ In x l -> NoDup (l ++ [x]).
Proof.
  induction l as [|a l IH]; simpl; intros Hl Hx.
  - constructor; [intros [] | constructor].
  - inversion Hl; subst. constructor.
    + rewrite in_app_iff. simpl. intros [H | [H | []]]; [tauto|].
      apply Hx. now left.
    + apply IH; [assumption|]. intros H. apply Hx. now right.
Qed.

Lemma names_unique_snoc w w' n ty ref :
  names_unique w ->
  hw_device_get_by_name w n = None ->
  hw_devices w' = (hw_devices w ++ [mkHWDevice (Some n) ty ref])%list ->
  names_unique w'.
Proof.
  intros [Hnd Hnn] Hfree K. unfold names_unique. rewrite K. split.
  - rewrite map_app. simpl. apply NoDup_snoc; [exact Hnd|].
    intros Hin. apply in_map_iff in Hin. destruct Hin as (d & Hd & Hin).
    unfold hw_device_get_by_name in Hfree.
    rewrite hw_device_get_by_name_from_None in Hfree.
    exact (Hfree d Hin Hd).
  - apply Forall_app. split; [exact Hnn|].
    constructor; [discriminate | constructor].
Qed.

Lemma names_unique_same w w' :
  names_unique w ->
  hw_devices w' = hw_devices w \/ hw_devices w' = [] ->
  names_unique w'.
Proof.
  intros Hu [K | K]; unfold names_unique; rewrite K; [exact Hu|].
  split; constructor.
Qed.

(** What the loop of [hw_device_default_name] returns. *)
Lemma hw_device_default_name_from_least w tn steps :
  forall index n,
    (index + steps <= 1000)%nat ->
    hw_device_default_name_from w tn (String.length tn) index steps = Some n ->
    hw_device_get_by_name w n = None /\
    exists i, (index <= i < index + steps)%nat /\
              n = tn ++ CStr.decimal i /\
              forall j, (index <= j < i)%nat ->
                        hw_device_get_by_name w (tn ++ CStr.decimal j)
                        <> None.
Proof.
  induction steps as [|steps IH]; intros index n Hb H;
    cbn [hw_device_default_name_from] in H; [discriminate|].
  rewrite CStrFacts.snprintf_s_d_fits in H by lia.
  destruct (hw_device_get_by_name w (tn ++ CStr.decimal index)) eqn:Hi.
  - destruct (IH (S index) n) as (Hf & i & Hr & Hn & Hlow); [lia | exact H|].
    split; [exact Hf|]. exists i. split; [lia|]. split; [exact Hn|].
    intros j Hj. destruct (Nat.eq_dec j index) as [-> | Hne].
    + rewrite Hi. discriminate.
    + apply Hlow. lia.
  - inversion H; subst. split; [exact Hi|]. exists index.
    split; [lia|]. split; [reflexivity|]. intros j Hj. lia.
Qed.

(** X5. Whenever [hw_device_default_name] returns a name, the type has a
    name, the name returned is not registered, it is the type name
    followed by the decimal digits of an index below 1000, and the names
    of all lower indices are registered: the result is always the least
    free generated name. *)
Theorem hw_device_default_name_is_least_free
    (E : Env) (ty : AVHWDeviceType) (w : World) (n : string) (w' : World) :
  hw_device_default_name E ty w = (Returns (Some n), w') ->
  exists tn,
    av_hwdevice_get_type_name E ty = Some tn /\
    hw_device_get_by_name w n = None /\
    hw_devices w' = hw_devices w /\
    exists i, (i < index_limit)%nat /\ n = tn ++ CStr.decimal i /\
              forall j, (j < i)%nat ->
                        hw_device_get_by_name w (tn ++ CStr.decimal j)
                        <> None.
Proof.
  intros H.
  pose proof (hw_device_default_name_keeps E ty w _ _ H) as K.
  unfold hw_device_default_name, alloc in H.
  destruct (av_hwdevice_get_type_name E ty) as [tn|]; [|discriminate].
  exists tn. split; [reflexivity|].
  destruct (alloc_ok E (trace w) A_malloc);
    cbv beta iota zeta delta [negb] in H; [|discriminate].
  destruct (hw_device_default_name_from (emit (EvAlloc A_malloc true) w) tn
              (String.length tn) 0 index_limit) as [m|] eqn:Hm;
    [|discriminate].
  assert (m = n) as -> by (now inversion H).
  rewrite (hw_device_default_name_from_ext _ w) in Hm by reflexivity.
  apply hw_device_default_name_from_least in Hm;
    [|unfold index_limit; lia].
  destruct Hm as (Hf & i & Hr & Hn & Hlow).
  split; [exact Hf|]. split; [exact K|].
  exists i. split; [lia|]. split; [exact Hn|].
  intros j Hj. apply Hlow. lia.
Qed.

Lemma hw_device_default_name_is_least_free_witness :
  exists tn,
    av_hwdevice_get_type_name Sample.quiet Sample.CUDA = Some tn /\
    hw_device_get_by_name Sample.one_cuda "cuda1" = None /\
    hw_devices (emit (EvAlloc A_malloc true) Sample.one_cuda)
    = hw_devices Sample.one_cuda /\
    exists i, (i < index_limit)%nat /\ "cuda1" = tn ++ CStr.decimal i /\
              forall j, (j < i)%nat ->
                        hw_device_get_by_name Sample.one_cuda
                          (tn ++ CStr.decimal j) <> None.
Proof.
  apply (hw_device_default_name_is_least_free Sample.quiet Sample.CUDA
           Sample.one_cuda "cuda1"
           (emit (EvAlloc A_malloc true) Sample.one_cuda)).
  reflexivity.
Defined.

Lemma hw_device_default_name_is_least_free_aux E ty tn w n w' :
  av_hwdevice_get_type_name E ty = Some tn ->
  hw_device_default_name E ty w = (Returns (Some n), w') ->
  hw_device_get_by_name w n = None /\
  hw_devices w' = hw_devices w /\
  exists i, (i < index_limit)%nat /\ n = tn ++ CStr.decimal i.
Proof.
  intros Htn H.
  pose proof (hw_device_default_name_keeps E ty w _ _ H) as K.
  unfold hw_device_default_name, alloc in H. rewrite Htn in H.
  destruct (alloc_ok E (trace w) A_malloc);
    cbv beta iota zeta delta [negb] in H; [|discriminate].
  destruct (hw_device_default_name_from (emit (EvAlloc A_malloc true) w)
              tn (String.length tn) 0 index_limit) as [m|] eqn:Hm;
    [|discriminate].
  assert (m = n) as -> by (now inversion H).
  rewrite (hw_device_default_name_from_ext _ w) in Hm by reflexivity.
  apply hw_device_default_name_from_least in Hm;
    [|unfold index_limit; lia].
  destruct Hm as (Hf & i & Hr & Hn & _).
  split; [exact Hf|]. split; [exact K|].
  exists i. split; [lia | exact Hn].
Qed.

(** The ways a call of [hw_device_init_from_type] can end. *)
Lemma init_from_type_cases
    (E : Env) (ty : AVHWDeviceType) (device : option string) (w : World) :
  match av_hwdevice_get_type_name E ty with
  | None => hw_device_init_from_type E ty device w = (Crashes, w)
  | Some tn =>
      (exists n ref w',
          hw_device_init_from_type E ty device w
          = (Returns (0, Some (nb_hw_devices w)), w') /\
          hw_devices w'
          = (hw_devices w ++ [mkHWDevice (Some n) ty ref])%list /\
          hw_device_get_by_name w n = None /\
          (exists h r, 0 <= r /\
                       av_hwdevice_ctx_create E h ty device [] = (r, ref)) /\
          exists i, (i < index_limit)%nat /\ n = tn ++ CStr.decimal i)
      \/
      (exists err w',
          hw_device_init_from_type E ty device w
          = (Returns (err, None), w') /\
          err < 0 /\
          (hw_devices w' = hw_devices w \/ hw_devices w' = []))
  end.
Proof.
  unfold hw_device_init_from_type.
  destruct (av_hwdevice_get_type_name E ty) as [tn|] eqn:Htn;
    [|unfold hw_device_default_name; rewrite Htn; reflexivity].
  destruct (hw_device_default_name E ty w) as [[[n|]|] w1] eqn:Hn.
  - pose proof (hw_device_default_name_is_least_free_aux E ty tn w n w1
                  Htn Hn) as (Hfree & K1 & i & Hi & Hni).
    destruct (av_hwdevice_ctx_create E (trace w1) ty device [])
      as [err ref] eqn:Hc.
    destruct (err <? 0) eqn:Herr.
    + right. exists err. eexists. split; [reflexivity|].
      split; [now apply Z.ltb_lt | now left].
    + apply Z.ltb_ge in Herr.
      set (w2 := emit (EvCtxCreate ty device [] err) w1).
      assert (Hr : register E n ty ref w2 =
                   match hw_device_add E w2 with
                   | (None, w3) => (inl (goto_fail (AVERROR ENOMEM) ref), w3)
                   | (Some dev, w3) =>
                       (inr dev,
                        dev_store dev (fun _ => mkHWDevice (Some n) ty ref)
                                  w3)
                   end) by reflexivity.
      assert (K2 : hw_devices w2 = hw_devices w) by exact K1.
      destruct (hw_device_add E w2) as [[dev|] w4] eqn:Ha.
      * left. apply register_spec in Hr.
        destruct Hr as [[Hd K] | [Hx _]]; [|discriminate].
        inversion Hd; subst dev.
        exists n, ref. eexists.
        assert (Kn : nb_hw_devices w2 = nb_hw_devices w)
          by (unfold nb_hw_devices; now rewrite K2).
        rewrite Kn in *. split; [reflexivity|].
        split; [now rewrite K, K2|].
        split; [exact Hfree|].
        split; [exists (trace w1), err; split; assumption|].
        exists i. split; assumption.
      * right. exists (AVERROR ENOMEM). eexists. split; [reflexivity|].
        split; [reflexivity|].
        apply register_spec in Hr.
        destruct Hr as [[Hx _] | [_ [K | [K _]]]]; [discriminate | |].
        -- left. simpl. now rewrite K, K2.
        -- right. exact K.
  - right. exists (AVERROR ENOMEM). eexists. split; [reflexivity|].
    split; [reflexivity|]. left. simpl.
    exact (hw_device_default_name_keeps E ty w _ _ Hn).
  - exfalso. unfold hw_device_default_name, alloc in Hn. rewrite Htn in Hn.
    destruct (alloc_ok E (trace w) A_malloc); discriminate.
Qed.

(** X6. [hw_device_init_from_type] does not check its type.  For a type
    the runtime has no name for, as the library documents for a type that
    is not valid, the call reads through the NULL name in
    [hw_device_default_name] before anything else happens and has no
    defined result.  For a type with a name it either returns 0, with
    [*dev_out] the new last slot and the registry extended by one device
    of the given type that holds the context the creation returned, under
    a generated name that was not registered; or it returns a negative
    code, stores nothing, and leaves the registry as before or empty. *)
Theorem hw_device_init_from_type_outcome
    (E : Env) (ty : AVHWDeviceType) (device : option string) (w : World) :
  match av_hwdevice_get_type_name E ty with
  | None => hw_device_init_from_type E ty device w = (Crashes, w)
  | Some tn =>
      (exists n ref w',
          hw_device_init_from_type E ty device w
          = (Returns (0, Some (nb_hw_devices w)), w') /\
          hw_devices w'
          = (hw_devices w ++ [mkHWDevice (Some n) ty ref])%list /\
          hw_device_get_by_name w n = None /\
          (exists h r, 0 <= r /\
                       av_hwdevice_ctx_create E h ty device [] = (r, ref)) /\
          exists i, (i < index_limit)%nat /\ n = tn ++ CStr.decimal i)
      \/
      (exists err w',
          hw_device_init_from_type E ty device w
          = (Returns (err, None), w') /\
          err < 0 /\
          (hw_devices w' = hw_devices w \/ hw_devices w' = []))
  end.
Proof.
  pose proof (init_from_type_cases E ty device w) as H.
  destruct (av_hwdevice_get_type_name E ty) as [tn|]; [|exact H].
  destruct H as [S | F].
  - left. exact S.
  - right. exact F.
Qed.

(** X7. Both ways of registering a device keep the registry's names
    unique: if every registered device has a name and no two share one,
    the same holds after any call of [hw_device_init_from_string] or of
    [hw_device_init_from_type], whatever it returns. *)
Theorem registration_keeps_names_unique (E : Env) (w : World) :
  names_unique w ->
  (forall arg, names_unique (snd (hw_device_init_from_string E arg w))) /\
  (forall ty device,
      names_unique (snd (hw_device_init_from_type E ty device w))).
Proof.
  intros Hu. split.
  - intros arg.
    destruct (init_from_string_cases E arg w)
      as [(n & ref & w' & -> & K & _ & Hfree & _)
         | [(msg & w1 & -> & _ & K)
           | [(err & ref & w1 & -> & _ & _ & K)
             | (w1 & -> & _ & _ & _ & K)]]].
    + exact (names_unique_snoc w w' n _ ref Hu Hfree K).
    + apply (names_unique_same w); [exact Hu | now left].
    + apply (names_unique_same w); [exact Hu | exact K].
    + apply (names_unique_same w); [exact Hu | now left].
  - intros ty device.
    pose proof (init_from_type_cases E ty device w) as H.
    destruct (av_hwdevice_get_type_name E ty) as [tn|];
      [|rewrite H; exact Hu].
    destruct H
      as [(n & ref & w' & -> & K & Hfree & _) | (err & w' & -> & _ & K)].
    + exact (names_unique_snoc w w' n ty ref Hu Hfree K).
    + exact (names_unique_same w w' Hu K).
Qed.

Lemma registration_keeps_names_unique_witness :
  (forall arg,
      names_unique
        (snd (hw_device_init_from_string Sample.quiet arg Sample.one_cuda)))
  /\
  (forall ty device,
      names_unique
        (snd (hw_device_init_from_type Sample.quiet ty device
                Sample.one_cuda))).
Proof.
  apply (registration_keeps_names_unique Sample.quiet Sample.one_cuda).
  split; simpl.
  - constructor; [intros [] | constructor].
  - constructor; [discriminate | constructor].
Defined.

Lemma hw_device_get_by_type_snoc w w' d ty :
  hw_devices w' = (hw_devices w ++ [d])%list ->
  hw_device_get_by_type w' ty =
  if type d =? ty then
    match filter (of_type ty) (hw_devices w) with
    | [] => Some d
    | _ :: _ => None
    end
  else hw_device_get_by_type w ty.
Proof.
  intros K. unfold hw_device_get_by_type.
  rewrite !hw_device_get_by_type_from_spec, K, filter_app. simpl.
  unfold of_type at 2. destruct (type d =? ty).
  - destruct (filter (of_type ty) (hw_devices w)) as [|x [|y l]];
      reflexivity.
  - now rewrite app_nil_r.
Qed.

(** X8. After a successful [hw_device_init_from_string] the registry is
    the old one followed by one new device of the resolved type.  Lookup
    by the new device's name finds it; lookup by any other name and by any
    other type answers as before; lookup by the new device's type finds it
    when no device of that type was registered before and finds nothing
    when one or more were: a second device of a type hides both from
    [hw_device_get_by_type]. *)
Theorem hw_device_init_from_string_lookups
    (E : Env) (arg : string) (w : World) (out : option nat) (w' : World) :
  hw_device_init_from_string E arg w = (Returns (0, out), w') ->
  let ty := av_hwdevice_find_type_by_name E (spec_type_name arg) in
  exists n d,
    hw_devices w' = (hw_devices w ++ [d])%list /\
    name d = Some n /\ type d = ty /\
    hw_device_get_by_name w' n = Some d /\
    (forall m, m <> n ->
               hw_device_get_by_name w' m = hw_device_get_by_name w m) /\
    hw_device_get_by_type w' ty
    = match filter (of_type ty) (hw_devices w) with
      | [] => Some d
      | _ :: _ => None
      end /\
    (forall ty', ty' <> ty ->
                 hw_device_get_by_type w' ty' = hw_device_get_by_type w ty').
Proof.
  intros H ty.
  destruct (init_from_string_cases E arg w)
    as [(n & ref & w1 & R & K & _ & Hfree & _)
       | [(msg & w1 & R & _)
         | [(err & ref & w1 & R & Hneg & _) | (w1 & R & _)]]];
    rewrite R in H.
  - inversion H; subst out w1; clear H. fold ty in K.
    exists n, (mkHWDevice (Some n) ty ref).
    split; [exact K|]. split; [reflexivity|]. split; [reflexivity|].
    split; [|split; [|split]].
    + rewrite (hw_device_get_by_name_last w w' n ty ref n K Hfree).
      now rewrite String.eqb_refl.
    + intros m Hm. unfold hw_device_get_by_name. rewrite K.
      rewrite hw_device_get_by_name_from_app. simpl. unfold name_is. simpl.
      destruct (String.eqb n m) eqn:Heq.
      * apply String.eqb_eq in Heq. congruence.
      * destruct (hw_device_get_by_name_from (hw_devices w) m); reflexivity.
    + rewrite (hw_device_get_by_type_snoc w w' _ ty K). simpl.
      now rewrite Z.eqb_refl.
    + intros ty' Hne. rewrite (hw_device_get_by_type_snoc w w' _ ty' K).
      simpl. apply not_eq_sym in Hne. apply Z.eqb_neq in Hne.
      now rewrite Hne.
  - inversion H.
  - inversion H; subst. lia.
  - discriminate H.
Qed.

Lemma hw_device_init_from_string_lookups_witness :
  exists n d,
    hw_devices Sample.after_two = (hw_devices Sample.after_cuda ++ [d])%list /\
    name d = Some n /\ type d = Sample.CUDA /\
    hw_device_get_by_name Sample.after_two n = Some d /\
    (forall m, m <> n ->
               hw_device_get_by_name Sample.after_two m
               = hw_device_get_by_name Sample.after_cuda m) /\
    hw_device_get_by_type Sample.after_two Sample.CUDA = None /\
    (forall ty', ty' <> Sample.CUDA ->
                 hw_device_get_by_type Sample.after_two ty'
                 = hw_device_get_by_type Sample.after_cuda ty').
Proof.
  apply (hw_device_init_from_string_lookups Sample.quiet "cuda:1"
           Sample.after_cuda (Some 1%nat) Sample.after_two).
  reflexivity.
Defined.

Lemma strndup_app_more s r k :
  CStr.strndup (s ++ r) (String.length s + k) = s ++ CStr.strndup r k.
Proof. induction s as [|c s IH]; simpl; [reflexivity | now rewrite IH]. Qed.

Lemma mem_middle c s r : CStr.mem c (s ++ String c r) = true.
Proof.
  induction s as [|d s IH]; simpl.
  - now rewrite Ascii.eqb_refl.
  - rewrite IH. apply orb_true_r.
Qed.

(** X9. Options without an explicit name are not split off: in a
    specification [type,options] the type name runs up to the first of
    [:], [=] and [@], so it includes the comma.  With a runtime that has
    no device type whose name contains a comma, such a specification is
    rejected with [AVERROR(EINVAL)], "unknown device type", before
    anything is created or registered. *)
Theorem hw_device_init_from_string_comma_in_type
    (E : Env) (w : World) (tn rest : string) :
  let arg := tn ++ "," ++ rest in
  CStr.avoids tn ":=@" = true ->
  (forall s, CStr.mem "," s = true ->
             av_hwdevice_find_type_by_name E s = AV_HWDEVICE_TYPE_NONE) ->
  alloc_ok E (trace w) A_strndup = true ->
  CStr.mem "," (spec_type_name arg) = true /\
  hw_device_init_from_string E arg w
  = (Returns (AVERROR EINVAL, None),
     emit (EvLog (LogInvalidSpec arg "unknown device type"))
          (emit (EvAlloc A_strndup true) w)).
Proof.
  intros arg Htn Hnone Hal.
  assert (Hmem : CStr.mem "," (spec_type_name arg) = true).
  { unfold spec_type_name, arg.
    change ("," ++ rest) with (String "," rest).
    rewrite (CStrFacts.strcspn_app tn (String "," rest) ":=@" Htn).
    change (CStr.strcspn (String "," rest) ":=@")
      with (S (CStr.strcspn rest ":=@")).
    rewrite strndup_app_more. simpl. apply mem_middle. }
  split; [exact Hmem|].
  unfold hw_device_init_from_string.
  rewrite (init_from_string_body_head E arg w Hal). cbv zeta.
  rewrite (Hnone _ Hmem). reflexivity.
Qed.

Lemma hw_device_init_from_string_comma_in_type_witness :
  CStr.mem "," (spec_type_name "cuda,opt=val") = true /\
  hw_device_init_from_string Sample.quiet "cuda,opt=val" Sample.empty
  = (Returns (AVERROR EINVAL, None),
     emit (EvLog (LogInvalidSpec "cuda,opt=val" "unknown device type"))
          (emit (EvAlloc A_strndup true) Sample.empty)).
Proof.
  apply (hw_device_init_from_string_comma_in_type
           Sample.quiet Sample.empty "cuda" "opt=val").
  - reflexivity.
  - intros s Hs. simpl. unfold Sample.type_by_name.
    destruct (String.eqb s "cuda") eqn:H1.
    { apply String.eqb_eq in H1. subst s. discriminate Hs. }
    destruct (String.eqb s "vaapi") eqn:H2.
    { apply String.eqb_eq in H2. subst s. discriminate Hs. }
    reflexivity.
  - reflexivity.
Defined.

(** X10. A derivation [type=name@source]: everything after the [@] is the
    source name.  When no device of that name is registered the call
    returns [AVERROR(EINVAL)], "invalid source device name", and creates
    nothing.  Otherwise the context is derived from the context of the
    source found by name; a negative result of the derivation is returned
    as it is after the log line and the release of the reference, and
    otherwise the device is registered under [name] with the derived
    context. *)
Theorem hw_device_init_from_string_derived
    (E : Env) (w : World) (tn n src : string) :
  let ty := av_hwdevice_find_type_by_name E tn in
  let arg := tn ++ "=" ++ n ++ "@" ++ src in
  let w2 := emit (EvAlloc A_strndup true) (emit (EvAlloc A_strndup true) w) in
  CStr.avoids tn ":=@" = true ->
  CStr.avoids n ":@," = true ->
  ty <> AV_HWDEVICE_TYPE_NONE ->
  hw_device_get_by_name w n = None ->
  (forall h a, alloc_ok E h a = true) ->
  match hw_device_get_by_name w src with
  | None =>
      hw_device_init_from_string E arg w
      = (Returns (AVERROR EINVAL, None),
         emit (EvLog (LogInvalidSpec arg "invalid source device name")) w2)
  | Some source =>
      let result :=
        av_hwdevice_ctx_create_derived E (trace w2) ty (device_ref source) in
      let w3 :=
        emit (EvCtxCreateDerived ty (device_ref source) (fst result)) w2 in
      if fst result <? 0 then
        hw_device_init_from_string E arg w
        = (Returns (fst result, None),
           emit (EvBufferUnref (snd result))
                (emit (EvLog (LogCreationFailed (fst result))) w3))
      else
        exists w',
          hw_device_init_from_string E arg w
          = (Returns (0, Some (nb_hw_devices w)), w') /\
          hw_devices w'
          = (hw_devices w ++ [mkHWDevice (Some n) ty (snd result)])%list
  end.
Proof.
  intros ty arg w2 Htn Hn Hty Hfree Hall.
  assert (Harg : arg = tn ++ String "=" (n ++ String "@" src))
    by reflexivity.
  destruct (spec_split tn (String "=" (n ++ String "@" src)) Htn eq_refl)
    as [S1 S2].
  apply Z.eqb_neq in Hty.
  destruct (parse_name_explicit E ty n (String "@" src)
              (emit (EvAlloc A_strndup true) w) Hn eq_refl (Hall _ _) Hfree)
    as (w1 & R1 & K1).
  assert (w1 = w2) as ->.
  { unfold parse_name in R1.
    change (at_char (String "=" (n ++ String "@" src)) "=") with true in R1.
    cbv iota in R1. unfold bind in R1.
    rewrite (av_strndup_run E _ _ _ (Hall _ _)) in R1.
    destruct (hw_device_get_by_name _ _) in R1; inversion R1; reflexivity. }
  assert (Hbody :
            init_from_string_body E arg w
            = match hw_device_get_by_name w src with
              | None =>
                  (inl (goto_invalid "invalid source device name"), w2)
              | Some source =>
                  bind (ctx_create_derived E ty (device_ref source))
                       (fun ref => register E n ty ref) w2
              end).
  { rewrite (init_from_string_body_head E arg w (Hall _ _)).
    cbv zeta. rewrite Harg, S1, S2. fold ty. rewrite Hty.
    unfold bind at 1. rewrite R1. cbn [fst snd].
    unfold bind at 1. unfold parse_body.
    change (at_end (String "@" src)) with false.
    change (at_char (String "@" src) ":") with false.
    change (at_char (String "@" src) "@") with true. cbv iota.
    change (CStr.advance 1 (String "@" src)) with src.
    cbv beta.
    rewrite (hw_device_get_by_name_ext w2 w src eq_refl).
    destruct (hw_device_get_by_name w src); reflexivity. }
  unfold hw_device_init_from_string. rewrite Hbody. clear Hbody.
  destruct (hw_device_get_by_name w src) as [source|]; [|reflexivity].
  unfold bind, ctx_create_derived.
  destruct (av_hwdevice_ctx_create_derived E (trace w2) ty
              (device_ref source)) as [err ref].
  cbn [fst snd]. destruct (err <? 0); [reflexivity|].
  destruct (register_run E n ty ref
              (emit (EvCtxCreateDerived ty (device_ref source) err) w2) Hall)
    as (w3 & R3 & K3).
  rewrite R3. exists w3. split; [reflexivity | exact K3].
Qed.

Lemma hw_device_init_from_string_derived_witness :
  exists w',
    hw_device_init_from_string Sample.quiet "vaapi=x@cuda0" Sample.one_cuda
    = (Returns (0, Some 1%nat), w') /\
    hw_devices w'
    = [mkHWDevice (Some "cuda0") Sample.CUDA (Some 7);
       mkHWDevice (Some "x") Sample.VAAPI (Some 2)].
Proof.
  apply (hw_device_init_from_string_derived
           Sample.quiet Sample.one_cuda "vaapi" "x" "cuda0").
  - reflexivity.
  - reflexivity.
  - vm_compute. discriminate.
  - reflexivity.
  - intros h a. reflexivity.
Defined.

Lemma strchr_avoids s c :
  CStr.avoids s (String c "") = true -> CStr.strchr s c = None.
Proof.
  induction s as [|d s IH]; simpl; [reflexivity|].
  intros H. apply andb_prop in H. destruct H as [Hd Hs].
  apply negb_true_iff in Hd. rewrite orb_false_r in Hd.
  rewrite Hd, (IH Hs). reflexivity.
Qed.

(** X21. A specification [type=name:path] without a comma: the text after
    the colon is handed to [av_hwdevice_ctx_create] as the device string
    as it stands, without a copy and without options, and an empty text
    is handed over as NULL.  A negative result of the creation is returned
    as it is after the log line and the release of the reference;
    otherwise the device is registered under [name] with the created
    context. *)
Theorem hw_device_init_from_string_device_path
    (E : Env) (w : World) (tn n path : string) :
  let ty := av_hwdevice_find_type_by_name E tn in
  let arg := tn ++ "=" ++ n ++ ":" ++ path in
  let w2 := emit (EvAlloc A_strndup true) (emit (EvAlloc A_strndup true) w) in
  let device := match path with EmptyString => None | _ => Some path end in
  let result := av_hwdevice_ctx_create E (trace w2) ty device [] in
  let w3 := emit (EvCtxCreate ty device [] (fst result)) w2 in
  CStr.avoids tn ":=@" = true ->
  CStr.avoids n ":@," = true ->
  CStr.avoids path "," = true ->
  ty <> AV_HWDEVICE_TYPE_NONE ->
  hw_device_get_by_name w n = None ->
  (forall h a, alloc_ok E h a = true) ->
  if fst result <? 0 then
    hw_device_init_from_string E arg w
    = (Returns (fst result, None),
       emit (EvBufferUnref (snd result))
            (emit (EvLog (LogCreationFailed (fst result))) w3))
  else
    exists w',
      hw_device_init_from_string E arg w
      = (Returns (0, Some (nb_hw_devices w)), w') /\
      hw_devices w'
      = (hw_devices w ++ [mkHWDevice (Some n) ty (snd result)])%list.
Proof.
  intros ty arg w2 device result w3 Htn Hn Hpath Hty Hfree Hall.
  assert (Harg : arg = tn ++ String "=" (n ++ String ":" path))
    by reflexivity.
  destruct (spec_split tn (String "=" (n ++ String ":" path)) Htn eq_refl)
    as [S1 S2].
  apply Z.eqb_neq in Hty.
  destruct (parse_name_explicit E ty n (String ":" path)
              (emit (EvAlloc A_strndup true) w) Hn eq_refl (Hall _ _) Hfree)
    as (w1 & R1 & K1).
  assert (w1 = w2) as ->.
  { unfold parse_name in R1.
    change (at_char (String "=" (n ++ String ":" path)) "=") with true in R1.
    cbv iota in R1. unfold bind in R1.
    rewrite (av_strndup_run E _ _ _ (Hall _ _)) in R1.
    destruct (hw_device_get_by_name _ _) in R1; inversion R1; reflexivity. }
  assert (Hdev : (if at_end path then None else Some path) = device)
    by (unfold device; destruct path; reflexivity).
  assert (Hbody :
            init_from_string_body E arg w
            = bind (ctx_create E ty device [])
                   (fun ref => register E n ty ref) w2).
  { rewrite (init_from_string_body_head E arg w (Hall _ _)).
    cbv zeta. rewrite Harg, S1, S2. fold ty. rewrite Hty.
    unfold bind at 1. rewrite R1. cbn [fst snd].
    unfold bind at 1. unfold parse_body.
    change (at_end (String ":" path)) with false.
    change (at_char (String ":" path) ":") with true. cbv iota.
    change (CStr.advance 1 (String ":" path)) with path.
    cbv zeta. rewrite (strchr_avoids path "," Hpath), Hdev.
    reflexivity. }
  unfold hw_device_init_from_string. rewrite Hbody. clear Hbody.
  unfold bind, ctx_create. fold result.
  destruct result as [err ref] eqn:Hres.
  cbn [fst snd] in *. unfold w3. clear w3.
  destruct (err <? 0); [reflexivity|].
  destruct (register_run E n ty ref
              (emit (EvCtxCreate ty device [] err) w2) Hall)
    as (w4 & R4 & K4).
  rewrite R4. exists w4. split; [reflexivity | exact K4].
Qed.

Lemma hw_device_init_from_string_device_path_witness :
  exists w',
    hw_device_init_from_string Sample.quiet "cuda=a:" Sample.one_cuda
    = (Returns (0, Some 1%nat), w') /\
    hw_devices w'
    = [mkHWDevice (Some "cuda0") Sample.CUDA (Some 7);
       mkHWDevice (Some "a") Sample.CUDA
         (snd (av_hwdevice_ctx_create Sample.quiet
                 [EvAlloc A_strndup true; EvAlloc A_strndup true]
                 Sample.CUDA None []))].
Proof.
  apply (hw_device_init_from_string_device_path
           Sample.quiet Sample.one_cuda "cuda" "a" "").
  - reflexivity.
  - reflexivity.
  - reflexivity.
  - vm_compute. discriminate.
  - reflexivity.
  - intros h a. reflexivity.
Defined.

(* ===================================================================== *)
(** ** Further properties: the pipeline binder *)
(* ===================================================================== *)

Lemma setup_for_decode_scan_inv w requested configs o :
  setup_for_decode_scan w requested configs = Some o ->
  exists dev config,
    o = Some dev /\ In config configs /\
    has_method config AV_CODEC_HW_CONFIG_METHOD_HW_DEVICE_CTX = true /\
    device_type config = requested /\
    hw_device_get_by_type w requested = Some dev.
Proof.
  induction configs as [|config rest IH]; simpl; [discriminate|].
  destruct (has_method config AV_CODEC_HW_CONFIG_METHOD_HW_DEVICE_CTX)
    eqn:Hm; simpl.
  - destruct (device_type config =? requested) eqn:Heq.
    + apply Z.eqb_eq in Heq.
      destruct (hw_device_get_by_type w (device_type config)) as [dev|]
        eqn:Hd.
      * intros [= <-]. exists dev, config. rewrite <- Heq.
        repeat split; auto.
      * intros H. destruct (IH H) as (dev & c & H1 & H2 & H3).
        exists dev, c. split; [exact H1|]. split; [now right | exact H3].
    + intros H. destruct (IH H) as (dev & c & H1 & H2 & H3).
      exists dev, c. split; [exact H1|]. split; [now right | exact H3].
  - intros H. destruct (IH H) as (dev & c & H1 & H2 & H3).
    exists dev, c. split; [exact H1|]. split; [now right | exact H3].
Qed.

Lemma setup_for_decode_scan_registered w requested configs dev config :
  In config configs ->
  has_method config AV_CODEC_HW_CONFIG_METHOD_HW_DEVICE_CTX = true ->
  device_type config = requested ->
  hw_device_get_by_type w requested = Some dev ->
  setup_for_decode_scan w requested configs = Some (Some dev).
Proof.
  intros Hin Hm Ht Hd.
  induction configs as [|c rest IH]; simpl; [destruct Hin|].
  destruct (has_method c AV_CODEC_HW_CONFIG_METHOD_HW_DEVICE_CTX) eqn:Hc;
    simpl.
  - destruct (device_type c =? requested) eqn:Heq.
    + apply Z.eqb_eq in Heq. rewrite Heq, Hd. reflexivity.
    + destruct Hin as [-> | Hin]; [|exact (IH Hin)].
      apply Z.eqb_neq in Heq. contradiction.
  - destruct Hin as [-> | Hin]; [congruence | exact (IH Hin)].
Qed.

(** X11. When a hardware-accel request meets a decoder whose table has a
    device-context entry of the requested type and exactly one device of
    that type is registered, [hw_device_setup_for_decode] binds that
    device's context to the decoder.  A negative result of the binding is
    returned with the stream untouched; otherwise the stream receives a
    new reference to the same context and 0 is returned, or, when the
    reference cannot be made, [hwaccel_device_ref] is left NULL and
    [AVERROR(ENOMEM)] is returned.  The registry is never changed. *)
Theorem hw_device_setup_for_decode_binds
    (E : Env) (ist : InputStream) (w : World) (dev : HWDevice)
    (config : AVCodecHWConfig) :
  let err :=
    avcodec_set_hw_device_ctx E (trace w) (dec_ctx ist) (device_ref dev) in
  let w1 := emit (EvSetHWDeviceCtx (device_ref dev) err) w in
  let ok := alloc_ok E (trace w1) A_buffer_ref in
  let w2 := emit (EvAlloc A_buffer_ref ok) w1 in
  let bound ref :=
    mkInputStream (hwaccel_id ist) (hwaccel_device_type ist) (dec_ctx ist)
                  ref (st_index ist) in
  hwaccel_id ist <> HWACCEL_NONE ->
  In config (hw_configs (codec (dec_ctx ist))) ->
  has_method config AV_CODEC_HW_CONFIG_METHOD_HW_DEVICE_CTX = true ->
  device_type config = hwaccel_device_type ist ->
  hw_device_get_by_type w (hwaccel_device_type ist) = Some dev ->
  (err < 0 -> hw_device_setup_for_decode E ist w = (err, ist, w1)) /\
  (0 <= err -> ok = true ->
   forall r, device_ref dev = Some r ->
             hw_device_setup_for_decode E ist w = (0, bound (Some r), w2)) /\
  (0 <= err -> ok = false ->
   hw_device_setup_for_decode E ist w = (AVERROR ENOMEM, bound None, w2)) /\
  hw_devices (snd (hw_device_setup_for_decode E ist w)) = hw_devices w.
Proof.
  intros err w1 ok w2 bound Hreq Hin Hm Ht Hd.
  unfold hw_device_setup_for_decode.
  apply Z.eqb_neq in Hreq. rewrite Hreq.
  rewrite (setup_for_decode_scan_registered w _ _ dev config Hin Hm Ht Hd).
  fold err. fold w1. unfold av_buffer_ref, alloc. fold ok. fold w2.
  repeat split.
  - intros Herr. apply Z.ltb_lt in Herr. now rewrite Herr.
  - intros Herr Hok r Hr. apply Z.ltb_ge in Herr.
    rewrite Herr, Hok, Hr. reflexivity.
  - intros Herr Hok. apply Z.ltb_ge in Herr. rewrite Herr, Hok. reflexivity.
  - destruct (err <? 0); [reflexivity|].
    destruct (if ok then device_ref dev else None); reflexivity.
Qed.

Lemma hw_device_setup_for_decode_binds_witness :
  hw_device_setup_for_decode Sample.quiet Sample.cuda_stream Sample.one_cuda
  = (0, mkInputStream 2 Sample.CUDA (mkCodecCtx Sample.cuda_decoder)
          (Some 7) 0,
     mkWorld (hw_devices Sample.one_cuda)
       [EvAlloc A_buffer_ref true; EvSetHWDeviceCtx (Some 7) 0]).
Proof.
  apply (proj1 (proj2 (hw_device_setup_for_decode_binds
                         Sample.quiet Sample.cuda_stream Sample.one_cuda
                         (mkHWDevice (Some "cuda0") Sample.CUDA (Some 7))
                         (mkHWConfig 117
                            AV_CODEC_HW_CONFIG_METHOD_HW_DEVICE_CTX
                            Sample.CUDA)
                         ltac:(vm_compute; discriminate)
                         ltac:(left; reflexivity)
                         eq_refl eq_refl eq_refl))).
  - vm_compute. discriminate.
  - reflexivity.
  - reflexivity.
Defined.

(** X12. [hw_device_setup_for_decode] returns 0 only when there was no
    hardware-accel request, the stream then being untouched, or when the
    decoder's table has a device-context entry of the requested type,
    exactly one device of that type is registered, its context is not
    NULL and the stream now holds a reference to that very context. *)
Theorem hw_device_setup_for_decode_success
    (E : Env) (ist ist' : InputStream) (w w' : World) :
  hw_device_setup_for_decode E ist w = (0, ist', w') ->
  (hwaccel_id ist = HWACCEL_NONE /\ ist' = ist /\ w' = w) \/
  (exists dev config r,
      In config (hw_configs (codec (dec_ctx ist))) /\
      has_method config AV_CODEC_HW_CONFIG_METHOD_HW_DEVICE_CTX = true /\
      device_type config = hwaccel_device_type ist /\
      filter (of_type (hwaccel_device_type ist)) (hw_devices w) = [dev] /\
      device_ref dev = Some r /\
      hwaccel_device_ref ist' = Some r /\
      In (EvSetHWDeviceCtx (Some r)
            (avcodec_set_hw_device_ctx E (trace w) (dec_ctx ist) (Some r)))
         (trace w')).
Proof.
  unfold hw_device_setup_for_decode.
  destruct (hwaccel_id ist =? HWACCEL_NONE) eqn:Hreq.
  { intros [= <- <-]. left. apply Z.eqb_eq in Hreq. auto. }
  destruct (setup_for_decode_scan w (hwaccel_device_type ist)
              (hw_configs (codec (dec_ctx ist)))) as [o|] eqn:Hscan;
    [|discriminate].
  destruct (setup_for_decode_scan_inv _ _ _ _ Hscan)
    as (dev & config & -> & Hin & Hm & Ht & Hd).
  destruct (avcodec_set_hw_device_ctx E (trace w) (dec_ctx ist)
              (device_ref dev) <? 0)
    eqn:Herr.
  { intros [= H _ _]. apply Z.ltb_lt in Herr. lia. }
  unfold av_buffer_ref, alloc.
  destruct (alloc_ok E _ A_buffer_ref); [|discriminate].
  destruct (device_ref dev) as [r|] eqn:Hr; [|discriminate].
  intros [= <- <-]. right. exists dev, config, r.
  split; [exact Hin|]. split; [exact Hm|]. split; [exact Ht|]. split.
  - unfold hw_device_get_by_type in Hd.
    rewrite hw_device_get_by_type_from_spec in Hd.
    destruct (filter (of_type (hwaccel_device_type ist)) (hw_devices w))
      as [|x [|y l]]; try discriminate.
    now inversion Hd.
  - split; [exact Hr|]. split; [reflexivity|]. simpl. right. now left.
Qed.

Lemma hw_device_setup_for_decode_success_witness :
  (hwaccel_id Sample.cuda_stream = HWACCEL_NONE /\
   mkInputStream 2 Sample.CUDA (mkCodecCtx Sample.cuda_decoder) (Some 7) 0
   = Sample.cuda_stream /\
   mkWorld (hw_devices Sample.one_cuda)
     [EvAlloc A_buffer_ref true; EvSetHWDeviceCtx (Some 7) 0]
   = Sample.one_cuda) \/
  (exists dev config r,
      In config (hw_configs (codec (dec_ctx Sample.cuda_stream))) /\
      has_method config AV_CODEC_HW_CONFIG_METHOD_HW_DEVICE_CTX = true /\
      device_type config = hwaccel_device_type Sample.cuda_stream /\
      filter (of_type (hwaccel_device_type Sample.cuda_stream))
             (hw_devices Sample.one_cuda) = [dev] /\
      device_ref dev = Some r /\
      hwaccel_device_ref
        (mkInputStream 2 Sample.CUDA (mkCodecCtx Sample.cuda_decoder)
           (Some 7) 0) = Some r /\
      In (EvSetHWDeviceCtx (Some r)
            (avcodec_set_hw_device_ctx Sample.quiet
               (trace Sample.one_cuda) (dec_ctx Sample.cuda_stream)
               (Some r)))
         [EvAlloc A_buffer_ref true; EvSetHWDeviceCtx (Some 7) 0]).
Proof.
  apply (hw_device_setup_for_decode_success Sample.quiet Sample.cuda_stream
           (mkInputStream 2 Sample.CUDA (mkCodecCtx Sample.cuda_decoder)
              (Some 7) 0)
           Sample.one_cuda
           (mkWorld (hw_devices Sample.one_cuda)
              [EvAlloc A_buffer_ref true; EvSetHWDeviceCtx (Some 7) 0])).
  reflexivity.
Defined.

Lemma set_hwframe_ctx_from_find
    (E : Env) (ost : OutputStream) (ctx : AVCodecContext) (dev : HWDevice)
    (configs : list AVCodecHWConfig) (w : World) :
  set_hwframe_ctx_from E ost ctx dev configs w =
  match find (frames_entry dev) configs with
  | None => (ost, w)
  | Some config =>
      let result :=
        avcodec_get_hw_frames_parameters E (trace w) ctx (device_ref dev)
          (pix_fmt config) (hw_frames_ctx ost) in
      (mkOutputStream (enc_ctx ost) (snd result),
       emit (EvGetHWFramesParameters (device_ref dev) (pix_fmt config)
               (fst result)) w)
  end.
Proof.
  induction configs as [|config rest IH]; simpl; [reflexivity|].
  unfold frames_entry at 1.
  destruct (has_method config AV_CODEC_HW_CONFIG_METHOD_HW_FRAMES_CTX);
    simpl; [|exact IH].
  destruct (device_type config =? type dev); simpl; [|exact IH].
  destruct (avcodec_get_hw_frames_parameters E (trace w) ctx
              (device_ref dev) (pix_fmt config) (hw_frames_ctx ost));
    reflexivity.
Qed.

(** X13. [set_hwframe_ctx] asks for frame parameters at most once: for
    the first table entry, in table order, that binds through a frames
    context and is of the device's type, with that entry's pixel format.
    What the call leaves in [ost->hw_frames_ctx] is kept and its return
    value is dropped; later entries are never tried, whatever the call
    returned.  With no such entry the stream and the world are untouched. *)
Theorem set_hwframe_ctx_first_entry
    (E : Env) (ost : OutputStream) (c : AVCodec) (ctx : AVCodecContext)
    (dev : HWDevice) (w : World) :
  set_hwframe_ctx E ost c ctx dev w =
  match find (frames_entry dev) (hw_configs c) with
  | None => (ost, w)
  | Some config =>
      let result :=
        avcodec_get_hw_frames_parameters E (trace w) ctx (device_ref dev)
          (pix_fmt config) (hw_frames_ctx ost) in
      (mkOutputStream (enc_ctx ost) (snd result),
       emit (EvGetHWFramesParameters (device_ref dev) (pix_fmt config)
               (fst result)) w)
  end.
Proof.
  unfold set_hwframe_ctx.
  rewrite set_hwframe_ctx_from_find. reflexivity.
Qed.

(** X14. [hw_device_setup_for_encode] never changes the registry, and it
    ends in one of four ways.  Nothing done: 0, the stream and the world
    untouched.  No pool: 0 after the one [avcodec_get_hw_frames_parameters]
    call, which left [ost->hw_frames_ctx] NULL.  Bound: 0, the stream
    holds the pool that [avcodec_set_hw_frames_ctx] was last called with,
    and that call returned 0 or more (a positive value is not passed on).
    Refused: the negative value that [avcodec_set_hw_frames_ctx] returned
    for the pool, the stream left without a pool, the pool having been
    unreferenced right after the failed call. *)
Theorem hw_device_setup_for_encode_outcome
    (E : Env) (ost : OutputStream) (w : World) :
  let ret := fst (fst (hw_device_setup_for_encode E ost w)) in
  let ost' := snd (fst (hw_device_setup_for_encode E ost w)) in
  let w' := snd (hw_device_setup_for_encode E ost w) in
  hw_devices w' = hw_devices w /\
  ((ret = 0 /\ ost' = ost /\ w' = w)
   \/
   (ret = 0 /\ hw_frames_ctx ost' = None /\
    exists dev fmt r, w' = emit (EvGetHWFramesParameters dev fmt r) w)
   \/
   (ret = 0 /\
    exists pool r h,
      hw_frames_ctx ost' = Some pool /\ 0 <= r /\
      trace w' = EvSetHWFramesCtx (Some pool) r :: h)
   \/
   (ret < 0 /\ hw_frames_ctx ost' = None /\
    exists pool h,
      trace w' = EvBufferUnref (Some pool)
                   :: EvSetHWFramesCtx (Some pool) ret :: h)).
Proof.
  unfold hw_device_setup_for_encode.
  destruct (hw_device_match_by_codec w (codec (enc_ctx ost))) as [dev|];
    [|simpl; auto].
  unfold set_hwframe_ctx. rewrite set_hwframe_ctx_from_find.
  destruct (find (frames_entry dev) (hw_configs (codec (enc_ctx ost))))
    as [config|]; cbv zeta.
  - destruct (avcodec_get_hw_frames_parameters E (trace w) (enc_ctx ost)
                (device_ref dev) (pix_fmt config) (hw_frames_ctx ost))
      as [r [pool|]] eqn:Hget; cbn [fst snd hw_frames_ctx enc_ctx].
    + match goal with
      | |- context [?e <? 0] => destruct (e <? 0) eqn:Herr
      end.
      * apply Z.ltb_lt in Herr. simpl. split; [reflexivity|].
        right. right. right. split; [exact Herr|].
        split; [reflexivity|]. eexists. eexists. reflexivity.
      * apply Z.ltb_ge in Herr. simpl. split; [reflexivity|].
        right. right. left. split; [reflexivity|].
        eexists. eexists. eexists.
        split; [reflexivity|]. split; [exact Herr | reflexivity].
    + simpl. split; [reflexivity|]. right. left.
      split; [reflexivity|]. split; [reflexivity|].
      eexists. eexists. eexists. reflexivity.
  - destruct (hw_frames_ctx ost) as [pool|] eqn:Hpool; [|simpl; auto].
    destruct (avcodec_set_hw_frames_ctx E (trace w) (enc_ctx ost)
                (Some pool) <? 0) eqn:Herr.
    + apply Z.ltb_lt in Herr. simpl. split; [reflexivity|].
      right. right. right. split; [exact Herr|].
      split; [reflexivity|]. rewrite Hpool.
      eexists. eexists. reflexivity.
    + apply Z.ltb_ge in Herr. simpl. split; [reflexivity|].
      right. right. left. split; [reflexivity|].
      exists pool. eexists. eexists.
      split; [exact Hpool|]. split; [exact Herr | reflexivity].
Qed.

Lemma hw_device_match_by_codec_from_type w configs dev :
  hw_device_match_by_codec_from w configs = Some dev ->
  hw_device_get_by_type w (type dev) = Some dev.
Proof.
  induction configs as [|config rest IH]; simpl; [discriminate|].
  destruct (negb (has_method config AV_CODEC_HW_CONFIG_METHOD_HW_DEVICE_CTX));
    [exact IH|].
  destruct (hw_device_get_by_type w (device_type config)) as [d|] eqn:Hd;
    [|exact IH].
  intros [= <-].
  destruct (hw_device_get_by_type_found w _ d Hd) as [_ Ht].
  rewrite Ht. exact Hd.
Qed.

(** X22. A second device of a type hides the type.  After two successful
    [hw_device_init_from_string] calls whose specifications name the same
    device type, [hw_device_get_by_type] finds no device of that type;
    [hw_device_setup_for_decode] for a stream that requests the type then
    fails with [AVERROR(ENOSYS)], whatever the decoder's table holds, and
    [hw_device_match_by_codec] returns no device of that type for any
    codec. *)
Theorem hw_device_setup_for_decode_second_device
    (E : Env) (arg1 arg2 : string) (o1 o2 : option nat) (w w1 w2 : World)
    (ist : InputStream) :
  let ty := av_hwdevice_find_type_by_name E (spec_type_name arg1) in
  hw_device_init_from_string E arg1 w = (Returns (0, o1), w1) ->
  hw_device_init_from_string E arg2 w1 = (Returns (0, o2), w2) ->
  av_hwdevice_find_type_by_name E (spec_type_name arg2) = ty ->
  hwaccel_id ist <> HWACCEL_NONE ->
  hwaccel_device_type ist = ty ->
  hw_device_get_by_type w2 ty = None /\
  hw_device_setup_for_decode E ist w2
  = (AVERROR ENOSYS, ist,
     emit (EvLog (LogError "Decoder does not support any device type")) w2)
  /\
  (forall c dev, hw_device_match_by_codec w2 c = Some dev -> type dev <> ty).
Proof.
  intros ty R1 R2 Hsame Hreq Hist.
  assert (K1 : exists d, hw_devices w1 = (hw_devices w ++ [d])%list /\
                         type d = ty).
  { destruct (init_from_string_cases E arg1 w)
      as [(n & ref & w' & R & K & _) |
          [(msg & w' & R & _) |
           [(err & ref & w' & R & Hneg & _) | (w' & R & _)]]];
      rewrite R in R1.
    - inversion R1; subst. eexists. split; [exact K | reflexivity].
    - discriminate R1.
    - inversion R1; subst. lia.
    - discriminate R1. }
  assert (K2 : exists d, hw_devices w2 = (hw_devices w1 ++ [d])%list /\
                         type d = ty).
  { destruct (init_from_string_cases E arg2 w1)
      as [(n & ref & w' & R & K & _) |
          [(msg & w' & R & _) |
           [(err & ref & w' & R & Hneg & _) | (w' & R & _)]]];
      rewrite R in R2.
    - inversion R2; subst. eexists. split; [exact K | exact Hsame].
    - discriminate R2.
    - inversion R2; subst. lia.
    - discriminate R2. }
  destruct K1 as (d1 & K1 & T1). destruct K2 as (d2 & K2 & T2).
  assert (Hnone : hw_device_get_by_type w2 ty = None).
  { rewrite (hw_device_get_by_type_snoc w1 w2 d2 ty K2).
    rewrite T2, Z.eqb_refl, K1, filter_app. simpl.
    unfold of_type at 2. rewrite T1, Z.eqb_refl.
    destruct (filter (of_type ty) (hw_devices w)); reflexivity. }
  split; [exact Hnone|]. split.
  - unfold hw_device_setup_for_decode.
    apply Z.eqb_neq in Hreq. rewrite Hreq, Hist.
    rewrite (setup_for_decode_scan_unregistered w2 _ _ Hnone). reflexivity.
  - intros c dev Hm Ht. unfold hw_device_match_by_codec in Hm.
    apply hw_device_match_by_codec_from_type in Hm.
    rewrite Ht, Hnone in Hm. discriminate.
Qed.

Lemma hw_device_setup_for_decode_second_device_witness :
  hw_device_get_by_type Sample.after_two Sample.CUDA = None /\
  hw_device_setup_for_decode Sample.quiet Sample.cuda_stream Sample.after_two
  = (AVERROR ENOSYS, Sample.cuda_stream,
     emit (EvLog (LogError "Decoder does not support any device type"))
          Sample.after_two)
  /\
  (forall c dev, hw_device_match_by_codec Sample.after_two c = Some dev ->
                 type dev <> Sample.CUDA).
Proof.
  apply (hw_device_setup_for_decode_second_device
           Sample.quiet "cuda" "cuda:1" (Some 0%nat) (Some 1%nat)
           Sample.empty Sample.after_cuda Sample.after_two
           Sample.cuda_stream).
  - reflexivity.
  - reflexivity.
  - reflexivity.
  - vm_compute. discriminate.
  - reflexivity.
Defined.

(* ===================================================================== *)
(** ** Further properties: remix_audio *)
(* ===================================================================== *)

(** X15. When [av_frame_alloc] fails, [remix_audio] returns
    [AVERROR(ENOMEM)] and the frame it was given is untouched (also a NULL
    one: it has not been read yet).  When [av_frame_get_buffer] fails it
    logs the failure, frees the frame it allocated and returns
    [AVERROR(ENOMEM)] as well, whatever code that call returned, and the
    frame it was given is untouched. *)
Theorem remix_audio_out_of_memory
    (E : Env) (frame : option AVFrame) (remix_map : list Z)
    (remix_size : Z) (w : World) :
  (alloc_ok E (trace w) A_frame_alloc = false ->
   remix_audio E frame remix_map remix_size w
   = Done (AVERROR ENOMEM, frame)
       (emit (EvLog (LogError "Could not allocate remix frame."))
             (emit (EvAlloc A_frame_alloc false) w)))
  /\
  (forall f,
      let w1 := emit (EvAlloc A_frame_alloc true) w in
      let request :=
        mkFrame [] 0 (channel_layout f) (sample_rate f) (format f)
                (nb_samples f) (props frame_defaults) in
      let r := fst (av_frame_get_buffer E (trace w1) request) in
      frame = Some f ->
      alloc_ok E (trace w) A_frame_alloc = true ->
      r < 0 ->
      remix_audio E frame remix_map remix_size w
      = Done (AVERROR ENOMEM, Some f)
          (emit (EvFrameFree (Some request))
             (emit (EvLog (LogError
                             "Could not allocate remix frame buffer."))
                   (emit (EvFrameGetBuffer r) w1)))).
Proof.
  split.
  - intros H. unfold remix_audio, alloc. rewrite H. reflexivity.
  - intros f w1 request r -> Hal Hr. unfold remix_audio, alloc.
    rewrite Hal. cbn [negb].
    change (mkFrame (data frame_defaults) (linesize0 frame_defaults)
              (channel_layout f) (sample_rate f) (format f) (nb_samples f)
              (props frame_defaults)) with request.
    fold w1. unfold r in *.
    destruct (av_frame_get_buffer E (trace w1) request) as [r' [planes ls]].
    simpl in *. apply Z.ltb_lt in Hr. rewrite Hr. reflexivity.
Qed.

Lemma remix_audio_out_of_memory_witness :
  remix_audio (Sample.runtime Sample.no_frame [] []) None [2; 0] 2
    Sample.empty
  = Done (AVERROR ENOMEM, None)
      (emit (EvLog (LogError "Could not allocate remix frame."))
            (emit (EvAlloc A_frame_alloc false) Sample.empty))
  /\
  remix_audio (Sample.no_buffers Sample.quiet) (Some Sample.abc) [2; 0] 2
    Sample.empty
  = Done (AVERROR ENOMEM, Some Sample.abc)
      (emit (EvFrameFree
               (Some (mkFrame [] 0 7 48000 8 32 (props frame_defaults))))
         (emit (EvLog (LogError "Could not allocate remix frame buffer."))
               (emit (EvFrameGetBuffer (AVERROR EINVAL))
                     (emit (EvAlloc A_frame_alloc true) Sample.empty)))).
Proof.
  split.
  - apply (proj1 (remix_audio_out_of_memory
                    (Sample.runtime Sample.no_frame [] []) None [2; 0] 2
                    Sample.empty)).
    reflexivity.
  - apply (proj2 (remix_audio_out_of_memory
                    (Sample.no_buffers Sample.quiet) (Some Sample.abc)
                    [2; 0] 2 Sample.empty) Sample.abc).
    + reflexivity.
    + reflexivity.
    + vm_compute. reflexivity.
Defined.

Lemma store_at_length {A : Type} (i : nat) (f : A -> A) (l : list A) :
  List.length (store_at i f l) = List.length l.
Proof.
  revert i. induction l as [|x l IH]; intros [|i]; simpl; auto.
Qed.

Lemma store_at_nth {A : Type} (i j : nat) (f : A -> A) (l : list A) :
  nth_error (store_at i f l) j
  = if (j =? i)%nat then option_map f (nth_error l j) else nth_error l j.
Proof.
  revert i j. induction l as [|x l IH]; intros i j.
  - destruct i, j; simpl; try reflexivity.
    destruct (j =? i)%nat; reflexivity.
  - destruct i as [|i], j as [|j]; simpl; try reflexivity. apply IH.
Qed.

Lemma remix_copy_plane_length src remix_map linesize i dst dst' :
  remix_copy_plane src remix_map linesize i dst = Some dst' ->
  List.length dst' = List.length dst.
Proof.
  unfold remix_copy_plane.
  destruct (nth_error remix_map i) as [m|]; [|discriminate].
  destruct (m <? 0); [discriminate|].
  destruct (nth_error src (Z.to_nat m)) as [s|]; [|discriminate].
  destruct (nth_error dst i) as [d|]; [|discriminate].
  destruct (memcpy d s linesize); [|discriminate].
  intros [= <-]. apply store_at_length.
Qed.

(** The copy loop on a map whose entries all name a plane of the source. *)
Lemma remix_copy_selects src remix_map linesize steps :
  planes_of linesize src ->
  forall i dst,
    planes_of linesize dst ->
    (i + steps <= List.length dst)%nat ->
    (forall j, (i <= j < i + steps)%nat ->
               ~ bad_index src remix_map (List.length dst) j) ->
    exists dst',
      remix_copy src remix_map linesize i steps dst = Some dst' /\
      planes_of linesize dst' /\
      List.length dst' = List.length dst /\
      (forall j, (i <= j < i + steps)%nat ->
                 nth_error dst' j
                 = nth_error src (Z.to_nat (nth j remix_map 0))) /\
      (forall j, (j < i \/ i + steps <= j)%nat ->
                 nth_error dst' j = nth_error dst j).
Proof.
  intros Hsrc.
  induction steps as [|steps IH]; intros i dst Hdst Hlen Hok.
  - exists dst. simpl. split; [reflexivity|]. split; [exact Hdst|].
    split; [reflexivity|]. split; [intros j Hj; lia | reflexivity].
  - assert (Hi : ~ bad_index src remix_map (List.length dst) i)
      by (apply Hok; lia).
    unfold bad_index in Hi.
    destruct (nth_error remix_map i) as [m|] eqn:Hm; [|tauto].
    assert (Hm0 : 0 <= m) by lia.
    assert (Hm1 : (Z.to_nat m < List.length src)%nat) by lia.
    destruct (nth_error src (Z.to_nat m)) as [s|] eqn:Hs;
      [|apply nth_error_None in Hs; lia].
    destruct (nth_error dst i) as [d|] eqn:Hd;
      [|apply nth_error_None in Hd; lia].
    assert (Ls : List.length s = linesize).
    { unfold planes_of in Hsrc. rewrite Forall_forall in Hsrc.
      apply Hsrc. exact (nth_error_In _ _ Hs). }
    assert (Ld : List.length d = linesize).
    { unfold planes_of in Hdst. rewrite Forall_forall in Hdst.
      apply Hdst. exact (nth_error_In _ _ Hd). }
    pose proof (remix_copy_plane_whole src remix_map linesize i dst m s d
                  Hm Hm0 Hs Hd Ls Ld) as Hstep.
    set (dst1 := store_at i (fun _ => s) dst) in *.
    assert (L1 : List.length dst1 = List.length dst)
      by apply store_at_length.
    assert (P1 : planes_of linesize dst1).
    { unfold planes_of. rewrite Forall_forall. intros p Hp.
      apply In_nth_error in Hp. destruct Hp as [j Hj].
      unfold dst1 in Hj. rewrite store_at_nth in Hj.
      destruct (Nat.eqb_spec j i) as [Heq | _].
      - rewrite Heq, Hd in Hj. simpl in Hj. inversion Hj; subst p.
        exact Ls.
      - unfold planes_of in Hdst. rewrite Forall_forall in Hdst.
        apply Hdst. exact (nth_error_In _ _ Hj). }
    destruct (IH (S i) dst1 P1) as (dst' & R & P' & L' & Hsel & Hkeep).
    { lia. }
    { intros j Hj. rewrite L1. apply Hok. lia. }
    exists dst'. cbn [remix_copy]. rewrite Hstep.
    split; [exact R|]. split; [exact P'|]. split; [lia|]. split.
    + intros j Hj. destruct (Nat.eq_dec j i) as [-> | Hne].
      * rewrite Hkeep by lia. unfold dst1. rewrite store_at_nth.
        rewrite Nat.eqb_refl, Hd. simpl.
        rewrite (nth_error_nth _ _ 0 Hm). now rewrite Hs.
      * apply Hsel. lia.
    + intros j Hj. rewrite Hkeep by lia. unfold dst1.
      rewrite store_at_nth.
      destruct (j =? i)%nat eqn:Heq; [|reflexivity].
      apply Nat.eqb_eq in Heq. lia.
Qed.

(** X16. [remix_audio] as a plane selection.  When both allocations
    succeed, the source and the allocated planes all have the allocated
    line size, and every [remix_map[j]] for [j < remix_size] names a
    plane of the source with an allocated plane [j] to receive it:
    [remix_audio] returns 0 and the frame then has as many planes as were
    allocated, plane [j] being a copy of source plane [remix_map[j]] for
    [j < remix_size] and the allocated plane for the other [j], with the
    source's layout, rate, format, sample count and properties. *)
Theorem remix_audio_selects
    (E : Env) (f : AVFrame) (w : World) (remix_map : list Z)
    (remix_size : Z) (planes : list (list Z)) (linesize : nat) (r : Z) :
  let request :=
    mkFrame [] 0 (channel_layout f) (sample_rate f) (format f)
            (nb_samples f) (props frame_defaults) in
  let w1 := emit (EvAlloc A_frame_alloc true) w in
  let w2 := emit (EvFrameGetBuffer r) w1 in
  alloc_ok E (trace w) A_frame_alloc = true ->
  av_frame_get_buffer E (trace w1) request = (r, (planes, linesize)) ->
  0 <= r ->
  planes_of linesize (data f) -> planes_of linesize planes ->
  (forall j, (j < Z.to_nat remix_size)%nat ->
             ~ bad_index (data f) remix_map (List.length planes) j) ->
  exists planes',
    remix_audio E (Some f) remix_map remix_size w
    = Done (0, Some (mkFrame planes' linesize (channel_layout f)
                       (sample_rate f) (format f) (nb_samples f) (props f)))
           w2 /\
    List.length planes' = List.length planes /\
    (forall j, (j < Z.to_nat remix_size)%nat ->
               nth_error planes' j
               = nth_error (data f) (Z.to_nat (nth j remix_map 0))) /\
    (forall j, (Z.to_nat remix_size <= j)%nat ->
               nth_error planes' j = nth_error planes j).
Proof.
  intros request w1 w2 Hal Hbuf Hr Hsrc Hdst Hok.
  assert (Hlen : (Z.to_nat remix_size <= List.length planes)%nat).
  { destruct (le_lt_dec (Z.to_nat remix_size) (List.length planes))
      as [H | H]; [exact H|].
    exfalso. apply (Hok (List.length planes) H). left. lia. }
  destruct (remix_copy_selects (data f) remix_map linesize
              (Z.to_nat remix_size) Hsrc 0 planes Hdst)
    as (planes' & R & _ & L & Hsel & Hkeep).
  { lia. }
  { intros j Hj. apply Hok. lia. }
  exists planes'. split; [|split; [exact L|split]].
  - unfold remix_audio, alloc. rewrite Hal. cbn [negb].
    change (mkFrame (data frame_defaults) (linesize0 frame_defaults)
              (channel_layout f) (sample_rate f) (format f) (nb_samples f)
              (props frame_defaults)) with request.
    fold w1. rewrite Hbuf. fold w2.
    apply Z.ltb_ge in Hr. rewrite Hr, R. reflexivity.
  - intros j Hj. apply Hsel. lia.
  - intros j Hj. apply Hkeep. lia.
Qed.

Lemma remix_audio_selects_witness :
  exists planes',
    remix_audio Sample.quiet (Some Sample.abc) [1; 1; 0] 3 Sample.empty
    = Done (0, Some (mkFrame planes' 128 7 48000 8 32 (mkProps 1000 990)))
           (mkWorld [] [EvFrameGetBuffer 0; EvAlloc A_frame_alloc true]) /\
    List.length planes' = 3%nat /\
    (forall j, (j < 3)%nat ->
               nth_error planes' j
               = nth_error (data Sample.abc) (Z.to_nat (nth j [1; 1; 0] 0)))
    /\
    (forall j, (3 <= j)%nat ->
               nth_error planes' j
               = nth_error [Sample.silence; Sample.silence; Sample.silence]
                           j).
Proof.
  apply (remix_audio_selects Sample.quiet Sample.abc Sample.empty [1; 1; 0] 3
           [Sample.silence; Sample.silence; Sample.silence] 128 0).
  - reflexivity.
  - reflexivity.
  - vm_compute. discriminate.
  - unfold planes_of. repeat constructor.
  - unfold planes_of. repeat constructor.
  - intros j Hj. change (Z.to_nat 3) with 3%nat in Hj.
    unfold bad_index.
    destruct j as [|[|[|j]]]; simpl; [lia | lia | lia | lia].
Defined.

Lemma remix_copy_plane_bad src remix_map linesize i dst :
  bad_index src remix_map (List.length dst) i ->
  remix_copy_plane src remix_map linesize i dst = None.
Proof.
  unfold bad_index, remix_copy_plane.
  destruct (nth_error remix_map i) as [m|]; [|reflexivity].
  destruct (m <? 0) eqn:Hneg; [reflexivity|].
  apply Z.ltb_ge in Hneg.
  intros [Hd | [Hm | Hm]].
  - apply nth_error_None in Hd. rewrite Hd.
    destruct (nth_error src (Z.to_nat m)); reflexivity.
  - lia.
  - apply nth_error_None in Hm. rewrite Hm. reflexivity.
Qed.

Lemma remix_copy_bad src remix_map linesize steps :
  forall i dst,
    (exists j, (i <= j < i + steps)%nat /\
               bad_index src remix_map (List.length dst) j) ->
    remix_copy src remix_map linesize i steps dst = None.
Proof.
  induction steps as [|steps IH]; intros i dst (j & Hj & Hbad); [lia|].
  cbn [remix_copy].
  destruct (remix_copy_plane src remix_map linesize i dst) as [dst'|] eqn:Hc;
    [|reflexivity].
  destruct (Nat.eq_dec j i) as [-> | Hne].
  - rewrite (remix_copy_plane_bad _ _ _ _ _ Hbad) in Hc. discriminate.
  - apply IH. exists j. split; [lia|].
    now rewrite (remix_copy_plane_length _ _ _ _ _ _ Hc).
Qed.

(** X17. [remix_audio] does not check the map.  When both allocations
    succeed and some [j < remix_size] has a [remix_map[j]] that is
    negative or not below the number of planes of the source (or lies
    beyond the end of the map, or beyond the allocated planes), the copy
    loop reads or writes through a pointer that is not a plane: the call
    has no defined result. *)
Theorem remix_audio_unchecked_map
    (E : Env) (f : AVFrame) (w : World) (remix_map : list Z)
    (remix_size : Z) (planes : list (list Z)) (linesize : nat) (r : Z) :
  let request :=
    mkFrame [] 0 (channel_layout f) (sample_rate f) (format f)
            (nb_samples f) (props frame_defaults) in
  let w1 := emit (EvAlloc A_frame_alloc true) w in
  alloc_ok E (trace w) A_frame_alloc = true ->
  av_frame_get_buffer E (trace w1) request = (r, (planes, linesize)) ->
  0 <= r ->
  (exists j, (j < Z.to_nat remix_size)%nat /\
             bad_index (data f) remix_map (List.length planes) j) ->
  remix_audio E (Some f) remix_map remix_size w
  = Undefined (emit (EvFrameGetBuffer r) w1).
Proof.
  intros request w1 Hal Hbuf Hr (j & Hj & Hbad).
  unfold remix_audio, alloc. rewrite Hal. cbn [negb].
  change (mkFrame (data frame_defaults) (linesize0 frame_defaults)
            (channel_layout f) (sample_rate f) (format f) (nb_samples f)
            (props frame_defaults)) with request.
  fold w1. rewrite Hbuf. apply Z.ltb_ge in Hr. rewrite Hr.
  rewrite remix_copy_bad; [reflexivity|].
  exists j. split; [lia | exact Hbad].
Qed.

Lemma remix_audio_unchecked_map_witness :
  remix_audio Sample.quiet (Some Sample.abc) [3; 0] 2 Sample.empty
  = Undefined (emit (EvFrameGetBuffer 0)
                    (emit (EvAlloc A_frame_alloc true) Sample.empty)).
Proof.
  apply (remix_audio_unchecked_map Sample.quiet Sample.abc Sample.empty
           [3; 0] 2 [Sample.silence; Sample.silence; Sample.silence] 128 0).
  - reflexivity.
  - reflexivity.
  - vm_compute. discriminate.
  - exists 0%nat. split; [vm_compute; lia|].
    unfold bad_index. right. simpl. right. lia.
Defined.

(* ===================================================================== *)
(** ** Further properties: the driving loop *)
(* ===================================================================== *)

Section LoopOutcome.
Variable E : Env.
Variable ist : InputStream.
Variable remix_map : list Z.
Variable remix_size : Z.

Lemma read_loop_negative fuel :
  forall frame w x frame' w',
    read_loop E ist remix_map remix_size fuel frame w = Done (x, frame') w' ->
    x < 0.
Proof.
  induction fuel as [|fuel IH]; intros frame w x frame' w' H;
    [discriminate|].
  cbn [read_loop] in H.
  destruct (av_read_frame E (trace w)) as [ret stream_index].
  cbv beta iota zeta in H.
  destruct (ret <? 0) eqn:Hret.
  { inversion H; subst. now apply Z.ltb_lt. }
  destruct (stream_index =? st_index ist); [|exact (IH _ _ _ _ _ H)].
  match type of H with
  | context [?e <? 0] => destruct (e <? 0) eqn:Hsend
  end.
  { inversion H; subst. now apply Z.ltb_lt. }
  match type of H with
  | context [receive_loop ?a ?b ?c ?d ?e ?g] =>
      destruct (receive_loop a b c d e g) as [[y f3] w3 | w3 | w3] eqn:Hrecv
  end; try discriminate.
  destruct ((y =? AVERROR EAGAIN) || (y =? AVERROR_EOF));
    [exact (IH _ _ _ _ _ H)|].
  destruct (y <? 0) eqn:Hy; [|exact (IH _ _ _ _ _ H)].
  inversion H; subst. now apply Z.ltb_lt.
Qed.

Lemma receive_loop_NULL_delivery fuel w :
  let r := receive_loop E ist remix_map remix_size fuel None w in
  extends receive_failed w (world_of r) \/
  (exists w', r = Undefined w') \/
  (exists w', r = Done (AVERROR ENOMEM, None) w').
Proof.
  destruct fuel as [|fuel]; cbn [receive_loop].
  { left. apply extends_refl. }
  destruct (avcodec_receive_frame E (trace w) (dec_ctx ist) None)
    as [ret decoded].
  cbv beta iota zeta. cbn [option_map].
  destruct (ret <? 0) eqn:Hret.
  { left. simpl. apply extends_emit; [|apply extends_refl].
    simpl. now apply Z.ltb_lt. }
  rewrite remix_audio_NULL.
  destruct (alloc_ok E _ A_frame_alloc).
  - right. left. eexists. reflexivity.
  - right. right. eexists. reflexivity.
Qed.

Lemma read_loop_NULL_delivery fuel :
  forall w,
    let r := read_loop E ist remix_map remix_size fuel None w in
    extends receive_failed w (world_of r) \/
    (exists w', r = Undefined w') \/
    (exists w', r = Done (AVERROR ENOMEM, None) w').
Proof.
  induction fuel as [|fuel IH]; intros w.
  { left. apply extends_refl. }
  cbn [read_loop].
  destruct (av_read_frame E (trace w)) as [ret stream_index].
  cbv beta iota zeta.
  set (w1 := emit (EvReadFrame ret stream_index) w).
  assert (X1 : extends receive_failed w w1)
    by (apply extends_emit; [exact I | apply extends_refl]).
  destruct (ret <? 0). { left. exact X1. }
  destruct (stream_index =? st_index ist).
  - set (w2 := emit (EvSendPacket
                       (avcodec_send_packet E (trace w1) (dec_ctx ist))) w1).
    assert (X2 : extends receive_failed w w2)
      by (apply extends_emit; [exact I | exact X1]).
    destruct (avcodec_send_packet E (trace w1) (dec_ctx ist) <? 0).
    { left. simpl. apply extends_emit; [exact I | exact X2]. }
    pose proof (receive_loop_NULL_delivery fuel w2) as D. cbv zeta in D.
    pose proof (receive_loop_NULL_trace E ist remix_map remix_size
                  (fun _ => True) (fun _ => I) (fun _ _ => I) (fun _ => I)
                  fuel w2) as [_ N3].
    destruct (receive_loop E ist remix_map remix_size fuel None w2)
      as [[x frame'] w3 | w3 | w3] eqn:Hrecv.
    + pose proof (N3 _ _ _ eq_refl) as ->.
      destruct D as [X3 | [(w' & Hx) | (w' & Hx)]]; [|discriminate|].
      * simpl in X3.
        pose proof (extends_trans _ _ _ _ X2 X3) as X23.
        destruct ((x =? AVERROR EAGAIN) || (x =? AVERROR_EOF)).
        { destruct (IH w3) as [X4 | H]; [|right; exact H].
          left. exact (extends_trans _ _ _ _ X23 X4). }
        destruct (x <? 0). { left. exact X23. }
        destruct (IH (emit EvPacketUnref w3)) as [X4 | H]; [|right; exact H].
        left. refine (extends_trans _ _ _ _ _ X4).
        apply extends_emit; [exact I | exact X23].
      * inversion Hx; subst x w'. right. right. exists w3. reflexivity.
    + right. left. exists w3. reflexivity.
    + left. simpl. destruct D as [X3 | [(w' & Hx) | (w' & Hx)]];
        [|discriminate|discriminate].
      exact (extends_trans _ _ _ _ X2 X3).
  - destruct (IH (emit EvPacketUnref w1)) as [X4 | H]; [|right; exact H].
    left. refine (extends_trans _ _ _ _ _ X4).
    apply extends_emit; [exact I | exact X1].
Qed.

End LoopOutcome.

(** X18. Whenever [apply_audio_remix] returns, it returns a negative
    value: the read loop is only left when [av_read_frame], the send, the
    receive or the remix step failed, so also a stream read to its end
    without any error is reported as [AVERROR_EOF], never as 0. *)
Theorem apply_audio_remix_returns_negative
    (E : Env) (ist : InputStream) (remix_map : list Z) (remix_size : Z)
    (fuel : nat) (w : World) (ret : Z) (w' : World) :
  apply_audio_remix E ist remix_map remix_size fuel w = Done ret w' ->
  ret < 0.
Proof.
  unfold apply_audio_remix.
  destruct (read_loop E ist remix_map remix_size fuel None w)
    as [[x frame'] w1 | w1 | w1] eqn:H; try discriminate.
  intros [= <- _]. exact (read_loop_negative E ist _ _ fuel _ _ _ _ _ H).
Qed.

Lemma apply_audio_remix_returns_negative_witness : AVERROR_EOF < 0.
Proof.
  apply (apply_audio_remix_returns_negative Sample.two_packets
           Sample.cuda_stream [2; 0] 2 10 Sample.empty AVERROR_EOF
           (mkWorld []
              [EvFrameFree None;
               EvReadFrame AVERROR_EOF 0;
               EvReceiveFrame None (AVERROR EAGAIN); EvSendPacket 0;
               EvReadFrame 0 0;
               EvReceiveFrame None (AVERROR EAGAIN); EvSendPacket 0;
               EvReadFrame 0 0])).
  reflexivity.
Defined.

(** X19. [apply_audio_remix] never remixes a frame.  In no run is
    [av_frame_get_buffer] called; and as soon as the decoder delivers a
    frame (a receive call returns 0 or more) the run is over: [frame] is
    NULL, so [remix_audio] either fails to allocate and the function
    returns [AVERROR(ENOMEM)], or dereferences the NULL pointer.  In
    every other run all receive calls returned a negative value. *)
Theorem apply_audio_remix_never_remixes
    (E : Env) (ist : InputStream) (remix_map : list Z) (remix_size : Z)
    (fuel : nat) (w : World) :
  let r := apply_audio_remix E ist remix_map remix_size fuel w in
  extends not_get_buffer w (world_of r) /\
  (extends receive_failed w (world_of r) \/
   (exists w', r = Undefined w') \/
   (exists w', r = Done (AVERROR ENOMEM) w')).
Proof.
  cbv zeta. unfold apply_audio_remix. split.
  - destruct (read_loop_NULL_trace E ist remix_map remix_size not_get_buffer)
      with (fuel := fuel) (w := w) as [X N]; simpl; auto.
    destruct (read_loop E ist remix_map remix_size fuel None w)
      as [[ret frame'] w1 | w1 | w1]; simpl in *; try exact X.
    apply extends_emit; [exact I | exact X].
  - pose proof (read_loop_NULL_delivery E ist remix_map remix_size fuel w)
      as D. cbv zeta in D.
    destruct (read_loop E ist remix_map remix_size fuel None w)
      as [[ret frame'] w1 | w1 | w1]; simpl in *.
    + destruct D as [X | [(w' & Hx) | (w' & Hx)]]; [|discriminate|].
      * left. apply extends_emit; [exact I | exact X].
      * inversion Hx; subst. right. right. eexists. reflexivity.
    + right. left. eexists. reflexivity.
    + destruct D as [X | [(w' & Hx) | (w' & Hx)]];
        [left; exact X | discriminate | discriminate].
Qed.

Example remix_loop_frame_delivered :
  apply_audio_remix (Sample.runtime Sample.all_ok [0] [0]) Sample.cuda_stream
    [2; 0] 2 10 Sample.empty
  = Undefined
      (mkWorld []
         [EvAlloc A_frame_alloc true; EvReceiveFrame None 0; EvSendPacket 0;
          EvReadFrame 0 0])
  /\
  apply_audio_remix (Sample.runtime Sample.no_frame [0] [0])
    Sample.cuda_stream [2; 0] 2 10 Sample.empty
  = Done (AVERROR ENOMEM)
      (mkWorld []
         [EvFrameFree None; EvLog (LogError "Error remixing audio.");
          EvLog (LogError "Could not allocate remix frame.");
          EvAlloc A_frame_alloc false; EvReceiveFrame None 0; EvSendPacket 0;
          EvReadFrame 0 0]).
Proof. split; reflexivity. Qed.

Lemma read_loop_foreign E ist remix_map remix_size fuel :
  (forall h, 0 <= fst (av_read_frame E h) ->
             snd (av_read_frame E h) <> st_index ist) ->
  forall frame w,
    let r := read_loop E ist remix_map remix_size fuel frame w in
    exists packets ending,
      trace (world_of r)
      = (rev (flat_map read_and_release packets ++ ending) ++ trace w)%list /\
      Forall (fun packet => 0 <= fst packet) packets /\
      ((exists w', r = OutOfFuel w' /\ ending = []) \/
       (exists ret i w',
           ret < 0 /\ ending = [EvReadFrame ret i] /\
           r = Done (ret, frame) w')).
Proof.
  intros Hforeign.
  induction fuel as [|fuel IH]; intros frame w.
  { exists [], []. split; [reflexivity|]. split; [constructor|].
    left. exists w. split; reflexivity. }
  cbn [read_loop].
  pose proof (Hforeign (trace w)) as Hi.
  destruct (av_read_frame E (trace w)) as [ret stream_index].
  cbv beta iota zeta. simpl in Hi.
  destruct (ret <? 0) eqn:Hret.
  - exists [], [EvReadFrame ret stream_index].
    split; [reflexivity|]. split; [constructor|].
    right. exists ret, stream_index. eexists.
    split; [now apply Z.ltb_lt|]. split; reflexivity.
  - apply Z.ltb_ge in Hret. specialize (Hi Hret).
    apply Z.eqb_neq in Hi. rewrite Hi.
    destruct (IH frame (emit EvPacketUnref
                          (emit (EvReadFrame ret stream_index) w)))
      as (packets & ending & Ht & Hp & Hend).
    exists ((ret, stream_index) :: packets), ending.
    split; [|split; [now constructor | exact Hend]].
    rewrite Ht. simpl. rewrite <- !app_assoc. reflexivity.
Qed.

(** X20. When no packet the demuxer delivers belongs to the tracked
    stream, a run of [apply_audio_remix] is nothing but reads, each
    successful one followed at once by the release of its packet, up to
    the first failing read, whose code is returned after
    [av_frame_free]: the decoder is never called. *)
Theorem apply_audio_remix_foreign_packets
    (E : Env) (ist : InputStream) (remix_map : list Z) (remix_size : Z)
    (fuel : nat) (w : World) :
  (forall h, 0 <= fst (av_read_frame E h) ->
             snd (av_read_frame E h) <> st_index ist) ->
  let r := apply_audio_remix E ist remix_map remix_size fuel w in
  exists packets ending,
    rev (trace (world_of r))
    = (rev (trace w) ++ flat_map read_and_release packets ++ ending)%list /\
    Forall (fun packet => 0 <= fst packet) packets /\
    ((exists w', r = OutOfFuel w' /\ ending = []) \/
     (exists ret i w',
         ret < 0 /\ ending = [EvReadFrame ret i; EvFrameFree None] /\
         r = Done ret w')).
Proof.
  intros Hforeign. cbv zeta. unfold apply_audio_remix.
  destruct (read_loop_foreign E ist remix_map remix_size fuel Hforeign None w)
    as (packets & ending & Ht & Hp & Hend).
  cbv zeta in Ht, Hend.
  destruct Hend as [(w' & Hr & ->) | (ret & i & w' & Hneg & -> & Hr)];
    rewrite Hr in *; simpl in Ht.
  - exists packets, []. split; [|split; [exact Hp|]].
    + simpl. rewrite Ht, rev_app_distr, rev_involutive. reflexivity.
    + left. exists w'. split; reflexivity.
  - exists packets, [EvReadFrame ret i; EvFrameFree None].
    split; [|split; [exact Hp|]].
    + simpl. rewrite Ht, rev_app_distr, rev_involutive.
      rewrite <- !app_assoc. reflexivity.
    + right. exists ret, i. eexists. split; [exact Hneg|].
      split; reflexivity.
Qed.

Lemma apply_audio_remix_foreign_packets_witness :
  exists packets ending,
    rev (trace (world_of
                  (apply_audio_remix (Sample.runtime Sample.all_ok [1; 1] [])
                     Sample.cuda_stream [2; 0] 2 10 Sample.empty)))
    = (rev (trace Sample.empty) ++ flat_map read_and_release packets
         ++ ending)%list /\
    Forall (fun packet => 0 <= fst packet) packets /\
    ((exists w',
         apply_audio_remix (Sample.runtime Sample.all_ok [1; 1] [])
           Sample.cuda_stream [2; 0] 2 10 Sample.empty = OutOfFuel w' /\
         ending = []) \/
     (exists ret i w',
         ret < 0 /\ ending = [EvReadFrame ret i; EvFrameFree None] /\
         apply_audio_remix (Sample.runtime Sample.all_ok [1; 1] [])
           Sample.cuda_stream [2; 0] 2 10 Sample.empty = Done ret w')).
Proof.
  apply (apply_audio_remix_foreign_packets
           (Sample.runtime Sample.all_ok [1; 1] []) Sample.cuda_stream
           [2; 0] 2 10 Sample.empty).
  intros h. simpl.
  destruct (Sample.count Sample.is_read h) as [|[|[|n]]]; simpl;
    intros H; first [discriminate | exfalso; apply H; reflexivity].
Defined.
